(** * Stroke_prediction: the prediction, risk-scoring and dashboard core

    A shallow embedding of [enhanced_app.py]: the risk-factor analyzer
    ([calculate_risk_factors]), the probability-to-tier mapping and the
    recommendation rules of [predict], the SQLite-backed record store
    ([save_prediction_to_db]) and the aggregation queries of
    [get_dashboard_data].

    Numbers.  Python's [float] and [int] values are embedded as exact
    rationals ([Q]); every numeric constant of the source is a decimal
    literal and is embedded as that decimal.  The arithmetic of the
    risk scores is exact.  Where the code rounds a computed quotient to
    the figure it reports ([risk_percentage]), the double-precision
    arithmetic is modelled ([binary64]); so is the overflow of [float]
    on an [int] beyond the range of a double.

    Dictionaries.  The JSON body of a request is a [gmap string pyval];
    [data.get(k, d)] is [get data k d]. *)

From Stdlib Require Import QArith Qpower Qabs Qminmax ZArith Lia Lqa List
  Sorted Bool String.
From Stdlib Require OrderedTypeEx Qround.
From stdpp Require Import base option strings gmap.
Import ListNotations.

Local Open Scope Q_scope.
Local Open Scope string_scope.

(** ** Python values and builtins *)

Module Py.

(** What [request.json] can put in a dictionary slot.  [VNum] is a
    finite number, a [float] or an [int]: the two are not told apart.
    [VStr] is text, given by its encoding.  [VOther] stands for the containers (JSON arrays and objects): no
    builtin used here accepts them, and SQLite cannot bind them.  The
    non-finite floats (NaN, Infinity), which Python's [json] reads as
    well, are not represented. *)
Inductive pyval : Type :=
  | VNone
  | VBool (b : bool)
  | VNum (q : Q)
  | VStr (s : string)
  | VOther.

(** [x < y] on rationals, as a test. *)
Definition Qltb (x y : Q) : bool :=
  (Qnum x * QDen y <? Qnum y * QDen x)%Z.

(** [True] and [False] as the numbers they are. *)
Definition bool_num (b : bool) : Q := if b then 1 else 0.

(** [max(a, b)]: the first argument wins unless the second is larger. *)
Definition py_max (a b : Q) : Q := if Qltb a b then b else a.

(** Rounding to the nearest integer, ties to the even neighbour. *)
Definition round_half_even (x : Q) : Z :=
  let n := Qnum x in
  let d := Zpos (Qden x) in
  let q := (n / d)%Z in
  let r := (n mod d)%Z in
  if (2 * r <? d)%Z then q
  else if (d <? 2 * r)%Z then (q + 1)%Z
  else if Z.even q then q else (q + 1)%Z.

(** The decimal with [ndigits] places nearest to [x], ties to the even
    last digit: what [round(x, ndigits)] selects, and what JSON prints
    for its result. *)
Definition py_round (x : Q) (ndigits : nat) : Q :=
  let scale := (10 ^ Z.of_nat ndigits)%Z in
  Qmake (round_half_even (x * inject_Z scale)) (Z.to_pos scale).

(** [floor (log2 x)] for [x > 0]. *)
Definition ilog2 (x : Q) : Z :=
  let e := (Z.log2 (Qnum x) - Z.log2 (Zpos (Qden x)))%Z in
  if Qltb x (2 ^ e) then (e - 1)%Z else e.

(** The double nearest to [x], ties to the even significand (IEEE 754
    binary64, round to nearest even): 53 significant bits, and no
    exponent below that of the subnormals, [2 ^ -1074].  For [x] below
    the overflow threshold, which holds where it is used: the
    percentages stay within [0, 100]. *)
Definition binary64 (x : Q) : Q :=
  if Qeq_bool x 0 then 0
  else
    let a := Qabs x in
    let e := Z.max (ilog2 a - 52) (-1074) in
    let r := inject_Z (round_half_even (a / 2 ^ e)) * 2 ^ e in
    if Qltb x 0 then - r else r.

(** [a / b] on two [int]s: the quotient, correctly rounded. *)
Definition true_div (a b : Q) : Q := binary64 (a / b).

(** [x * y] on [float]s (an [int] operand is converted first; 100 is
    a double). *)
Definition float_mul (x y : Q) : Q := binary64 (x * y).

(** [round(x, ndigits)] on a [float]: the decimal nearest to the exact
    value of [x], then the double nearest to that decimal.  On the
    [int] 0 it is 0. *)
Definition float_round (x : Q) (ndigits : nat) : Q :=
  binary64 (py_round x ndigits).

(** Truthiness of an integer, as in [if prediction_id:]. *)
Definition truthy_int (z : Z) : bool := negb (z =? 0)%Z.

(** [float] raises [OverflowError] on an [int] that rounds beyond the
    largest double: from [2 ^ 1024 - 2 ^ 970] on, in absolute value.  A
    [float] is always below it. *)
Definition float_overflow : Q := inject_Z (2 ^ 1024 - 2 ^ 970).

Section Builtins.

(** [float(s)] and [int(s)] on text are the interpreter's own parsers;
    they are taken as given.  [None] is a raised [ValueError]. *)
Variable str_to_float : string -> option Q.
Variable str_to_int : string -> option Z.

(** [float(v)]; [None] is a raised [TypeError], [ValueError] or
    [OverflowError]. *)
Definition py_float (v : pyval) : option Q :=
  match v with
  | VNone => None
  | VBool b => Some (bool_num b)
  | VNum q => if Qltb (Qabs q) float_overflow then Some q else None
  | VStr s => str_to_float s
  | VOther => None
  end.

(** [int(v)]: numbers are truncated towards zero. *)
Definition py_int (v : pyval) : option Z :=
  match v with
  | VNone => None
  | VBool b => Some (if b then 1 else 0)%Z
  | VNum q => Some (Z.quot (Qnum q) (Zpos (Qden q)))
  | VStr s => str_to_int s
  | VOther => None
  end.

End Builtins.

(** Sequencing of calls that may raise: [None] is a raised exception and
    ends the computation. *)
Definition and_then {A B : Type} (m : option A) (k : A -> option B)
  : option B :=
  match m with
  | Some a => k a
  | None => None
  end.

(** [a and b]: [b] is evaluated only when [a] holds. *)
Definition py_and (a : bool) (b : option bool) : option bool :=
  if a then b else Some false.

(** [v > c] for a numeric constant [c]; ordering a number against text,
    [None] or a container raises [TypeError]. *)
Definition py_gt_num (v : pyval) (c : Q) : option bool :=
  match v with
  | VBool b => Some (Qltb c (bool_num b))
  | VNum q => Some (Qltb c q)
  | _ => None
  end.

(** [v == s] for a string constant [s]; never raises. *)
Definition py_eq_str (v : pyval) (s : string) : bool :=
  match v with
  | VStr t => String.eqb t s
  | _ => false
  end.

(** [data.get(k, d)] *)
Definition get (data : gmap string pyval) (k : string) (d : pyval) : pyval :=
  default d (data !! k).

(** [data.get(k)] *)
Definition get_or_none (data : gmap string pyval) (k : string) : pyval :=
  get data k VNone.

End Py.
Export Py.

Notation "x <- m ;; k" := (and_then m (fun x => k))
  (at level 100, m at next level, right associativity).

(** ** Risk Factor Analyzer: [calculate_risk_factors] *)

(** One entry of the [factors] list: the dictionary with keys [name],
    [value], [contribution], [unit] and [risk_category]. *)
Record factor : Type := mk_factor {
  name : string;
  value : pyval;
  contribution : Q;
  unit_ : string;
  risk_category : string
}.

(** Age risk (increases after 50). *)
Definition age_factor (age : Q) : factor :=
  let age_risk := if Qltb 50 age then py_max 0 ((age - 50) * 0.02) else 0 in
  {| name := "Age";
     value := VNum age;
     contribution := age_risk;
     unit_ := "years";
     risk_category :=
       if Qltb 65 age then "High" else if Qltb 50 age then "Medium" else "Low" |}.

Definition bmi_factor (bmi : Q) : factor :=
  let bmi_risk := if Qltb 30 bmi then 0.15 else if Qltb 25 bmi then 0.08 else 0 in
  {| name := "BMI";
     value := VNum bmi;
     contribution := bmi_risk;
     unit_ := "kg/mÂ²";
     risk_category :=
       if Qltb 30 bmi then "High" else if Qltb 25 bmi then "Medium" else "Normal" |}.

Definition glucose_factor (glucose : Q) : factor :=
  let glucose_risk :=
    if Qltb 140 glucose then 0.20 else if Qltb 100 glucose then 0.10 else 0 in
  {| name := "Glucose Level";
     value := VNum glucose;
     contribution := glucose_risk;
     unit_ := "mg/dL";
     risk_category :=
       if Qltb 140 glucose then "High"
       else if Qltb 100 glucose then "Medium" else "Normal" |}.

Definition hypertension_factor (hypertension : Z) : factor :=
  let hypertension_risk := if (hypertension =? 1)%Z then 0.25 else 0 in
  {| name := "Hypertension";
     value := VNum (inject_Z hypertension);
     contribution := hypertension_risk;
     unit_ := "Yes/No";
     risk_category := if (hypertension =? 1)%Z then "High" else "Low" |}.

Definition heart_disease_factor (heart_disease : Z) : factor :=
  let heart_risk := if (heart_disease =? 1)%Z then 0.30 else 0 in
  {| name := "Heart Disease";
     value := VNum (inject_Z heart_disease);
     contribution := heart_risk;
     unit_ := "Yes/No";
     risk_category := if (heart_disease =? 1)%Z then "High" else "Low" |}.

Definition smoking_factor (smoking : pyval) : factor :=
  let smoking_risk :=
    if py_eq_str smoking "smokes" then 0.15
    else if py_eq_str smoking "formerly smoked" then 0.10 else 0 in
  {| name := "Smoking Status";
     value := smoking;
     contribution := smoking_risk;
     unit_ := "Category";
     risk_category :=
       if py_eq_str smoking "smokes" then "High"
       else if py_eq_str smoking "formerly smoked" then "Medium" else "Low" |}.

Section Analyzer.

Variable str_to_float : string -> option Q.
Variable str_to_int : string -> option Z.

(** The six conversions run in source order; the first one that raises
    ends the call ([None]). *)
Definition calculate_risk_factors (data : gmap string pyval)
  : option (list factor) :=
  age <- py_float str_to_float (get data "age" (VNum 0));;
  bmi <- py_float str_to_float (get data "bmi" (VNum 0));;
  glucose <- py_float str_to_float (get data "avg_glucose_level" (VNum 0));;
  hypertension <- py_int str_to_int (get data "hypertension" (VNum 0));;
  heart_disease <- py_int str_to_int (get data "heart_disease" (VNum 0));;
  let smoking := get data "smoking_status" (VStr "never smoked") in
  Some [ age_factor age;
         bmi_factor bmi;
         glucose_factor glucose;
         hypertension_factor hypertension;
         heart_disease_factor heart_disease;
         smoking_factor smoking ].

End Analyzer.

(** ** Risk tier, interpretation and recommendations *)

(** The [if]/[elif] chain of [predict] on [stroke_prob]. *)
Definition risk_level_of (stroke_prob : Q) : string :=
  if Qltb stroke_prob 0.2 then "Very Low"
  else if Qltb stroke_prob 0.4 then "Low"
  else if Qltb stroke_prob 0.6 then "Medium"
  else if Qltb stroke_prob 0.8 then "High"
  else "Very High".

Definition get_interpretation (stroke_prob : Q) (risk_factors : list factor)
  : string :=
  if Qltb stroke_prob 0.2 then "Low stroke risk. Maintain healthy lifestyle."
  else if Qltb stroke_prob 0.4 then
    "Moderate risk. Monitor risk factors regularly."
  else if Qltb stroke_prob 0.6 then
    "Elevated risk. Consider lifestyle changes and regular checkups."
  else if Qltb stroke_prob 0.8 then
    "High risk. Consult healthcare provider for preventive measures."
  else "Very high risk. Immediate medical consultation recommended.".

(** The body of the [for factor in risk_factors] loop: what one factor
    appends.  [None] is the [TypeError] of ordering a non-number against
    a number. *)
Definition factor_recommendation (f : factor) : option (list string) :=
  if Qltb 0.1 (contribution f) then
    is_bmi <- py_and (String.eqb (name f) "BMI") (py_gt_num (value f) 25);;
    if (is_bmi : bool) then Some ["Weight management program"]
    else
      is_glucose <- py_and (String.eqb (name f) "Glucose Level")
                           (py_gt_num (value f) 100);;
      if (is_glucose : bool) then Some ["Diabetes screening and management"]
      else if String.eqb (name f) "Smoking Status"
              && (py_eq_str (value f) "smokes"
                  || py_eq_str (value f) "formerly smoked")
      then Some ["Smoking cessation support"]
      else Some []
  else Some [].

Fixpoint factor_recommendations (risk_factors : list factor)
  : option (list string) :=
  match risk_factors with
  | [] => Some []
  | f :: rest =>
      r <- factor_recommendation f;;
      rs <- factor_recommendations rest;;
      Some (r ++ rs)%list
  end.

Definition fallback_recommendations : list string :=
  [ "Maintain current healthy lifestyle";
    "Regular exercise and balanced diet" ].

Definition get_recommendations (stroke_prob : Q) (risk_factors : list factor)
  : option (list string) :=
  let recommendations :=
    if Qltb 0.4 stroke_prob
    then [ "Regular blood pressure monitoring"; "Annual health checkups" ]
    else [] in
  more <- factor_recommendations risk_factors;;
  let recommendations := (recommendations ++ more)%list in
  let recommendations :=
    match recommendations with
    | [] => fallback_recommendations
    | _ => recommendations
    end in
  Some (firstn 5 recommendations).

(** ** Prediction Record Store: the two tables and [sqlite3] *)

(** A stored value: SQLite's storage classes NULL, numeric (INTEGER and
    REAL, both rationals here) and TEXT.  Column affinity is not
    modelled: a value is stored in the class it is bound with, where
    SQLite would keep a number bound to a TEXT column as its text and
    numeric text bound to a numeric column as the number.  What is
    proved about stored rows concerns columns bound with a value of
    their own class; the queries are studied on tables of any
    content. *)
Inductive sqlval : Type :=
  | SNull
  | SNum (q : Q)
  | SText (s : string).

(** The parameter adapter of [sqlite3]: [None] is the module's error on a
    value of an unsupported type.  The module also raises
    [OverflowError] on an [int] outside the signed 64-bit range; as
    [VNum] does not tell such an [int] from a [float], which it binds,
    that error is not modelled, and a successful append is only claimed
    for numbers within that range ([storable] below). *)
Definition bind_param (v : pyval) : option sqlval :=
  match v with
  | VNone => Some SNull
  | VBool b => Some (SNum (bool_num b))
  | VNum q => Some (SNum q)
  | VStr s => Some (SText s)
  | VOther => None
  end.

Fixpoint bind_params (vs : list pyval) : option (list sqlval) :=
  match vs with
  | [] => Some []
  | v :: rest =>
      s <- bind_param v;;
      ss <- bind_params rest;;
      Some (s :: ss)
  end.

(** A row of table [predictions]. *)
Module Prediction.
Record row : Type := mk {
  id : Z;
  patient_id : sqlval;
  timestamp : sqlval;
  gender : sqlval;
  age : sqlval;
  hypertension : sqlval;
  heart_disease : sqlval;
  ever_married : sqlval;
  work_type : sqlval;
  residence_type : sqlval;
  avg_glucose_level : sqlval;
  bmi : sqlval;
  smoking_status : sqlval;
  prediction : sqlval;
  stroke_probability : sqlval;
  no_stroke_probability : sqlval;
  risk_level : sqlval;
  confidence : sqlval;
  notes : sqlval
}.
End Prediction.

(** A row of table [risk_factors]. *)
Module RiskFactor.
Record row : Type := mk {
  id : Z;
  prediction_id : sqlval;
  factor_name : sqlval;
  factor_value : sqlval;
  contribution : sqlval
}.
End RiskFactor.

(** The database file: both tables and, per table, the last id handed
    out by AUTOINCREMENT. *)
Record db : Type := mk_db {
  predictions : list Prediction.row;
  risk_factors : list RiskFactor.row;
  last_prediction_id : Z;
  last_risk_factor_id : Z
}.

Definition empty_db : db :=
  {| predictions := []; risk_factors := [];
     last_prediction_id := 0; last_risk_factor_id := 0 |}.

(** An open connection in the module's default transaction mode: the
    first INSERT opens a transaction; its writes live in [pending] until
    [commit] publishes them.  Whatever is pending when the connection is
    closed or dropped is rolled back. *)
Record connection : Type := mk_connection {
  committed : db;
  pending : option db
}.

Definition view (c : connection) : db := default (committed c) (pending c).

Definition connect (disk : db) : connection :=
  {| committed := disk; pending := None |}.

Definition on_disk (c : connection) : db := committed c.

(** The calls of [save_prediction_to_db] that reach the database. *)
Inductive db_call : Type :=
  | Connect
  | InsertPrediction
  | InsertFactor (k : nat)
  | Commit
  | Close.

(** The surroundings of one call: the two readings of the clock and
    which database calls raise (lock, disk, I/O). *)
Record env : Type := mk_env {
  strftime_now : string;
  isoformat_now : string;
  raises : db_call -> bool
}.

(** Code running against a connection, inside the [try]: [None] is a
    raised exception; the connection is left as it was at that point. *)
Definition dbm (A : Type) : Type := connection -> option A * connection.

Definition dbm_ret {A : Type} (a : A) : dbm A := fun c => (Some a, c).

Definition dbm_raise {A : Type} : dbm A := fun c => (None, c).

Definition dbm_bind {A B : Type} (m : dbm A) (k : A -> dbm B) : dbm B :=
  fun c =>
    match m c with
    | (Some a, c') => k a c'
    | (None, c') => (None, c')
    end.

Notation "x <~ m ;; k" := (dbm_bind m (fun x => k))
  (at level 100, m at next level, right associativity).

Definition dbm_try {A : Type} (o : option A) : dbm A :=
  match o with
  | Some a => dbm_ret a
  | None => dbm_raise
  end.

(** A database call raises when the surroundings say so. *)
Definition db_step (e : env) (call : db_call) : dbm unit :=
  fun c => if raises e call then (None, c) else (Some tt, c).

Definition prediction_row (id : Z) (ps : list sqlval)
  : option Prediction.row :=
  match ps with
  | [ patient_id; timestamp; gender; age; hypertension; heart_disease;
      ever_married; work_type; residence_type; avg_glucose_level; bmi;
      smoking_status; prediction; stroke_probability;
      no_stroke_probability; risk_level; confidence; notes ] =>
      Some (Prediction.mk id patient_id timestamp gender age hypertension
              heart_disease ever_married work_type residence_type
              avg_glucose_level bmi smoking_status prediction
              stroke_probability no_stroke_probability risk_level
              confidence notes)
  | _ => None
  end.

Definition risk_factor_row (id : Z) (ps : list sqlval)
  : option RiskFactor.row :=
  match ps with
  | [ prediction_id; factor_name; factor_value; contribution ] =>
      Some (RiskFactor.mk id prediction_id factor_name factor_value
              contribution)
  | _ => None
  end.

(** [cursor.execute('INSERT INTO predictions ...', params)] followed by
    [cursor.lastrowid]. *)
Definition execute_insert_prediction (e : env) (params : list pyval)
  : dbm Z :=
  _ <~ db_step e InsertPrediction;;
  ps <~ dbm_try (bind_params params);;
  fun c =>
    let w := view c in
    let id := (last_prediction_id w + 1)%Z in
    match prediction_row id ps with
    | None => (None, c)
    | Some r =>
        (Some id,
         {| committed := committed c;
            pending := Some {| predictions := predictions w ++ [r];
                               risk_factors := risk_factors w;
                               last_prediction_id := id;
                               last_risk_factor_id := last_risk_factor_id w |}
         |})
    end.

(** [cursor.execute('INSERT INTO risk_factors ...', params)], the [k]-th
    of the loop. *)
Definition execute_insert_factor (e : env) (k : nat) (params : list pyval)
  : dbm unit :=
  _ <~ db_step e (InsertFactor k);;
  ps <~ dbm_try (bind_params params);;
  fun c =>
    let w := view c in
    let id := (last_risk_factor_id w + 1)%Z in
    match risk_factor_row id ps with
    | None => (None, c)
    | Some r =>
        (Some tt,
         {| committed := committed c;
            pending := Some {| predictions := predictions w;
                               risk_factors := risk_factors w ++ [r];
                               last_prediction_id := last_prediction_id w;
                               last_risk_factor_id := id |}
         |})
    end.

(** [conn.commit()] *)
Definition commit (e : env) : dbm unit :=
  _ <~ db_step e Commit;;
  fun c => (Some tt, {| committed := view c; pending := None |}).

(** [conn.close()]: an open transaction is rolled back. *)
Definition close (e : env) : dbm unit :=
  _ <~ db_step e Close;;
  fun c => (Some tt, {| committed := committed c; pending := None |}).

(** ** The prediction endpoint *)

(** The [result] dictionary of [predict].  The three keys written only
    after a successful save are optional: [None] is an absent key. *)
Module Result.
Record t : Type := mk {
  prediction : Z;
  probability_no_stroke : Q;
  probability_stroke : Q;
  risk_level : string;
  confidence : Q;
  risk_factors : list factor;
  interpretation : string;
  recommendations : list string;
  prediction_id : option Z;
  patient_id : option pyval;
  saved_to_database : option bool
}.
End Result.

(** The 18 values of the parent INSERT, in the order of its tuple. *)
Definition prediction_params (e : env) (data : gmap string pyval)
    (result : Result.t) (patient_id : pyval) : list pyval :=
  [ patient_id;
    VStr (isoformat_now e);
    get_or_none data "gender";
    get_or_none data "age";
    get_or_none data "hypertension";
    get_or_none data "heart_disease";
    get_or_none data "ever_married";
    get_or_none data "work_type";
    get_or_none data "Residence_type";
    get_or_none data "avg_glucose_level";
    get_or_none data "bmi";
    get_or_none data "smoking_status";
    VNum (inject_Z (Result.prediction result));
    VNum (Result.probability_stroke result);
    VNum (Result.probability_no_stroke result);
    VStr (Result.risk_level result);
    VNum (Result.confidence result);
    get data "notes" (VStr "") ].

Definition factor_params (prediction_id : Z) (f : factor) : list pyval :=
  [ VNum (inject_Z prediction_id); VStr (name f); value f;
    VNum (contribution f) ].

(** The [for factor in result['risk_factors']] loop; [k] counts the
    inserts already made. *)
Fixpoint insert_factors (e : env) (prediction_id : Z) (k : nat)
    (fs : list factor) : dbm unit :=
  match fs with
  | [] => dbm_ret tt
  | f :: rest =>
      _ <~ execute_insert_factor e k (factor_params prediction_id f);;
      insert_factors e prediction_id (S k) rest
  end.

(** The body of the [try] once the connection is open.  The test
    ['risk_factors' in result] is always true: [predict] builds [result]
    with that key. *)
Definition save_attempt (e : env) (data : gmap string pyval)
    (result : Result.t) : dbm (Z * pyval) :=
  let patient_id :=
    get data "patient_id" (VStr ("PATIENT_" ++ strftime_now e)) in
  prediction_id <~
    execute_insert_prediction e (prediction_params e data result patient_id);;
  _ <~ insert_factors e prediction_id 0 (Result.risk_factors result);;
  _ <~ commit e;;
  _ <~ close e;;
  dbm_ret (prediction_id, patient_id).

(** [save_prediction_to_db(data, result)]: the pair of ids, or [None]
    for the [(None, None)] of the [except] branch, and the database file
    the call leaves behind.  The connection is local to the call, so on
    every exit what it had not committed is gone. *)
Definition save_prediction_to_db (e : env) (data : gmap string pyval)
    (result : Result.t) (disk : db) : option (Z * pyval) * db :=
  if raises e Connect then (None, disk)
  else
    let '(out, c) := save_attempt e data result (connect disk) in
    (out, on_disk c).

(** What [predict] sends back: [jsonify(result)], or the error body with
    status 500. *)
Inductive response : Type :=
  | Ok (result : Result.t)
  | ServerError.

Section Predict.

Variable str_to_float : string -> option Q.
Variable str_to_int : string -> option Z.

(** The loaded pipeline: [model.predict(df)[0]] and the two entries of
    [model.predict_proba(df)[0]]; [None] when it raises. *)
Variable model : gmap string pyval -> option (Z * (Q * Q)).

(** [predict] up to the line that saves: the [result] dictionary. *)
Definition prediction_result (data : gmap string pyval)
  : option Result.t :=
  out <- model data;;
  let pred := fst out in
  let prob := snd out in
  let stroke_prob := snd prob in
  let risk := risk_level_of stroke_prob in
  risk_factors <- calculate_risk_factors str_to_float str_to_int data;;
  let interpretation := get_interpretation stroke_prob risk_factors in
  recommendations <- get_recommendations stroke_prob risk_factors;;
  Some {| Result.prediction := pred;
          Result.probability_no_stroke := fst prob;
          Result.probability_stroke := snd prob;
          Result.risk_level := risk;
          Result.confidence := py_max (fst prob) (snd prob) * 100;
          Result.risk_factors := risk_factors;
          Result.interpretation := interpretation;
          Result.recommendations := recommendations;
          Result.prediction_id := None;
          Result.patient_id := None;
          Result.saved_to_database := None |}.

Definition with_database_info (result : Result.t) (prediction_id : Z)
    (patient_id : pyval) : Result.t :=
  {| Result.prediction := Result.prediction result;
     Result.probability_no_stroke := Result.probability_no_stroke result;
     Result.probability_stroke := Result.probability_stroke result;
     Result.risk_level := Result.risk_level result;
     Result.confidence := Result.confidence result;
     Result.risk_factors := Result.risk_factors result;
     Result.interpretation := Result.interpretation result;
     Result.recommendations := Result.recommendations result;
     Result.prediction_id := Some prediction_id;
     Result.patient_id := Some patient_id;
     Result.saved_to_database := Some true |}.

(** The [/predict] handler on request body [data] against the database
    file [disk]. *)
Definition predict (e : env) (data : gmap string pyval) (disk : db)
  : response * db :=
  match prediction_result data with
  | None => (ServerError, disk)
  | Some result =>
      let '(saved, disk') := save_prediction_to_db e data result disk in
      match saved with
      | Some (prediction_id, patient_id) =>
          if truthy_int prediction_id
          then (Ok (with_database_info result prediction_id patient_id),
                disk')
          else (Ok result, disk')
      | None => (Ok result, disk')
      end
  end.

End Predict.

(** ** Aggregation Engine: the queries of [get_dashboard_data] *)

(** SQL conditions are three-valued: [None] is NULL (unknown). *)
Definition sql_and (a b : option bool) : option bool :=
  match a, b with
  | Some false, _ => Some false
  | _, Some false => Some false
  | Some true, Some true => Some true
  | _, _ => None
  end.

(** [v < c] and [v > c] against a numeric literal.  In SQLite's order of
    storage classes every TEXT value is greater than every number. *)
Definition sql_lt_num (v : sqlval) (c : Q) : option bool :=
  match v with
  | SNull => None
  | SNum q => Some (Qltb q c)
  | SText _ => Some false
  end.

Definition sql_gt_num (v : sqlval) (c : Q) : option bool :=
  match v with
  | SNull => None
  | SNum q => Some (Qltb c q)
  | SText _ => Some true
  end.

(** [v = s] and [v IN (s1, ..., sn)] for text literals. *)
Definition sql_eq_text (v : sqlval) (s : string) : option bool :=
  match v with
  | SNull => None
  | SNum _ => Some false
  | SText t => Some (String.eqb t s)
  end.

Definition sql_in_text (v : sqlval) (l : list string) : option bool :=
  match v with
  | SNull => None
  | SNum _ => Some false
  | SText t => Some (existsb (String.eqb t) l)
  end.

(** A WHERE clause keeps a row, and a CASE takes a WHEN branch, only on
    a condition that is true. *)
Definition holds (c : option bool) : bool :=
  match c with
  | Some true => true
  | _ => false
  end.

Definition select_where (cond : Prediction.row -> option bool)
    (rows : list Prediction.row) : list Prediction.row :=
  List.filter (fun r => holds (cond r)) rows.

(** [SELECT COUNT( * ) ... WHERE cond] *)
Definition count_where (cond : Prediction.row -> option bool)
    (rows : list Prediction.row) : nat :=
  length (select_where cond rows).

(** [SUM(CASE WHEN cond THEN 1 ELSE 0 END)]: NULL over no rows. *)
Definition sum_case (cond : Prediction.row -> option bool)
    (rows : list Prediction.row) : option nat :=
  match rows with
  | [] => None
  | _ => Some (length (List.filter (fun r => holds (cond r)) rows))
  end.

(** Equality of stored values as GROUP BY sees it (NULLs form a group). *)
Definition sqlval_eqb (a b : sqlval) : bool :=
  match a, b with
  | SNull, SNull => true
  | SNum x, SNum y => Qeq_bool x y
  | SText s, SText t => String.eqb s t
  | _, _ => false
  end.

Section GroupBy.

Context {K : Type} (eqb : K -> K -> bool).

Fixpoint bump (k : K) (acc : list (K * nat)) : list (K * nat) :=
  match acc with
  | [] => [(k, 1%nat)]
  | (k', n) :: rest =>
      if eqb k k' then (k', S n) :: rest else (k', n) :: bump k rest
  end.

(** [SELECT key, COUNT( * ) ... GROUP BY key]: one pair per distinct
    key, here in order of first appearance. *)
Definition group_count (keys : list K) : list (K * nat) :=
  fold_left (fun acc k => bump k acc) keys [].

(** Reading a key of [dict(cursor.fetchall())], 0 when absent. *)
Fixpoint count_of (k : K) (d : list (K * nat)) : nat :=
  match d with
  | [] => 0%nat
  | (k', n) :: rest => if eqb k k' then n else count_of k rest
  end.

End GroupBy.

Definition is_high_label (r : Prediction.row) : option bool :=
  sql_in_text (Prediction.risk_level r) ["High"; "Very High"].

(** [WHERE risk_level IN ('High', 'Very High') AND stroke_probability > 0.5] *)
Definition high_risk_condition (r : Prediction.row) : option bool :=
  sql_and (is_high_label r) (sql_gt_num (Prediction.stroke_probability r) 0.5).

(** The CASE expression that names the age group of a row. *)
Definition age_group (age : sqlval) : string :=
  if holds (sql_lt_num age 30) then "Under 30"
  else if holds (sql_lt_num age 50) then "30-49"
  else if holds (sql_lt_num age 65) then "50-64"
  else "65+".

(** The CASE expression of the ORDER BY clause. *)
Definition age_group_rank (g : string) : nat :=
  if String.eqb g "Under 30" then 1
  else if String.eqb g "30-49" then 2
  else if String.eqb g "50-64" then 3
  else 4.

Section OrderBy.

Context {A : Type} (key : A -> nat).

Fixpoint insert_by (x : A) (l : list A) : list A :=
  match l with
  | [] => [x]
  | y :: rest =>
      if (key x <? key y)%nat then x :: y :: rest
      else y :: insert_by x rest
  end.

(** [ORDER BY key], ascending. *)
Fixpoint order_by (l : list A) : list A :=
  match l with
  | [] => []
  | x :: rest => insert_by x (order_by rest)
  end.

End OrderBy.

(** The age-distribution query: rows of [(age_group, count)]. *)
Definition age_distribution (rows : list Prediction.row)
  : list (string * nat) :=
  order_by (fun gc => age_group_rank (fst gc))
    (group_count String.eqb
       (List.map (fun r => age_group (Prediction.age r)) rows)).

(** One value of [gender_risk_stats]. *)
Module GenderStat.
Record t : Type := mk {
  total : nat;
  high_risk : nat;
  risk_percentage : Q
}.
End GenderStat.

Definition Qnat (n : nat) : Q := inject_Z (Z.of_nat n).

Definition truthy_nat (n : nat) : bool := negb (n =? 0)%nat.

(** The body of [for gender in ['Male', 'Female']].  The aggregate
    query always yields one row, so [if result:] takes its first
    branch.  The percentage is computed as the code does, in double
    precision: the quotient of the two counts, its product with 100,
    and [round(_, 2)] of that. *)
Definition gender_risk_stat (rows : list Prediction.row) (gender : string)
  : GenderStat.t :=
  let selected :=
    select_where (fun r => sql_eq_text (Prediction.gender r) gender) rows in
  let total := length selected in
  let high_risk := sum_case is_high_label selected in
  let total_gender := if truthy_nat total then total else 0%nat in
  let high_risk_gender :=
    match high_risk with
    | Some h => if truthy_nat h then h else 0%nat
    | None => 0%nat
    end in
  let risk_percentage :=
    if truthy_nat total_gender && (0 <? total_gender)%nat then
      if truthy_nat high_risk_gender
      then float_mul (true_div (Qnat high_risk_gender) (Qnat total_gender))
                     100
      else 0
    else 0 in
  {| GenderStat.total := total_gender;
     GenderStat.high_risk := high_risk_gender;
     GenderStat.risk_percentage := float_round risk_percentage 2 |}.

Definition gender_risk_stats (rows : list Prediction.row)
  : gmap string GenderStat.t :=
  fold_left (fun stats gender => <[gender := gender_risk_stat rows gender]> stats)
    ["Male"; "Female"] ∅.

(** The part of the dictionary of [/dashboard-data] studied here (the
    other keys come from queries of their own). *)
Record dashboard : Type := mk_dashboard {
  total_predictions : nat;
  gender_distribution : list (sqlval * nat);
  risk_distribution : list (sqlval * nat);
  high_risk_patients : nat;
  age_distribution_ : list (string * nat);
  gender_risk_stats_ : gmap string GenderStat.t
}.

(** The queries of [get_dashboard_data]: the dictionary that the
    function builds and hands to [jsonify].  What the endpoint answers
    with it is [dashboard_data_response] below. *)
Definition get_dashboard_data (disk : db) : dashboard :=
  let rows := predictions disk in
  {| total_predictions := length rows;
     gender_distribution :=
       group_count sqlval_eqb (List.map Prediction.gender rows);
     risk_distribution :=
       group_count sqlval_eqb (List.map Prediction.risk_level rows);
     high_risk_patients := count_where high_risk_condition rows;
     age_distribution_ := age_distribution rows;
     gender_risk_stats_ := gender_risk_stats rows |}.

(** ** The response of [get_dashboard_data] *)

Definition is_text (v : sqlval) : bool :=
  match v with
  | SText _ => true
  | _ => false
  end.

Definition is_numeric (v : sqlval) : bool :=
  match v with
  | SNum _ => true
  | _ => false
  end.

(** [jsonify] writes every dictionary with its keys sorted (Flask's
    default).  Python orders strings among themselves and numbers among
    themselves; between [None], a string and a number [<] raises
    [TypeError].  A dictionary with a single key sorts without a
    comparison. *)
Definition sortable_keys (keys : list sqlval) : bool :=
  match keys with
  | [] => true
  | [_] => true
  | _ => forallb is_text keys || forallb is_numeric keys
  end.

(** What the endpoint sends: the statistics, or the error body with
    status 500 of the [except] branch. *)
Inductive dashboard_response : Type :=
  | Statistics (d : dashboard)
  | DashboardError.

(** [jsonify] on the dictionary.  The keys of [gender_distribution] and
    of [risk_distribution] are stored values.  Those of
    [age_distribution_by_gender] are the stored genders again, so they
    sort exactly when those of [gender_distribution] do; every other
    dictionary of the body has the string keys that the code writes. *)
Definition jsonify_dashboard (d : dashboard) : dashboard_response :=
  if sortable_keys (List.map fst (gender_distribution d))
     && sortable_keys (List.map fst (risk_distribution d))
  then Statistics d
  else DashboardError.

(** [get_dashboard_data] as the client sees it. *)
Definition dashboard_data_response (disk : db) : dashboard_response :=
  jsonify_dashboard (get_dashboard_data disk).

(** * Specification vocabulary and example data *)

(** ** Tiers and risk factors, in the specification's words *)

(** The five tiers. *)
Definition risk_tiers : list string :=
  ["Very Low"; "Low"; "Medium"; "High"; "Very High"].

(** The contributions as the specification words them. *)
Definition spec_age (age : Q) (f : factor) : Prop :=
  (50 < age -> contribution f == Qmax 0 ((age - 50) * 0.02))
  /\ (age <= 50 -> contribution f == 0)
  /\ (65 < age -> risk_category f = "High")
  /\ (50 < age /\ age <= 65 -> risk_category f = "Medium")
  /\ (age <= 50 -> risk_category f = "Low").

(** A factor with two cut points: [w_hi] above [hi], [w_mid] in
    [(lo, hi]], nothing at or below [lo]. *)
Definition spec_steps (x lo hi w_mid w_hi : Q) (f : factor) : Prop :=
  (hi < x -> contribution f == w_hi /\ risk_category f = "High")
  /\ (lo < x /\ x <= hi ->
      contribution f == w_mid /\ risk_category f = "Medium")
  /\ (x <= lo -> contribution f == 0 /\ risk_category f = "Normal").

(** A yes/no factor: [w] when the flag is 1. *)
Definition spec_flag (flag : Z) (w : Q) (f : factor) : Prop :=
  (flag = 1%Z -> contribution f == w /\ risk_category f = "High")
  /\ (flag <> 1%Z -> contribution f == 0 /\ risk_category f = "Low").

(** Smoking: 0.15 for a current, 0.10 for a former smoker. *)
Definition spec_smoking (smoking : pyval) (f : factor) : Prop :=
  (smoking = VStr "smokes" ->
     contribution f == 0.15 /\ risk_category f = "High")
  /\ (smoking = VStr "formerly smoked" ->
     contribution f == 0.10 /\ risk_category f = "Medium")
  /\ (smoking <> VStr "smokes" -> smoking <> VStr "formerly smoked" ->
     contribution f == 0 /\ risk_category f = "Low").

(** Exactly six factors, in the fixed order, each with its value and its
    contribution. *)
Definition spec_risk_factors (age bmi glucose : Q) (hypertension
    heart_disease : Z) (smoking : pyval) (fs : list factor) : Prop :=
  exists f_age f_bmi f_glucose f_hypertension f_heart f_smoking,
    fs = [f_age; f_bmi; f_glucose; f_hypertension; f_heart; f_smoking]
    /\ List.map name fs =
       [ "Age"; "BMI"; "Glucose Level"; "Hypertension"; "Heart Disease";
         "Smoking Status" ]
    /\ List.map value fs =
       [ VNum age; VNum bmi; VNum glucose; VNum (inject_Z hypertension);
         VNum (inject_Z heart_disease); smoking ]
    /\ spec_age age f_age
    /\ spec_steps bmi 25 30 0.08 0.15 f_bmi
    /\ spec_steps glucose 100 140 0.10 0.20 f_glucose
    /\ spec_flag hypertension 0.25 f_hypertension
    /\ spec_flag heart_disease 0.30 f_heart
    /\ spec_smoking smoking f_smoking.

(** ** The scenario of the specification *)

(** The record of the specification's scenario. *)
Definition scenario_record : gmap string pyval :=
  list_to_map
    [ ("age", VNum 70); ("bmi", VNum 32); ("avg_glucose_level", VNum 150);
      ("hypertension", VNum 1); ("heart_disease", VNum 0);
      ("smoking_status", VStr "smokes") ].

(** Name, category and contribution (in lowest terms) of a factor. *)
Definition summary (f : factor) : string * string * Q :=
  (name f, risk_category f, Qred (contribution f)).

(** What the specification expects on the scenario. *)
Definition scenario_summary : list (string * string * Q) :=
  [ ("Age", "High", Qred 0.40);
    ("BMI", "High", Qred 0.15);
    ("Glucose Level", "High", Qred 0.20);
    ("Hypertension", "High", Qred 0.25);
    ("Heart Disease", "Low", Qred 0.0);
    ("Smoking Status", "High", Qred 0.15) ].

(** Parsers under which no text is a number, to run the analyzer on
    records whose numeric fields hold numbers. *)
Definition no_float_text : string -> option Q := fun _ => None.
Definition no_int_text : string -> option Z := fun _ => None.

(** A record as the data model allows it: [bmi] present and null. *)
Definition null_bmi_record : gmap string pyval :=
  <["bmi" := VNone]> scenario_record.

(** ** Recommendation rules *)

(** Values that can be ordered against a number. *)
Definition is_number (v : pyval) : Prop :=
  match v with
  | VNum _ | VBool _ => True
  | _ => False
  end.

(** The BMI and glucose entries hold numbers, as those the analyzer
    builds do. *)
Definition comparable (f : factor) : Prop :=
  name f = "BMI" \/ name f = "Glucose Level" -> is_number (value f).

(** [v] is a number greater than [c]. *)
Definition number_above (v : pyval) (c : Q) : Prop :=
  match v with
  | VNum q => c < q
  | VBool b => c < bool_num b
  | _ => False
  end.

(** A rule of the per-factor part fires on [f]. *)
Definition rule_fires (f : factor) : Prop :=
  0.1 < contribution f
  /\ ((name f = "BMI" /\ number_above (value f) 25)
      \/ (name f = "Glucose Level" /\ number_above (value f) 100)
      \/ (name f = "Smoking Status"
          /\ (value f = VStr "smokes" \/ value f = VStr "formerly smoked"))).




(** The factors of the scenario record. *)
Definition scenario_factors : list factor :=
  [ age_factor 70; bmi_factor 32; glucose_factor 150;
    hypertension_factor 1; heart_disease_factor 0;
    smoking_factor (VStr "smokes") ].

(** ** Appends to the store *)

(** The [k]-th child insert raises: the surroundings make it fail, or
    the factor's value is of a type SQLite cannot bind. *)
Definition factor_insert_fails (e : env) (k : nat) (f : factor) : Prop :=
  raises e (InsertFactor k) = true \/ bind_param (value f) = None.

(** The rows a complete append writes. *)
Definition stored_prediction (e : env) (data : gmap string pyval)
    (result : Result.t) (disk : db) : option Prediction.row :=
  ps <- bind_params
          (prediction_params e data result
             (get data "patient_id" (VStr ("PATIENT_" ++ strftime_now e))));;
  prediction_row (last_prediction_id disk + 1) ps.

Fixpoint stored_factors (prediction_id last : Z) (fs : list factor)
  : option (list RiskFactor.row) :=
  match fs with
  | [] => Some []
  | f :: rest =>
      ps <- bind_params (factor_params prediction_id f);;
      r <- risk_factor_row (last + 1) ps;;
      rs <- stored_factors prediction_id (last + 1) rest;;
      Some (r :: rs)
  end.

(** The file after the prediction row [r] and its factor rows [rs]. *)
Definition after_append (disk : db) (r : Prediction.row)
    (rs : list RiskFactor.row) : db :=
  {| predictions := predictions disk ++ [r];
     risk_factors := risk_factors disk ++ rs;
     last_prediction_id := Prediction.id r;
     last_risk_factor_id := last_risk_factor_id disk + Z.of_nat (length rs) |}.

(** ** Surroundings of the worked examples *)

(** A pipeline that answers class 1 with probabilities (0.1, 0.9). *)
Definition demo_model : gmap string pyval -> option (Z * (Q * Q)) :=
  fun _ => Some (1%Z, (0.1, 0.9)).

(** A healthy database. *)
Definition quiet : env :=
  {| strftime_now := "20240101120000";
     isoformat_now := "2024-01-01T12:00:00";
     raises := fun _ => false |}.

(** The third child insert (the glucose row) hits an I/O error. *)
Definition glucose_insert_fails : env :=
  {| strftime_now := "20240101120000";
     isoformat_now := "2024-01-01T12:00:00";
     raises := fun call =>
                 match call with
                 | InsertFactor 2 => true
                 | _ => false
                 end |}.

(** What [predict] computes for the scenario record under [demo_model],
    before saving. *)
Definition scenario_result : Result.t :=
  {| Result.prediction := 1;
     Result.probability_no_stroke := 0.1;
     Result.probability_stroke := 0.9;
     Result.risk_level := "Very High";
     Result.confidence := py_max 0.1 0.9 * 100;
     Result.risk_factors := scenario_factors;
     Result.interpretation :=
       "Very high risk. Immediate medical consultation recommended.";
     Result.recommendations :=
       [ "Regular blood pressure monitoring";
         "Annual health checkups";
         "Weight management program";
         "Diabetes screening and management";
         "Smoking cessation support" ];
     Result.prediction_id := None;
     Result.patient_id := None;
     Result.saved_to_database := None |}.

(** A request whose [notes] field is a JSON array: the classifier and
    the analyzer ignore the field, the parent INSERT cannot bind it. *)
Definition unbindable_notes_record : gmap string pyval :=
  <["notes" := VOther]> scenario_record.

(** ** Aggregates, in the specification's words *)

(** The two conditions of the global high-risk count, read off a row. *)
Definition labelled_high (r : Prediction.row) : bool :=
  match Prediction.risk_level r with
  | SText s => String.eqb s "High" || String.eqb s "Very High"
  | _ => false
  end.

(** A stored number above 0.5 (a TEXT value sorts above every number,
    NULL compares as unknown). *)
Definition probability_above_half (r : Prediction.row) : bool :=
  match Prediction.stroke_probability r with
  | SNum q => Qltb 0.5 q
  | SText _ => true
  | SNull => false
  end.

(** A stored prediction with the columns the aggregation reads; the
    other columns are left NULL. *)
Definition stored_row (id : Z) (gender : string) (age : Q)
    (risk_level : string) (stroke_probability : Q) : Prediction.row :=
  {| Prediction.id := id;
     Prediction.patient_id := SNull;
     Prediction.timestamp := SNull;
     Prediction.gender := SText gender;
     Prediction.age := SNum age;
     Prediction.hypertension := SNull;
     Prediction.heart_disease := SNull;
     Prediction.ever_married := SNull;
     Prediction.work_type := SNull;
     Prediction.residence_type := SNull;
     Prediction.avg_glucose_level := SNull;
     Prediction.bmi := SNull;
     Prediction.smoking_status := SNull;
     Prediction.prediction := SNull;
     Prediction.stroke_probability := SNum stroke_probability;
     Prediction.no_stroke_probability := SNum (1 - stroke_probability);
     Prediction.risk_level := SText risk_level;
     Prediction.confidence := SNull;
     Prediction.notes := SNull |}.

(** A database file holding [rows]. *)
Definition db_of_rows (rows : list Prediction.row) : db :=
  {| predictions := rows;
     risk_factors := [];
     last_prediction_id := Z.of_nat (length rows);
     last_risk_factor_id := 0 |}.

(** Three stored predictions; the first carries the label High with a
    probability of 0.45. *)
Definition labelled_store : db :=
  db_of_rows
    [ stored_row 1 "Male" 70 "High" 0.45;
      stored_row 2 "Female" 40 "Very High" 0.9;
      stored_row 3 "Male" 20 "Low" 0.3 ].

(** The row is stored with gender [g]. *)
Definition has_gender (g : string) (r : Prediction.row) : bool :=
  match Prediction.gender r with
  | SText s => String.eqb s g
  | _ => false
  end.

(** The same row with another stored probability. *)
Definition with_probability (p : sqlval) (r : Prediction.row)
  : Prediction.row :=
  {| Prediction.id := Prediction.id r;
     Prediction.patient_id := Prediction.patient_id r;
     Prediction.timestamp := Prediction.timestamp r;
     Prediction.gender := Prediction.gender r;
     Prediction.age := Prediction.age r;
     Prediction.hypertension := Prediction.hypertension r;
     Prediction.heart_disease := Prediction.heart_disease r;
     Prediction.ever_married := Prediction.ever_married r;
     Prediction.work_type := Prediction.work_type r;
     Prediction.residence_type := Prediction.residence_type r;
     Prediction.avg_glucose_level := Prediction.avg_glucose_level r;
     Prediction.bmi := Prediction.bmi r;
     Prediction.smoking_status := Prediction.smoking_status r;
     Prediction.prediction := Prediction.prediction r;
     Prediction.stroke_probability := p;
     Prediction.no_stroke_probability := Prediction.no_stroke_probability r;
     Prediction.risk_level := Prediction.risk_level r;
     Prediction.confidence := Prediction.confidence r;
     Prediction.notes := Prediction.notes r |}.

(** Rows of gender [g], and those among them labelled High or Very High. *)
Definition gender_total (g : string) (rows : list Prediction.row) : nat :=
  length (List.filter (has_gender g) rows).

Definition gender_high (g : string) (rows : list Prediction.row) : nat :=
  length (List.filter (fun r => has_gender g r && labelled_high r) rows).

(** Three predictions for men, one of them labelled High. *)
Definition thirds_store : db :=
  db_of_rows
    [ stored_row 1 "Male" 70 "High" 0.7;
      stored_row 2 "Male" 40 "Low" 0.3;
      stored_row 3 "Male" 20 "Very Low" 0.1 ].

(** 160 predictions for men, the first 23 of them labelled High. *)
Definition ward_store : db :=
  db_of_rows
    (List.map
       (fun i => if (i <=? 23)%nat
                 then stored_row (Z.of_nat i) "Male" 70 "High" 0.7
                 else stored_row (Z.of_nat i) "Male" 40 "Low" 0.3)
       (seq 1 160)).

(** The exponent of the last place of the double nearest to [x]. *)
Definition ulp_exponent (x : Q) : Z := Z.max (ilog2 x - 52) (-1074).

(** A bound on what the three roundings to a double add to the distance
    between a reported and an exact percentage. *)
Definition double_error : Q := 1 # 10000000000000.

(** A prediction for a patient of gender Other, labelled High. *)
Definition other_row : Prediction.row := stored_row 4 "Other" 55 "High" 0.7.

(** [labelled_store] after that prediction is appended. *)
Definition store_with_other : db :=
  db_of_rows (predictions labelled_store ++ [other_row]).

(** The same row stored without a gender, as a request without the
    field leaves it. *)
Definition without_gender (r : Prediction.row) : Prediction.row :=
  {| Prediction.id := Prediction.id r;
     Prediction.patient_id := Prediction.patient_id r;
     Prediction.timestamp := Prediction.timestamp r;
     Prediction.gender := SNull;
     Prediction.age := Prediction.age r;
     Prediction.hypertension := Prediction.hypertension r;
     Prediction.heart_disease := Prediction.heart_disease r;
     Prediction.ever_married := Prediction.ever_married r;
     Prediction.work_type := Prediction.work_type r;
     Prediction.residence_type := Prediction.residence_type r;
     Prediction.avg_glucose_level := Prediction.avg_glucose_level r;
     Prediction.bmi := Prediction.bmi r;
     Prediction.smoking_status := Prediction.smoking_status r;
     Prediction.prediction := Prediction.prediction r;
     Prediction.stroke_probability := Prediction.stroke_probability r;
     Prediction.no_stroke_probability := Prediction.no_stroke_probability r;
     Prediction.risk_level := Prediction.risk_level r;
     Prediction.confidence := Prediction.confidence r;
     Prediction.notes := Prediction.notes r |}.

(** [labelled_store] after a prediction without gender is appended. *)
Definition store_with_null_gender : db :=
  db_of_rows (predictions labelled_store ++ [without_gender other_row]).

(** Gender and risk level of the row are stored as text. *)
Definition text_keys (r : Prediction.row) : Prop :=
  is_text (Prediction.gender r) = true
  /\ is_text (Prediction.risk_level r) = true.

(** The bucket sequence of the specification. *)
Definition age_groups : list string := ["Under 30"; "30-49"; "50-64"; "65+"].

(** Rows whose age falls in bucket [g]. *)
Definition rows_in_group (g : string) (rows : list Prediction.row) : nat :=
  length (List.filter
            (fun r => String.eqb g (age_group (Prediction.age r))) rows).

(** The non-empty buckets with their sizes, in bucket sequence. *)
Definition buckets_in_sequence (rows : list Prediction.row)
  : list (string * nat) :=
  List.filter (fun gc => (0 <? snd gc)%nat)
    (List.map (fun g => (g, rows_in_group g rows)) age_groups).

(** The sort key of a row of the age-distribution query. *)
Definition group_rank (gc : string * nat) : nat := age_group_rank (fst gc).

(** Strictly earlier in an ORDER BY on [key]. *)
Definition before {A : Type} (key : A -> nat) (x y : A) : Prop :=
  (key x < key y)%nat.

(** * Further queries and vocabulary *)

(** ** The BMI and glucose statistics of [get_dashboard_data] *)

(** [v >= c] against a numeric literal (TEXT sorts above every number). *)
Definition sql_ge_num (v : sqlval) (c : Q) : option bool :=
  match v with
  | SNull => None
  | SNum q => Some (negb (Qltb q c))
  | SText _ => Some true
  end.

(** [v IS NOT NULL] *)
Definition sql_is_not_null (v : sqlval) : option bool :=
  match v with
  | SNull => Some false
  | _ => Some true
  end.

(** [x or 0] on a fetched aggregate: NULL and 0 both give 0. *)
Definition or_zero (x : option nat) : nat :=
  match x with
  | Some n => n
  | None => 0%nat
  end.

(** The dictionary [bmi_stats_dict]. *)
Module BmiStats.
Record t : Type := mk {
  underweight : nat;
  normal : nat;
  overweight : nat;
  obese : nat
}.
End BmiStats.

(** The BMI query and the dictionary built from its row. *)
Definition bmi_stats (rows : list Prediction.row) : BmiStats.t :=
  let selected :=
    select_where (fun r => sql_is_not_null (Prediction.bmi r)) rows in
  {| BmiStats.underweight :=
       or_zero (sum_case (fun r => sql_lt_num (Prediction.bmi r) 18.5)
                  selected);
     BmiStats.normal :=
       or_zero (sum_case
                  (fun r => sql_and (sql_ge_num (Prediction.bmi r) 18.5)
                                    (sql_lt_num (Prediction.bmi r) 25))
                  selected);
     BmiStats.overweight :=
       or_zero (sum_case
                  (fun r => sql_and (sql_ge_num (Prediction.bmi r) 25)
                                    (sql_lt_num (Prediction.bmi r) 30))
                  selected);
     BmiStats.obese :=
       or_zero (sum_case (fun r => sql_ge_num (Prediction.bmi r) 30)
                  selected) |}.

(** The dictionary [glucose_stats_dict]. *)
Module GlucoseStats.
Record t : Type := mk {
  normal : nat;
  prediabetes : nat;
  diabetes : nat
}.
End GlucoseStats.

(** The glucose query and the dictionary built from its row. *)
Definition glucose_stats (rows : list Prediction.row) : GlucoseStats.t :=
  let selected :=
    select_where
      (fun r => sql_is_not_null (Prediction.avg_glucose_level r)) rows in
  {| GlucoseStats.normal :=
       or_zero (sum_case
                  (fun r => sql_lt_num (Prediction.avg_glucose_level r) 100)
                  selected);
     GlucoseStats.prediabetes :=
       or_zero (sum_case
                  (fun r =>
                     sql_and (sql_ge_num (Prediction.avg_glucose_level r) 100)
                             (sql_lt_num (Prediction.avg_glucose_level r) 126))
                  selected);
     GlucoseStats.diabetes :=
       or_zero (sum_case
                  (fun r => sql_ge_num (Prediction.avg_glucose_level r) 126)
                  selected) |}.

(** ** Vocabulary of the further properties *)

(** The text [get_interpretation] gives, by tier. *)
Definition interpretation_of_tier (tier : string) : string :=
  if String.eqb tier "Very Low" then
    "Low stroke risk. Maintain healthy lifestyle."
  else if String.eqb tier "Low" then
    "Moderate risk. Monitor risk factors regularly."
  else if String.eqb tier "Medium" then
    "Elevated risk. Consider lifestyle changes and regular checkups."
  else if String.eqb tier "High" then
    "High risk. Consult healthcare provider for preventive measures."
  else "Very high risk. Immediate medical consultation recommended.".

(** The recommendations of a request, read off its probability and raw
    fields. *)
Definition advice (stroke_prob bmi glucose : Q) (smoking : pyval)
  : list string :=
  let fired :=
    ((if Qltb 0.4 stroke_prob
      then ["Regular blood pressure monitoring"; "Annual health checkups"]
      else [])
     ++ (if Qltb 30 bmi then ["Weight management program"] else [])
     ++ (if Qltb 140 glucose then ["Diabetes screening and management"]
         else [])
     ++ (if py_eq_str smoking "smokes" then ["Smoking cessation support"]
         else []))%list in
  match fired with
  | [] => fallback_recommendations
  | _ => fired
  end.

(** A JSON field that is absent, a number or a boolean. *)
Definition absent_or_number (data : gmap string pyval) (k : string) : Prop :=
  match data !! k with
  | None => True
  | Some v => is_number v
  end.

(** The five fields the analyzer converts: three with [float], two
    with [int]. *)
Definition float_fields : list string := ["age"; "bmi"; "avg_glucose_level"].

Definition int_fields : list string := ["hypertension"; "heart_disease"].

Definition numeric_fields : list string := (float_fields ++ int_fields)%list.

(** A number that [float] accepts: below the overflow bound. *)
Definition in_double_range (v : pyval) : Prop :=
  match v with
  | VNum q => Qabs q < float_overflow
  | _ => True
  end.

(** A JSON field that is absent, a boolean, or a number that [float]
    accepts. *)
Definition absent_or_float (data : gmap string pyval) (k : string) : Prop :=
  absent_or_number data k
  /\ forall v, data !! k = Some v -> in_double_range v.

(** A request with elevated but not extreme values: bmi 28, glucose
    120, a former smoker. *)
Definition borderline_record : gmap string pyval :=
  list_to_map
    [ ("age", VNum 45); ("bmi", VNum 28); ("avg_glucose_level", VNum 120);
      ("hypertension", VNum 0); ("heart_disease", VNum 0);
      ("smoking_status", VStr "formerly smoked") ].

(** The factors of [borderline_record]. *)
Definition borderline_factors : list factor :=
  [ age_factor 45; bmi_factor 28; glucose_factor 120;
    hypertension_factor 0; heart_disease_factor 0;
    smoking_factor (VStr "formerly smoked") ].




(** The stored label is the tier of the stored probability. *)
Definition coherent (r : Prediction.row) : Prop :=
  exists p, Prediction.stroke_probability r = SNum p
            /\ Prediction.risk_level r = SText (risk_level_of p).

(** Ids are unique and at most the last one handed out, and every
    factor row points to a stored prediction. *)
Definition store_integrity (d : db) : Prop :=
  List.NoDup (List.map Prediction.id (predictions d))
  /\ (forall p, In p (predictions d) ->
        (Prediction.id p <= last_prediction_id d)%Z)
  /\ List.NoDup (List.map RiskFactor.id (risk_factors d))
  /\ (forall f, In f (risk_factors d) ->
        (RiskFactor.id f <= last_risk_factor_id d)%Z)
  /\ (forall f, In f (risk_factors d) ->
        exists p, In p (predictions d)
                  /\ RiskFactor.prediction_id f
                     = SNum (inject_Z (Prediction.id p))).

(** The counts of a grouped query, added up. *)
Definition sum_counts {K : Type} (d : list (K * nat)) : nat :=
  fold_right (fun kn acc => (snd kn + acc)%nat) 0%nat d.

(** A stored prediction with a BMI and a glucose level (a man of 65
    labelled Medium at probability 0.5). *)
Definition measured_row (bmi glucose : Q) : Prediction.row :=
  {| Prediction.id := 1;
     Prediction.patient_id := SNull;
     Prediction.timestamp := SNull;
     Prediction.gender := SText "Male";
     Prediction.age := SNum 65;
     Prediction.hypertension := SNull;
     Prediction.heart_disease := SNull;
     Prediction.ever_married := SNull;
     Prediction.work_type := SNull;
     Prediction.residence_type := SNull;
     Prediction.avg_glucose_level := SNum glucose;
     Prediction.bmi := SNum bmi;
     Prediction.smoking_status := SNull;
     Prediction.prediction := SNull;
     Prediction.stroke_probability := SNum 0.5;
     Prediction.no_stroke_probability := SNum 0.5;
     Prediction.risk_level := SText "Medium";
     Prediction.confidence := SNull;
     Prediction.notes := SNull |}.

(** Rows whose stored [v] is not NULL. *)
Definition count_not_null (column : Prediction.row -> sqlval)
    (rows : list Prediction.row) : nat :=
  length (List.filter (fun r => holds (sql_is_not_null (column r))) rows).

(** ** The recent predictions and the prevalence figures of
       [get_dashboard_data] *)

(** SQLite's order of stored values, as ORDER BY uses it: NULL first,
    then numbers by value, then text byte by byte. *)
Definition sql_compare (a b : sqlval) : comparison :=
  match a, b with
  | SNull, SNull => Eq
  | SNull, _ => Lt
  | _, SNull => Gt
  | SNum x, SNum y => Qcompare x y
  | SNum _, SText _ => Lt
  | SText _, SNum _ => Gt
  | SText s, SText t => String.compare s t
  end.

(** [a] does not sort before [b]. *)
Definition sql_not_before (a b : sqlval) : bool :=
  match sql_compare a b with
  | Lt => false
  | _ => true
  end.

Section OrderByDesc.

Context {A : Type} (key : A -> sqlval).

Fixpoint insert_desc (x : A) (l : list A) : list A :=
  match l with
  | [] => [x]
  | y :: rest =>
      if sql_not_before (key x) (key y) then x :: y :: rest
      else y :: insert_desc x rest
  end.

(** [ORDER BY key DESC].  Rows with equal keys, whose order SQLite
    leaves open, stay in table order. *)
Fixpoint order_by_desc (l : list A) : list A :=
  match l with
  | [] => []
  | x :: rest => insert_desc x (order_by_desc rest)
  end.

End OrderByDesc.

(** [SELECT * FROM predictions ORDER BY timestamp DESC LIMIT 10], the
    rows behind [recent_predictions]. *)
Definition recent_predictions (rows : list Prediction.row)
  : list Prediction.row :=
  firstn 10 (order_by_desc Prediction.timestamp rows).

(** The rows that the LIMIT leaves out. *)
Definition older_predictions (rows : list Prediction.row)
  : list Prediction.row :=
  skipn 10 (order_by_desc Prediction.timestamp rows).

(** Rounding to the nearest integer, ties away from zero. *)
Definition round_half_away (x : Q) : Z :=
  if Qltb x 0
  then (- ((Qnum (- x + (1 # 2))) / Zpos (Qden (- x + (1 # 2)))))%Z
  else (Qnum (x + (1 # 2)) / Zpos (Qden (x + (1 # 2))))%Z.

(** SQLite's [ROUND(x, 1)]. *)
Definition sql_round1 (x : Q) : Q := Qmake (round_half_away (x * 10)) 10.

(** [AVG(CASE WHEN cond THEN 1 ELSE 0 END)]: NULL over no rows. *)
Definition avg_case (cond : Prediction.row -> option bool)
    (rows : list Prediction.row) : option Q :=
  match rows with
  | [] => None
  | _ =>
      Some (Qnat (length (List.filter (fun r => holds (cond r)) rows))
            / Qnat (length rows))
  end.

(** [ROUND(AVG(CASE ...) * 100, 1)] read through [x or 0]. *)
Definition prevalence (cond : Prediction.row -> option bool)
    (rows : list Prediction.row) : Q :=
  match avg_case cond rows with
  | Some a => sql_round1 (a * 100)
  | None => 0
  end.

(** The entry 'Smoking History' of [risk_factors_dict]. *)
Definition smoking_pct (rows : list Prediction.row) : Q :=
  prevalence
    (fun r => sql_in_text (Prediction.smoking_status r)
                ["smokes"; "formerly smoked"]) rows.

(** The entry 'Age > 65' of [risk_factors_dict]. *)
Definition elderly_pct (rows : list Prediction.row) : Q :=
  prevalence (fun r => sql_gt_num (Prediction.age r) 65) rows.

(** [x] does not sort before [y] on [key]. *)
Definition key_not_before {A : Type} (key : A -> sqlval) (x y : A) : Prop :=
  sql_not_before (key x) (key y) = true.

(** [x] sorts at or after [y] by timestamp. *)
Definition not_older (x y : Prediction.row) : Prop :=
  key_not_before Prediction.timestamp x y.


(** The row is stored with a current or a former smoker. *)
Definition ever_smoked (r : Prediction.row) : bool :=
  match Prediction.smoking_status r with
  | SText s => String.eqb s "smokes" || String.eqb s "formerly smoked"
  | _ => false
  end.

(** The stored age is above 65 (text sorts above every number). *)
Definition older_than_65 (r : Prediction.row) : bool :=
  match Prediction.age r with
  | SNum a => Qltb 65 a
  | SText _ => true
  | SNull => false
  end.

(** The share of the rows that pass [p], in percent. *)
Definition share (p : Prediction.row -> bool) (rows : list Prediction.row)
  : Q :=
  100 * Qnat (length (List.filter p rows)) / Qnat (length rows).

(** * Properties *)

(** ** Comparisons *)

Lemma Qltb_lt (x y : Q) : Qltb x y = true <-> x < y.
Proof. unfold Qltb, Qlt. apply Z.ltb_lt. Qed.

Lemma Qltb_ge (x y : Q) : Qltb x y = false <-> y <= x.
Proof. unfold Qltb, Qle. rewrite Z.ltb_ge. reflexivity. Qed.

(** Case analysis on every comparison in sight, leaving order facts. *)
Ltac split_comparisons :=
  repeat match goal with
  | |- context [Qltb ?a ?b] =>
      let E := fresh "E" in
      destruct (Qltb a b) eqn:E;
      [ apply Qltb_lt in E | apply Qltb_ge in E ]
  | H : context [Qltb ?a ?b] |- _ =>
      let E := fresh "E" in
      destruct (Qltb a b) eqn:E;
      [ apply Qltb_lt in E | apply Qltb_ge in E ]
  end.

Lemma py_max_spec (a b : Q) : py_max a b == Qmax a b.
Proof.
  unfold py_max. split_comparisons.
  - symmetry. apply Q.max_r. lra.
  - symmetry. apply Q.max_l. lra.
Qed.

(** ** Risk tiers *)

(** C1: every probability p (so every p in [0,1]) gets exactly one of
    the five tiers, and the tiers cut the line at 0.2, 0.4, 0.6 and 0.8
    into half-open intervals: Very Low iff p < 0.2, Low iff
    0.2 <= p < 0.4, Medium iff 0.4 <= p < 0.6, High iff 0.6 <= p < 0.8,
    Very High iff 0.8 <= p. *)
Theorem risk_level_partition (p : Q) :
  In (risk_level_of p) risk_tiers
  /\ List.NoDup risk_tiers
  /\ (risk_level_of p = "Very Low" <-> p < 0.2)
  /\ (risk_level_of p = "Low" <-> 0.2 <= p /\ p < 0.4)
  /\ (risk_level_of p = "Medium" <-> 0.4 <= p /\ p < 0.6)
  /\ (risk_level_of p = "High" <-> 0.6 <= p /\ p < 0.8)
  /\ (risk_level_of p = "Very High" <-> 0.8 <= p).
Proof.
  split; [| split].
  - unfold risk_level_of, risk_tiers. split_comparisons; simpl;
      repeat (first [ left; reflexivity | right ]).
  - unfold risk_tiers.
    repeat (constructor; [ simpl; intuition discriminate |]). constructor.
  - unfold risk_level_of. split_comparisons;
      repeat split; intros; try discriminate; try reflexivity;
        repeat match goal with H : _ /\ _ |- _ => destruct H end; lra.
Qed.

(** ** Risk Factor Analyzer *)

(** C5: for every age a, the Age factor is High iff a > 65, Medium iff
    50 < a <= 65 and Low otherwise; its contribution is
    max(0, (a - 50) * 0.02) for a > 50 and 0 for a <= 50, hence
    non-decreasing above 50 (and on the whole line).  The Age factor is
    the first entry of what [calculate_risk_factors] returns. *)
Theorem age_factor_profile (a : Q) :
  (risk_category (age_factor a) = "High" <-> 65 < a)
  /\ (risk_category (age_factor a) = "Medium" <-> 50 < a /\ a <= 65)
  /\ (risk_category (age_factor a) = "Low" <-> a <= 50)
  /\ (50 < a -> contribution (age_factor a) == Qmax 0 ((a - 50) * 0.02))
  /\ (a <= 50 -> contribution (age_factor a) == 0)
  /\ (forall b, 50 < a -> a <= b ->
        contribution (age_factor a) <= contribution (age_factor b))
  /\ (forall b, a <= b ->
        contribution (age_factor a) <= contribution (age_factor b))
  /\ (forall str_to_float str_to_int data fs,
        py_float str_to_float (get data "age" (VNum 0)) = Some a ->
        calculate_risk_factors str_to_float str_to_int data = Some fs ->
        nth_error fs 0 = Some (age_factor a)).
Proof.
  repeat match goal with |- _ /\ _ => split end.
  - simpl. split_comparisons; split; intros; try discriminate;
      try reflexivity; lra.
  - simpl. split_comparisons; split; intros; try discriminate;
      try reflexivity; try lra; split; lra.
  - simpl. split_comparisons; split; intros; try discriminate;
      try reflexivity; lra.
  - intros Ha. simpl. apply Qltb_lt in Ha. rewrite Ha. apply py_max_spec.
  - intros Ha. simpl. apply Qltb_ge in Ha. rewrite Ha. reflexivity.
  - intros b Ha Hab. simpl. unfold py_max. split_comparisons; lra.
  - intros b Hab. simpl. unfold py_max. split_comparisons; lra.
  - intros stf sti data fs Ha Hfs. unfold calculate_risk_factors in Hfs.
    rewrite Ha in Hfs. simpl in Hfs.
    repeat match type of Hfs with
    | and_then ?m _ = Some _ => destruct m; simpl in Hfs; [| discriminate]
    end.
    injection Hfs as <-. reflexivity.
Qed.

Lemma py_eq_str_true (v : pyval) (s : string) :
  py_eq_str v s = true <-> v = VStr s.
Proof.
  destruct v; simpl; try (split; [discriminate | intros [=]]).
  rewrite String.eqb_eq. split; [intros ->; reflexivity | intros [=]; assumption].
Qed.

Lemma py_eq_str_false (v : pyval) (s : string) :
  py_eq_str v s = false <-> v <> VStr s.
Proof.
  rewrite <- py_eq_str_true. destruct (py_eq_str v s); split; congruence.
Qed.

Lemma age_factor_spec (age : Q) : spec_age age (age_factor age).
Proof.
  unfold spec_age. simpl.
  assert (Hmax : py_max 0 ((age - 50) * 0.02) == Qmax 0 ((age - 50) * 0.02))
    by apply py_max_spec.
  split_comparisons; repeat split; intros;
    repeat match goal with H : _ /\ _ |- _ => destruct H end;
    try reflexivity; try assumption; lra.
Qed.

Lemma bmi_factor_spec (bmi : Q) :
  spec_steps bmi 25 30 0.08 0.15 (bmi_factor bmi).
Proof.
  unfold spec_steps. simpl.
  split_comparisons; repeat split; intros;
    repeat match goal with H : _ /\ _ |- _ => destruct H end;
    try reflexivity; lra.
Qed.

Lemma glucose_factor_spec (glucose : Q) :
  spec_steps glucose 100 140 0.10 0.20 (glucose_factor glucose).
Proof.
  unfold spec_steps. simpl.
  split_comparisons; repeat split; intros;
    repeat match goal with H : _ /\ _ |- _ => destruct H end;
    try reflexivity; lra.
Qed.

Lemma hypertension_factor_spec (h : Z) :
  spec_flag h 0.25 (hypertension_factor h).
Proof.
  unfold spec_flag. simpl. destruct (Z.eqb_spec h 1);
    repeat split; intros; try reflexivity; congruence.
Qed.

Lemma heart_disease_factor_spec (h : Z) :
  spec_flag h 0.30 (heart_disease_factor h).
Proof.
  unfold spec_flag. simpl. destruct (Z.eqb_spec h 1);
    repeat split; intros; try reflexivity; congruence.
Qed.

Lemma smoking_factor_spec (smoking : pyval) :
  spec_smoking smoking (smoking_factor smoking).
Proof.
  unfold spec_smoking. simpl.
  destruct (py_eq_str smoking "smokes") eqn:E1;
    [ apply py_eq_str_true in E1 | apply py_eq_str_false in E1 ];
    (destruct (py_eq_str smoking "formerly smoked") eqn:E2;
     [ apply py_eq_str_true in E2 | apply py_eq_str_false in E2 ]);
    repeat split; intros; subst; try reflexivity; try congruence.
Qed.

(** C4 (amended): for every input record on which the five numeric
    conversions succeed (the fields are absent, or hold numbers), the
    analyzer returns exactly six factors in the order Age, BMI, Glucose
    Level, Hypertension, Heart Disease, Smoking Status, each with the
    step or piecewise contribution of the specification; and on the
    scenario record (age 70, bmi 32, glucose 150, hypertension 1, heart
    disease 0, smokes) it yields Age High 0.40, BMI High 0.15, Glucose
    High 0.20, Hypertension High 0.25, Heart Disease Low 0, Smoking
    High 0.15. *)
Theorem calculate_risk_factors_six
    (str_to_float : string -> option Q) (str_to_int : string -> option Z)
    (data : gmap string pyval) (age bmi glucose : Q)
    (hypertension heart_disease : Z) :
  py_float str_to_float (get data "age" (VNum 0)) = Some age ->
  py_float str_to_float (get data "bmi" (VNum 0)) = Some bmi ->
  py_float str_to_float (get data "avg_glucose_level" (VNum 0))
    = Some glucose ->
  py_int str_to_int (get data "hypertension" (VNum 0)) = Some hypertension ->
  py_int str_to_int (get data "heart_disease" (VNum 0))
    = Some heart_disease ->
  (exists fs,
     calculate_risk_factors str_to_float str_to_int data = Some fs
     /\ spec_risk_factors age bmi glucose hypertension heart_disease
          (get data "smoking_status" (VStr "never smoked")) fs)
  /\ option_map (List.map summary)
       (calculate_risk_factors str_to_float str_to_int scenario_record)
     = Some scenario_summary.
Proof.
  intros Ha Hb Hg Hh Hd. split.
  - unfold calculate_risk_factors. rewrite Ha, Hb, Hg, Hh, Hd. simpl.
    eexists. split; [reflexivity |].
    unfold spec_risk_factors. do 6 eexists.
    split; [reflexivity |]. split; [reflexivity |]. split; [reflexivity |].
    split; [apply age_factor_spec |].
    split; [apply bmi_factor_spec |].
    split; [apply glucose_factor_spec |].
    split; [apply hypertension_factor_spec |].
    split; [apply heart_disease_factor_spec |].
    apply smoking_factor_spec.
  - vm_compute. reflexivity.
Qed.

(** The scenario record meets the hypotheses of
    [calculate_risk_factors_six]. *)
Lemma calculate_risk_factors_six_scenario :
  (exists fs,
     calculate_risk_factors no_float_text no_int_text scenario_record
       = Some fs
     /\ spec_risk_factors 70 32 150 1 0 (VStr "smokes") fs)
  /\ option_map (List.map summary)
       (calculate_risk_factors no_float_text no_int_text scenario_record)
     = Some scenario_summary.
Proof.
  apply (calculate_risk_factors_six no_float_text no_int_text
           scenario_record 70 32 150 1 0); vm_compute; reflexivity.
Defined.

(** C4, as stated, fails: on a record whose [bmi] is null the analyzer
    raises ([float(None)]) and returns no factor at all. *)
Lemma calculate_risk_factors_null_bmi :
  calculate_risk_factors no_float_text no_int_text null_bmi_record = None.
Proof. vm_compute. reflexivity. Qed.

(** ** Recommendations *)

Lemma py_gt_num_number (v : pyval) (c : Q) :
  is_number v ->
  exists b, py_gt_num v c = Some b /\ (b = true <-> number_above v c).
Proof.
  destruct v; simpl; try contradiction; intros _;
    eexists; (split; [reflexivity | apply Qltb_lt]).
Qed.

Lemma factor_recommendation_total (f : factor) :
  comparable f ->
  exists r, factor_recommendation f = Some r
            /\ (length r <= 1)%nat
            /\ (~ rule_fires f -> r = []).
Proof.
  intros Hc. unfold factor_recommendation, rule_fires.
  destruct (Qltb 0.1 (contribution f)) eqn:E;
    [ apply Qltb_lt in E | apply Qltb_ge in E ].
  2: { exists []. repeat split; auto. }
  destruct (String.eqb_spec (name f) "BMI") as [Hn | Hn]; simpl.
  - destruct (py_gt_num_number (value f) 25) as (b & -> & Hb);
      [ apply Hc; auto |]. simpl.
    destruct b.
    + eexists. repeat split; [ simpl; lia |].
      intros Hno. exfalso. apply Hno. split; [assumption |].
      left. split; [assumption | apply Hb; reflexivity].
    + rewrite Hn. simpl. exists []. repeat split; auto.
  - destruct (String.eqb_spec (name f) "Glucose Level") as [Hg | Hg]; simpl.
    + destruct (py_gt_num_number (value f) 100) as (b & -> & Hb);
        [ apply Hc; auto |]. simpl.
      destruct b.
      * eexists. repeat split; [ simpl; lia |].
        intros Hno. exfalso. apply Hno. split; [assumption |].
        right. left. split; [assumption | apply Hb; reflexivity].
      * rewrite Hg. simpl. exists []. repeat split; auto.
    + destruct (String.eqb_spec (name f) "Smoking Status") as [Hs | Hs]; simpl.
      * destruct (py_eq_str (value f) "smokes") eqn:E1; simpl.
        { eexists. repeat split; [ simpl; lia |].
          intros Hno. exfalso. apply Hno. split; [assumption |].
          right. right. split; [assumption |].
          left. apply py_eq_str_true. assumption. }
        destruct (py_eq_str (value f) "formerly smoked") eqn:E2; simpl.
        { eexists. repeat split; [ simpl; lia |].
          intros Hno. exfalso. apply Hno. split; [assumption |].
          right. right. split; [assumption |].
          right. apply py_eq_str_true. assumption. }
        exists []. repeat split; auto.
      * exists []. repeat split; auto.
Qed.

Lemma factor_recommendations_total (fs : list factor) :
  Forall comparable fs ->
  exists rs, factor_recommendations fs = Some rs
             /\ ((forall f, In f fs -> ~ rule_fires f) -> rs = []).
Proof.
  induction 1 as [| f fs Hf _ IH].
  - exists []. split; reflexivity.
  - destruct (factor_recommendation_total f Hf) as (r & Hr & _ & Hnone).
    destruct IH as (rs & Hrs & Hnones).
    exists (r ++ rs)%list. simpl. rewrite Hr, Hrs. simpl.
    split; [reflexivity |].
    intros Hno. rewrite Hnone, Hnones; [reflexivity | |].
    + intros g Hg. apply Hno. right. assumption.
    + apply Hno. left. reflexivity.
Qed.




(** The factor lists of the analyzer meet [comparable]. *)
Lemma calculate_risk_factors_comparable
    (str_to_float : string -> option Q) (str_to_int : string -> option Z)
    (data : gmap string pyval) (fs : list factor) :
  calculate_risk_factors str_to_float str_to_int data = Some fs ->
  Forall comparable fs.
Proof.
  unfold calculate_risk_factors. intros H.
  repeat match type of H with
  | and_then ?m _ = Some _ => destruct m; simpl in H; [| discriminate]
  end.
  injection H as <-.
  repeat constructor; unfold comparable; simpl; intros [? | ?];
    try exact I; discriminate.
Qed.




(** ** Record Store: transactions *)

(** Nothing reaches the file before [commit]: the inserts only touch the
    pending transaction. *)
Lemma execute_insert_prediction_committed (e : env) (params : list pyval)
    (c : connection) :
  committed (snd (execute_insert_prediction e params c)) = committed c.
Proof.
  unfold execute_insert_prediction, dbm_bind, db_step, dbm_try.
  destruct (raises e InsertPrediction); [reflexivity |].
  destruct (bind_params params) as [ps |]; [| reflexivity].
  unfold dbm_ret. destruct (prediction_row _ ps); reflexivity.
Qed.

Lemma execute_insert_factor_committed (e : env) (k : nat)
    (params : list pyval) (c : connection) :
  committed (snd (execute_insert_factor e k params c)) = committed c.
Proof.
  unfold execute_insert_factor, dbm_bind, db_step, dbm_try.
  destruct (raises e (InsertFactor k)); [reflexivity |].
  destruct (bind_params params) as [ps |]; [| reflexivity].
  unfold dbm_ret. destruct (risk_factor_row _ ps); reflexivity.
Qed.

Lemma insert_factors_committed (e : env) (prediction_id : Z)
    (fs : list factor) :
  forall (k : nat) (c : connection),
    committed (snd (insert_factors e prediction_id k fs c)) = committed c.
Proof.
  induction fs as [| f fs IH]; intros k c; [reflexivity |].
  simpl. unfold dbm_bind.
  pose proof (execute_insert_factor_committed e k
                (factor_params prediction_id f) c) as H.
  destruct (execute_insert_factor e k (factor_params prediction_id f) c)
    as [[[] |] c']; simpl in *.
  - rewrite IH. assumption.
  - assumption.
Qed.

Lemma execute_insert_factor_fails (e : env) (k : nat) (prediction_id : Z)
    (f : factor) (c : connection) :
  factor_insert_fails e k f ->
  fst (execute_insert_factor e k (factor_params prediction_id f) c) = None.
Proof.
  intros [H | H]; unfold execute_insert_factor, dbm_bind, db_step.
  - rewrite H. reflexivity.
  - destruct (raises e (InsertFactor k)); [reflexivity |].
    unfold factor_params. simpl. rewrite H. reflexivity.
Qed.

Lemma insert_factors_fails (e : env) (prediction_id : Z) (fs : list factor) :
  forall (j k : nat) (f : factor) (c : connection),
    nth_error fs j = Some f ->
    factor_insert_fails e (k + j) f ->
    fst (insert_factors e prediction_id k fs c) = None.
Proof.
  induction fs as [| g fs IH]; intros j k f c Hj Hfail.
  - destruct j; discriminate.
  - simpl. unfold dbm_bind. destruct j as [| j].
    + injection Hj as ->. rewrite Nat.add_0_r in Hfail.
      pose proof (execute_insert_factor_fails e k prediction_id f c Hfail) as H.
      destruct (execute_insert_factor e k (factor_params prediction_id f) c)
        as [[[] |] c']; [discriminate | reflexivity].
    + destruct (execute_insert_factor e k (factor_params prediction_id g) c)
        as [[[] |] c']; [| reflexivity].
      apply (IH j (S k) f c' Hj).
      replace (S k + j)%nat with (k + S j)%nat by lia. assumption.
Qed.

(** C3: the append is all-or-nothing on a failing child insert: whenever
    the insert of some risk-factor row raises, the call leaves the
    database file exactly as it found it (no prediction row, no factor
    row) and the caller receives no id. *)
Theorem save_prediction_child_failure (e : env) (data : gmap string pyval)
    (result : Result.t) (disk : db) (k : nat) (f : factor) :
  nth_error (Result.risk_factors result) k = Some f ->
  factor_insert_fails e k f ->
  save_prediction_to_db e data result disk = (None, disk).
Proof.
  intros Hk Hfail. unfold save_prediction_to_db.
  destruct (raises e Connect); [reflexivity |].
  unfold save_attempt. unfold dbm_bind at 1.
  pose proof (execute_insert_prediction_committed e
    (prediction_params e data result
       (get data "patient_id" (VStr ("PATIENT_" ++ strftime_now e))))
    (connect disk)) as Hparent.
  destruct (execute_insert_prediction e _ (connect disk))
    as [[prediction_id |] c1]; simpl in Hparent.
  - unfold dbm_bind at 1.
    pose proof (insert_factors_fails e prediction_id
                  (Result.risk_factors result) k 0 f c1 Hk Hfail) as Hnone.
    pose proof (insert_factors_committed e prediction_id
                  (Result.risk_factors result) 0 c1) as Hsame.
    destruct (insert_factors e prediction_id 0 (Result.risk_factors result) c1)
      as [[[] |] c2]; simpl in *; [discriminate |].
    unfold on_disk. rewrite Hsame, Hparent. reflexivity.
  - unfold on_disk. rewrite Hparent. reflexivity.
Qed.

Lemma insert_factors_success (e : env) (prediction_id : Z)
    (fs : list factor) :
  forall (k : nat) (c c' : connection),
    insert_factors e prediction_id k fs c = (Some tt, c') ->
    exists rs,
      stored_factors prediction_id (last_risk_factor_id (view c)) fs = Some rs
      /\ length rs = length fs
      /\ predictions (view c') = predictions (view c)
      /\ risk_factors (view c') = (risk_factors (view c) ++ rs)%list
      /\ last_prediction_id (view c') = last_prediction_id (view c)
      /\ last_risk_factor_id (view c')
         = (last_risk_factor_id (view c) + Z.of_nat (length rs))%Z.
Proof.
  induction fs as [| f fs IH]; intros k c c' H.
  - injection H as <-. exists []. simpl.
    rewrite app_nil_r, Z.add_0_r. repeat split; reflexivity.
  - simpl in H. unfold dbm_bind in H.
    destruct (execute_insert_factor e k (factor_params prediction_id f) c)
      as [[[] |] c1] eqn:E1; [| discriminate].
    unfold execute_insert_factor, dbm_bind, db_step, dbm_try in E1.
    destruct (raises e (InsertFactor k)); [discriminate |].
    destruct (bind_params (factor_params prediction_id f)) as [ps |] eqn:Eps;
      [| discriminate].
    unfold dbm_ret in E1.
    destruct (risk_factor_row (last_risk_factor_id (view c) + 1) ps)
      as [r |] eqn:Er; [| discriminate].
    injection E1 as <-.
    destruct (IH (S k) _ c' H) as (rs & Hrs & Hlen & Hp & Hr & Hlp & Hlr).
    unfold view in Hrs, Hp, Hr, Hlp, Hlr; simpl in Hrs, Hp, Hr, Hlp, Hlr.
    fold (view c) in Hrs, Hp, Hr, Hlp, Hlr. fold (view c') in Hp, Hr, Hlp, Hlr.
    exists (r :: rs). cbn [stored_factors]. rewrite Eps. cbn [and_then].
    rewrite Er. cbn [and_then]. rewrite Hrs. cbn [and_then].
    repeat split.
    + simpl. lia.
    + assumption.
    + rewrite Hr, <- app_assoc. reflexivity.
    + assumption.
    + rewrite Hlr. simpl length. lia.
Qed.

(** Every call ends in one of two states of the file: untouched, or
    with the prediction row and all of its factor rows.  An id is
    returned only in the second; the second without an id arises only
    when [conn.close()] itself raises after the commit. *)
Lemma save_prediction_outcomes (e : env) (data : gmap string pyval)
    (result : Result.t) (disk : db) :
  save_prediction_to_db e data result disk = (None, disk)
  \/ exists r rs,
       stored_prediction e data result disk = Some r
       /\ stored_factors (Prediction.id r) (last_risk_factor_id disk)
            (Result.risk_factors result) = Some rs
       /\ length rs = length (Result.risk_factors result)
       /\ snd (save_prediction_to_db e data result disk)
          = after_append disk r rs
       /\ (fst (save_prediction_to_db e data result disk)
           = Some (Prediction.id r,
                   get data "patient_id"
                     (VStr ("PATIENT_" ++ strftime_now e)))
           \/ (fst (save_prediction_to_db e data result disk) = None
               /\ raises e Close = true)).
Proof.
  unfold stored_prediction.
  destruct (save_prediction_to_db e data result disk) as [out disk'] eqn:E.
  cbn [fst snd]. unfold save_prediction_to_db in E.
  destruct (raises e Connect); [left; symmetry; assumption |].
  unfold save_attempt in E.
  set (patient_id := get data "patient_id" _) in *.
  unfold dbm_bind at 1 in E.
  pose proof (execute_insert_prediction_committed e
    (prediction_params e data result patient_id) (connect disk)) as Hparent.
  destruct (execute_insert_prediction e
              (prediction_params e data result patient_id) (connect disk))
    as [[prediction_id |] c1] eqn:E1; simpl in Hparent.
  2: { left. injection E as <- <-. unfold on_disk. rewrite Hparent.
       reflexivity. }
  unfold execute_insert_prediction, dbm_bind, db_step, dbm_try in E1.
  destruct (raises e InsertPrediction); [discriminate |].
  destruct (bind_params (prediction_params e data result patient_id))
    as [ps |] eqn:Eps; [| discriminate].
  unfold dbm_ret in E1. unfold view in E1. simpl in E1.
  destruct (prediction_row (last_prediction_id disk + 1) ps) as [r |] eqn:Er;
    [| discriminate].
  injection E1 as <- <-.
  assert (Hid : Prediction.id r = (last_prediction_id disk + 1)%Z).
  { unfold prediction_row in Er.
    repeat (destruct ps as [| ? ps]; try discriminate).
    injection Er as <-. reflexivity. }
  unfold dbm_bind at 1 in E.
  match type of E with
  | context [insert_factors e ?p 0 ?fs ?c] =>
      pose proof (insert_factors_committed e p fs 0 c) as Hc;
      destruct (insert_factors e p 0 fs c) as [[[] |] c2] eqn:E2
  end; simpl in Hc.
  2: { left. injection E as <- <-. unfold on_disk. rewrite Hc. reflexivity. }
  apply insert_factors_success in E2.
  destruct E2 as (rs & Hrs & Hlen & Hp & Hr & Hlp & Hlr).
  unfold view at 1 in Hrs. simpl in Hrs.
  unfold view at 2 in Hp. unfold view at 2 in Hr. unfold view at 2 in Hlp.
  unfold view at 2 in Hlr. simpl in Hp, Hr, Hlp, Hlr.
  assert (Hview : view c2 = after_append disk r rs).
  { destruct (view c2) as [p rf lp lr]. simpl in *. unfold after_append.
    rewrite Hid. congruence. }
  unfold commit, close, dbm_bind, db_step, dbm_ret in E.
  destruct (raises e Commit).
  { left. injection E as <- <-. unfold on_disk. rewrite Hc. reflexivity. }
  right. exists r, rs. cbn [and_then]. rewrite Hid.
  split; [assumption |]. split; [assumption |]. split; [assumption |].
  destruct (raises e Close); injection E as <- <-; unfold on_disk; simpl;
    rewrite Hview.
  - split; [reflexivity |]. right. split; reflexivity.
  - split; [reflexivity |]. left. reflexivity.
Qed.

(** ** Record Store: the scenario, saved and not saved *)

Lemma scenario_prediction_result :
  prediction_result no_float_text no_int_text demo_model scenario_record
  = Some scenario_result.
Proof. vm_compute. reflexivity. Qed.

(** The glucose insert fails on the scenario: nothing is stored and no
    id comes back. *)
Lemma save_prediction_child_failure_scenario :
  nth_error (Result.risk_factors scenario_result) 2 = Some (glucose_factor 150)
  /\ factor_insert_fails glucose_insert_fails 2 (glucose_factor 150)
  /\ save_prediction_to_db glucose_insert_fails scenario_record
       scenario_result empty_db
     = (None, empty_db).
Proof.
  assert (H1 : nth_error (Result.risk_factors scenario_result) 2
               = Some (glucose_factor 150)) by reflexivity.
  assert (H2 : factor_insert_fails glucose_insert_fails 2 (glucose_factor 150))
    by (left; reflexivity).
  split; [exact H1 |]. split; [exact H2 |].
  exact (save_prediction_child_failure glucose_insert_fails scenario_record
           scenario_result empty_db 2 (glucose_factor 150) H1 H2).
Defined.

(** Without a failure the same call stores one prediction row and its
    six factor rows, and returns id 1. *)
Example save_prediction_scenario_success :
  let '(out, disk) :=
    save_prediction_to_db quiet scenario_record scenario_result empty_db in
  out = Some (1%Z, VStr "PATIENT_20240101120000")
  /\ length (predictions disk) = 1%nat
  /\ length (risk_factors disk) = 6%nat
  /\ List.map RiskFactor.prediction_id (risk_factors disk)
     = repeat (SNum 1) 6.
Proof. vm_compute. repeat split; reflexivity. Qed.

(** ** The prediction endpoint on a failing store *)

Section PredictProperties.

Variable str_to_float : string -> option Q.
Variable str_to_int : string -> option Z.
Variable model : gmap string pyval -> option (Z * (Q * Q)).

Lemma prediction_result_unsaved (data : gmap string pyval)
    (result : Result.t) :
  prediction_result str_to_float str_to_int model data = Some result ->
  Result.prediction_id result = None
  /\ Result.patient_id result = None
  /\ Result.saved_to_database result = None.
Proof.
  unfold prediction_result. intros H.
  repeat match type of H with
  | and_then ?m _ = Some _ => destruct m; simpl in H; [| discriminate]
  end.
  injection H as <-. repeat split; reflexivity.
Qed.

(** The only value [saved_to_database] ever takes is [true]. *)
Lemma predict_saved_flag (e : env) (data : gmap string pyval) (disk : db)
    (r : Result.t) :
  fst (predict str_to_float str_to_int model e data disk) = Ok r ->
  Result.saved_to_database r = None
  \/ Result.saved_to_database r = Some true.
Proof.
  unfold predict.
  destruct (prediction_result str_to_float str_to_int model data)
    as [result |] eqn:E; [| discriminate].
  destruct (prediction_result_unsaved data result E) as (_ & _ & Hs).
  destruct (save_prediction_to_db e data result disk) as [[[id pid] |] d].
  - destruct (truthy_int id); simpl; intros [= <-]; auto.
  - simpl. intros [= <-]. auto.
Qed.

End PredictProperties.

(** C2 (amended): for every prediction request on which the store append
    fails, the prediction response is still returned to the caller, and
    it is the computed result unchanged: the keys [prediction_id],
    [patient_id] and [saved_to_database] are absent from it.  In no
    response is [saved_to_database] false. *)
Theorem predict_store_failure
    (str_to_float : string -> option Q) (str_to_int : string -> option Z)
    (model : gmap string pyval -> option (Z * (Q * Q)))
    (e : env) (data : gmap string pyval) (disk : db) (result : Result.t) :
  prediction_result str_to_float str_to_int model data = Some result ->
  fst (save_prediction_to_db e data result disk) = None ->
  fst (predict str_to_float str_to_int model e data disk) = Ok result
  /\ Result.saved_to_database result = None
  /\ Result.prediction_id result = None
  /\ Result.patient_id result = None
  /\ (forall e' data' disk' r,
        fst (predict str_to_float str_to_int model e' data' disk') = Ok r ->
        Result.saved_to_database r <> Some false).
Proof.
  intros Hres Hsave.
  destruct (prediction_result_unsaved _ _ _ data result Hres)
    as (Hid & Hpid & Hflag).
  split; [| repeat split; try assumption].
  - unfold predict. rewrite Hres.
    destruct (save_prediction_to_db e data result disk) as [out d].
    simpl in Hsave. subst out. reflexivity.
  - intros e' data' disk' r Hr.
    destruct (predict_saved_flag _ _ _ e' data' disk' r Hr) as [-> | ->];
      discriminate.
Qed.

(** The request with unbindable notes on a healthy database: the append
    fails and the computed result is the response. *)
Lemma predict_store_failure_scenario :
  prediction_result no_float_text no_int_text demo_model
    unbindable_notes_record = Some scenario_result
  /\ fst (save_prediction_to_db quiet unbindable_notes_record
            scenario_result empty_db) = None
  /\ fst (predict no_float_text no_int_text demo_model quiet
            unbindable_notes_record empty_db) = Ok scenario_result
  /\ Result.saved_to_database scenario_result = None
  /\ Result.prediction_id scenario_result = None
  /\ Result.patient_id scenario_result = None
  /\ (forall e' data' disk' r,
        fst (predict no_float_text no_int_text demo_model e' data' disk')
        = Ok r ->
        Result.saved_to_database r <> Some false).
Proof.
  assert (H1 : prediction_result no_float_text no_int_text demo_model
                 unbindable_notes_record = Some scenario_result)
    by (vm_compute; reflexivity).
  assert (H2 : fst (save_prediction_to_db quiet unbindable_notes_record
                      scenario_result empty_db) = None)
    by (vm_compute; reflexivity).
  split; [exact H1 |]. split; [exact H2 |].
  exact (predict_store_failure no_float_text no_int_text demo_model quiet
           unbindable_notes_record empty_db scenario_result H1 H2).
Defined.

(** On a healthy database the same pipeline saves the scenario and
    reports it: id 1, the generated patient id, and the flag set. *)
Example predict_scenario_saved :
  exists r disk,
    predict no_float_text no_int_text demo_model quiet scenario_record
      empty_db = (Ok r, disk)
    /\ Result.saved_to_database r = Some true
    /\ Result.prediction_id r = Some 1%Z
    /\ Result.patient_id r = Some (VStr "PATIENT_20240101120000")
    /\ length (predictions disk) = 1%nat
    /\ length (risk_factors disk) = 6%nat.
Proof.
  do 2 eexists. split; [vm_compute; reflexivity |].
  repeat split; reflexivity.
Qed.

(** C2, as stated, fails: on this request the append fails, the response
    is returned, and it carries no [saved_to_database] field at all, so
    not one with value false. *)
Lemma predict_store_failure_no_flag :
  fst (save_prediction_to_db quiet unbindable_notes_record
         scenario_result empty_db) = None
  /\ exists r,
       predict no_float_text no_int_text demo_model quiet
         unbindable_notes_record empty_db = (Ok r, empty_db)
       /\ Result.saved_to_database r = None
       /\ Result.saved_to_database r <> Some false.
Proof.
  split; [vm_compute; reflexivity |].
  exists scenario_result.
  split; [vm_compute; reflexivity |].
  split; [reflexivity | discriminate].
Qed.

(** ** Aggregation: counting *)

Lemma filter_length_le {A : Type} (p q : A -> bool) (l : list A) :
  (forall x, p x = true -> q x = true) ->
  (length (List.filter p l) <= length (List.filter q l))%nat.
Proof.
  intros Hpq. induction l as [| x l IH]; simpl; [lia |].
  destruct (p x) eqn:Ep.
  - rewrite (Hpq x Ep). simpl. lia.
  - destruct (q x); simpl; lia.
Qed.

Lemma filter_length_lt {A : Type} (p q : A -> bool) (l : list A) (y : A) :
  (forall x, p x = true -> q x = true) ->
  In y l -> q y = true -> p y = false ->
  (length (List.filter p l) < length (List.filter q l))%nat.
Proof.
  intros Hpq Hin Hq Hp. induction l as [| x l IH]; simpl; [contradiction |].
  destruct Hin as [-> | Hin].
  - rewrite Hp, Hq. simpl.
    pose proof (filter_length_le p q l Hpq). lia.
  - specialize (IH Hin). destruct (p x) eqn:Ep.
    + rewrite (Hpq x Ep). simpl. lia.
    + destruct (q x); simpl; lia.
Qed.

Lemma filter_ext_length {A : Type} (p q : A -> bool) (l : list A) :
  (forall x, p x = q x) ->
  List.filter p l = List.filter q l.
Proof.
  intros H. induction l as [| x l IH]; simpl; [reflexivity |].
  rewrite H, IH. reflexivity.
Qed.

Lemma is_high_label_holds (r : Prediction.row) :
  holds (is_high_label r) = labelled_high r.
Proof.
  unfold is_high_label, labelled_high, sql_in_text.
  destruct (Prediction.risk_level r) as [| q | s]; simpl; try reflexivity.
  rewrite orb_false_r.
  destruct (String.eqb s "High" || String.eqb s "Very High"); reflexivity.
Qed.

Lemma high_risk_condition_holds (r : Prediction.row) :
  holds (high_risk_condition r)
  = labelled_high r && probability_above_half r.
Proof.
  unfold high_risk_condition. rewrite <- is_high_label_holds.
  unfold probability_above_half, sql_gt_num.
  destruct (is_high_label r) as [[|] |];
    destruct (Prediction.stroke_probability r) as [| q | s]; simpl;
    try reflexivity; destruct (Qltb 0.5 q); reflexivity.
Qed.

Lemma labelled_high_iff (r : Prediction.row) :
  labelled_high r = true
  <-> Prediction.risk_level r = SText "High"
      \/ Prediction.risk_level r = SText "Very High".
Proof.
  unfold labelled_high.
  destruct (Prediction.risk_level r) as [| q | s].
  - split; [discriminate | intros [H | H]; discriminate].
  - split; [discriminate | intros [H | H]; discriminate].
  - rewrite orb_true_iff, !String.eqb_eq.
    split; (intros [H | H]; [left | right]); congruence.
Qed.

(** C6: for every store state, [high_risk_patients] counts exactly the
    rows whose risk_level is High or Very High and whose
    stroke_probability is above 0.5; it never exceeds the count by
    risk_level alone, and is strictly smaller as soon as some High or
    Very High row has a probability of at most 0.5. *)
Theorem high_risk_patients_count (disk : db) :
  let rows := predictions disk in
  let by_label := count_where is_high_label rows in
  high_risk_patients (get_dashboard_data disk)
  = length (List.filter
              (fun r => labelled_high r && probability_above_half r) rows)
  /\ by_label = length (List.filter labelled_high rows)
  /\ (forall r, labelled_high r = true
                <-> Prediction.risk_level r = SText "High"
                    \/ Prediction.risk_level r = SText "Very High")
  /\ (forall r q, Prediction.stroke_probability r = SNum q ->
                  (probability_above_half r = true <-> 0.5 < q))
  /\ (high_risk_patients (get_dashboard_data disk) <= by_label)%nat
  /\ ((exists r q, In r rows /\ labelled_high r = true
                   /\ Prediction.stroke_probability r = SNum q
                   /\ q <= 0.5) ->
      (high_risk_patients (get_dashboard_data disk) < by_label)%nat).
Proof.
  intros rows by_label.
  assert (Hhigh : high_risk_patients (get_dashboard_data disk)
                  = length (List.filter
                      (fun r => labelled_high r && probability_above_half r)
                      rows)).
  { simpl. unfold count_where, select_where. f_equal.
    apply filter_ext_length. apply high_risk_condition_holds. }
  assert (Hlabel : by_label = length (List.filter labelled_high rows)).
  { unfold by_label, count_where, select_where. f_equal.
    apply filter_ext_length. apply is_high_label_holds. }
  split; [exact Hhigh |]. split; [exact Hlabel |].
  split; [apply labelled_high_iff |].
  split.
  { intros r q Hq. unfold probability_above_half. rewrite Hq.
    apply Qltb_lt. }
  rewrite Hhigh, Hlabel. split.
  - apply filter_length_le. intros x Hx.
    apply andb_true_iff in Hx. tauto.
  - intros (r & q & Hin & Hl & Hq & Hle).
    apply (filter_length_lt _ _ rows r).
    + intros x Hx. apply andb_true_iff in Hx. tauto.
    + assumption.
    + assumption.
    + rewrite Hl. simpl. unfold probability_above_half. rewrite Hq.
      apply Qltb_ge. assumption.
Qed.

(** On [labelled_store] the label High with probability 0.45 makes the
    global count (1) strictly smaller than the count by label (2). *)
Lemma high_risk_patients_count_strict :
  (exists r q, In r (predictions labelled_store)
               /\ labelled_high r = true
               /\ Prediction.stroke_probability r = SNum q
               /\ q <= 0.5)
  /\ (high_risk_patients (get_dashboard_data labelled_store)
      < count_where is_high_label (predictions labelled_store))%nat.
Proof.
  assert (Hex : exists r q, In r (predictions labelled_store)
                            /\ labelled_high r = true
                            /\ Prediction.stroke_probability r = SNum q
                            /\ q <= 0.5).
  { exists (stored_row 1 "Male" 70 "High" 0.45), 0.45.
    split; [left; reflexivity |]. split; [reflexivity |].
    split; [reflexivity |]. unfold Qle. simpl. lia. }
  split; [exact Hex |].
  exact (proj2 (proj2 (proj2 (proj2 (proj2
           (high_risk_patients_count labelled_store))))) Hex).
Defined.

(** ** Rounding *)

Lemma round_half_even_near (x : Q) :
  inject_Z (round_half_even x) - (1 # 2) <= x
  /\ x <= inject_Z (round_half_even x) + (1 # 2).
Proof.
  destruct x as [n d]. unfold round_half_even. simpl Qnum. simpl Qden.
  pose proof (Z.div_mod n (Zpos d) ltac:(lia)) as Hdm.
  pose proof (Z.mod_pos_bound n (Zpos d) ltac:(lia)) as Hr.
  set (q := (n / Zpos d)%Z) in *. set (r := (n mod Zpos d)%Z) in *.
  destruct (Z.ltb_spec (2 * r) (Zpos d)); [| destruct (Z.ltb_spec (Zpos d) (2 * r));
    [| destruct (Z.even q)]];
    unfold Qle, Qminus, Qplus, Qopp, inject_Z; simpl;
    clearbody q r; subst n; split; change (Z.pos (1 * 2)) with 2%Z; lia.
Qed.

Lemma round_half_even_between (x : Q) (a b : Z) :
  inject_Z a <= x -> x <= inject_Z b ->
  (a <= round_half_even x <= b)%Z.
Proof.
  destruct x as [n d]. unfold round_half_even, Qle, inject_Z.
  simpl Qnum. simpl Qden. intros Ha Hb.
  pose proof (Z.div_mod n (Zpos d) ltac:(lia)) as Hdm.
  pose proof (Z.mod_pos_bound n (Zpos d) ltac:(lia)) as Hr.
  set (q := (n / Zpos d)%Z) in *. set (r := (n mod Zpos d)%Z) in *.
  destruct (Z.ltb_spec (2 * r) (Zpos d)); [| destruct (Z.ltb_spec (Zpos d) (2 * r));
    [| destruct (Z.even q)]]; clearbody q r; subst n; nia.
Qed.

Lemma py_round_2_near (x : Q) :
  py_round x 2 - (1 # 200) <= x /\ x <= py_round x 2 + (1 # 200).
Proof.
  unfold py_round. simpl Z.to_pos. simpl inject_Z.
  change (10 ^ Z.of_nat 2)%Z with 100%Z.
  pose proof (round_half_even_near (x * inject_Z 100)) as [H1 H2].
  set (R := round_half_even (x * inject_Z 100)) in *.
  assert (HR : R # 100 == inject_Z R * (1 # 100)).
  { unfold Qeq, Qmult, inject_Z. simpl. lia. }
  rewrite HR. change (inject_Z 100) with 100 in *.
  split; lra.
Qed.

Lemma py_round_2_between (x : Q) :
  0 <= x -> x <= 100 -> 0 <= py_round x 2 /\ py_round x 2 <= 100.
Proof.
  intros H0 H100. unfold py_round.
  change (10 ^ Z.of_nat 2)%Z with 100%Z. simpl Z.to_pos.
  destruct (round_half_even_between (x * inject_Z 100) 0 10000) as [Ha Hb].
  - change (inject_Z 0) with 0. change (inject_Z 100) with 100. lra.
  - change (inject_Z 10000) with 10000. change (inject_Z 100) with 100. lra.
  - unfold Qle. simpl. split; lia.
Qed.

(** ** Double precision *)

Lemma pow2_pos (e : Z) : 0 < 2 ^ e.
Proof. apply Qpower_0_lt. reflexivity. Qed.

Lemma pow2_succ (e : Z) : 2 ^ (e + 1) == 2 * 2 ^ e.
Proof. rewrite Qpower_plus by discriminate. change (2 ^ 1) with (2 * 1). ring. Qed.

Lemma pow2_le (a b : Z) : (a <= b)%Z -> 2 ^ a <= 2 ^ b.
Proof. intros H. apply Qpower_le_compat_l; [assumption | discriminate]. Qed.

Lemma pow2_inject (n : Z) : (0 <= n)%Z -> 2 ^ n == inject_Z (2 ^ n).
Proof. intros H. rewrite Zpower_Qpower by assumption. reflexivity. Qed.

Lemma ilog2_spec (x : Q) :
  0 < x -> 2 ^ ilog2 x <= x /\ x < 2 ^ (ilog2 x + 1).
Proof.
  destruct x as [n d]. intros Hx.
  assert (Hn : (0 < n)%Z) by (unfold Qlt in Hx; simpl in Hx; lia).
  unfold ilog2. simpl Qnum. simpl Qden.
  pose proof (Z.log2_spec n Hn) as [Hn1 Hn2].
  pose proof (Z.log2_spec (Zpos d) ltac:(lia)) as [Hd1 Hd2].
  pose proof (Z.log2_nonneg n) as Hln.
  pose proof (Z.log2_nonneg (Zpos d)) as Hld.
  set (ln := Z.log2 n) in *. set (ld := Z.log2 (Zpos d)) in *.
  assert (HA : 2 ^ ln == inject_Z (2 ^ ln)) by (apply pow2_inject; assumption).
  assert (HB : 2 ^ ld == inject_Z (2 ^ ld)) by (apply pow2_inject; assumption).
  assert (He : 2 ^ (ln - ld) == 2 ^ ln / 2 ^ ld)
    by (apply Qpower_minus; discriminate).
  assert (HBpos : 0 < 2 ^ ld) by apply pow2_pos.
  assert (Hx' : n # d == inject_Z n / inject_Z (Zpos d)) by apply Qmake_Qdiv.
  assert (HN1 : inject_Z (2 ^ ln) <= inject_Z n) by (rewrite <- Zle_Qle; assumption).
  assert (HN2 : inject_Z n < 2 * inject_Z (2 ^ ln)).
  { change 2 with (inject_Z 2). rewrite <- inject_Z_mult, <- Zlt_Qlt.
    rewrite Z.pow_succ_r in Hn2 by assumption. lia. }
  assert (HD1 : inject_Z (2 ^ ld) <= inject_Z (Zpos d)) by (rewrite <- Zle_Qle; assumption).
  assert (HD2 : inject_Z (Zpos d) < 2 * inject_Z (2 ^ ld)).
  { change 2 with (inject_Z 2). rewrite <- inject_Z_mult, <- Zlt_Qlt.
    rewrite Z.pow_succ_r in Hd2 by assumption. lia. }
  assert (HDpos : 0 < inject_Z (Zpos d)) by (unfold Qlt; simpl; lia).
  rewrite HA, HB in *.
  set (A := inject_Z (2 ^ ln)) in *. set (B := inject_Z (2 ^ ld)) in *.
  set (N := inject_Z n) in *. set (D := inject_Z (Zpos d)) in *.
  destruct (Qltb (n # d) (2 ^ (ln - ld))) eqn:E;
    [ apply Qltb_lt in E | apply Qltb_ge in E ].
  - replace (ln - ld - 1 + 1)%Z with (ln - ld)%Z by lia.
    split; [| assumption].
    assert (H1 : 2 ^ (ln - ld - 1) == A / (2 * B)).
    { replace (ln - ld - 1)%Z with (ln - (ld + 1))%Z by lia.
      rewrite Qpower_minus by discriminate. rewrite pow2_succ, HA, HB.
      reflexivity. }
    rewrite H1, Hx'.
    apply Qle_shift_div_l; [assumption |].
    assert (H2 : A / (2 * B) * D == A * D / (2 * B)) by (field; lra).
    rewrite H2. apply Qle_shift_div_r; [lra |]. nra.
  - split; [assumption |].
    rewrite pow2_succ, He, Hx'.
    apply Qlt_shift_div_r; [assumption |].
    assert (H2 : 2 * (A / B) * D == 2 * A * D / B) by (field; lra).
    rewrite H2. apply Qlt_shift_div_l; [assumption |]. nra.
Qed.

Lemma ilog2_le (x : Q) (k : Z) : 0 < x -> x < 2 ^ (k + 1) -> (ilog2 x <= k)%Z.
Proof.
  intros Hx Hk. destruct (ilog2_spec x Hx) as [Hlo _].
  assert (H : 2 ^ ilog2 x < 2 ^ (k + 1)) by (eapply Qle_lt_trans; eassumption).
  apply Qpower_lt_compat_l_inv in H; [lia | reflexivity].
Qed.

Lemma binary64_zero (x : Q) : x == 0 -> binary64 x = 0.
Proof.
  intros H. unfold binary64. apply Qeq_bool_iff in H. rewrite H. reflexivity.
Qed.

Lemma binary64_pos (x : Q) :
  0 < x ->
  binary64 x
  = inject_Z (round_half_even (x / 2 ^ ulp_exponent x)) * 2 ^ ulp_exponent x.
Proof.
  intros Hx. unfold binary64, ulp_exponent.
  assert (E0 : Qeq_bool x 0 = false).
  { destruct (Qeq_bool x 0) eqn:E; [| reflexivity].
    apply Qeq_bool_iff in E. lra. }
  assert (E1 : Qltb x 0 = false) by (apply Qltb_ge; lra).
  rewrite E0, E1.
  assert (Ha : Qabs x = x).
  { destruct x as [n d]. unfold Qlt in Hx. simpl in Hx.
    unfold Qabs. rewrite Z.abs_eq by lia. reflexivity. }
  rewrite Ha. reflexivity.
Qed.

Lemma binary64_nonneg (x : Q) : 0 <= x -> 0 <= binary64 x.
Proof.
  intros Hx. destruct (Qlt_le_dec 0 x) as [Hpos | Hle].
  - rewrite binary64_pos by assumption.
    pose proof (pow2_pos (ulp_exponent x)) as Hp.
    set (y := x / 2 ^ ulp_exponent x).
    assert (Hy : 0 <= y) by (apply Qle_shift_div_l; [assumption | lra]).
    destruct (round_half_even_near y) as [_ Hhi].
    assert (Hm : (0 <= round_half_even y)%Z).
    { destruct (Z.le_gt_cases 0 (round_half_even y)) as [H | H]; [assumption |].
      assert (H' : inject_Z (round_half_even y) <= inject_Z (-1))
        by (rewrite <- Zle_Qle; lia).
      change (inject_Z (-1)) with (-1) in H'. lra. }
    apply Qmult_le_0_compat; [| lra].
    change 0 with (inject_Z 0). rewrite <- Zle_Qle. assumption.
  - rewrite binary64_zero by lra. lra.
Qed.

(** The double nearest to [x] is within half a unit of its last place. *)
Lemma binary64_near (x : Q) (k : Z) :
  0 <= x -> x < 2 ^ (k + 1) -> (-1022 <= k)%Z ->
  binary64 x - 2 ^ (k - 53) <= x /\ x <= binary64 x + 2 ^ (k - 53).
Proof.
  intros Hx Hk Hmin.
  pose proof (pow2_pos (k - 53)) as Hpk.
  destruct (Qlt_le_dec 0 x) as [Hpos | Hle].
  2: { rewrite binary64_zero by lra. split; lra. }
  rewrite binary64_pos by assumption.
  pose proof (ilog2_le x k Hpos Hk) as He.
  assert (HE : (ulp_exponent x <= k - 52)%Z) by (unfold ulp_exponent; lia).
  pose proof (pow2_pos (ulp_exponent x)) as Hp.
  pose proof (pow2_le _ _ HE) as Hle2.
  assert (Hhalf : 2 ^ (k - 52) == 2 * 2 ^ (k - 53)).
  { replace (k - 52)%Z with (k - 53 + 1)%Z by lia. apply pow2_succ. }
  set (u := 2 ^ ulp_exponent x) in *.
  destruct (round_half_even_near (x / u)) as [Hlo Hhi].
  set (m := inject_Z (round_half_even (x / u))) in *.
  assert (Hyu : x / u * u == x) by (field; lra).
  split.
  - assert (H : m * u - (1 # 2) * u <= x / u * u) by nra. lra.
  - assert (H : x / u * u <= m * u + (1 # 2) * u) by nra. lra.
Qed.

(** Rounding does not cross an integer below [2 ^ 53]: those are
    doubles themselves. *)
Lemma binary64_le_int (x : Q) (N : Z) :
  0 <= x -> x <= inject_Z N -> (N < 2 ^ 53)%Z -> binary64 x <= inject_Z N.
Proof.
  intros Hx HN Hsmall.
  destruct (Qlt_le_dec 0 x) as [Hpos | Hle].
  2: { rewrite binary64_zero by lra. lra. }
  rewrite binary64_pos by assumption.
  assert (Hk : x < 2 ^ (52 + 1)).
  { eapply Qle_lt_trans; [exact HN |].
    rewrite pow2_inject by lia. rewrite <- Zlt_Qlt. assumption. }
  pose proof (ilog2_le x 52 Hpos Hk) as He.
  assert (HE : (ulp_exponent x <= 0)%Z) by (unfold ulp_exponent; lia).
  set (E := ulp_exponent x) in *.
  pose proof (pow2_pos E) as Hp.
  assert (Hinv : 2 ^ E * inject_Z (2 ^ (- E)) == 1).
  { rewrite <- pow2_inject by lia. rewrite <- Qpower_plus by discriminate.
    replace (E + - E)%Z with 0%Z by lia. reflexivity. }
  set (P := (2 ^ (- E))%Z) in *.
  assert (HP : 0 < inject_Z P).
  { change 0 with (inject_Z 0). rewrite <- Zlt_Qlt. apply Z.pow_pos_nonneg; lia. }
  assert (Hy : x / 2 ^ E == x * inject_Z P).
  { field_simplify_eq; [| lra]. rewrite <- (Qmult_1_r x) at 1.
    rewrite <- Hinv. ring. }
  destruct (round_half_even_between (x / 2 ^ E) 0 (N * P)) as [_ Hhi].
  - rewrite Hy. change (inject_Z 0) with 0. nra.
  - rewrite Hy, inject_Z_mult. nra.
  - rewrite Zle_Qle in Hhi. rewrite inject_Z_mult in Hhi.
    set (m := inject_Z (round_half_even (x / 2 ^ E))) in *.
    assert (H : m * 2 ^ E <= inject_Z N * inject_Z P * 2 ^ E) by nra.
    assert (H2 : inject_Z N * inject_Z P * 2 ^ E == inject_Z N).
    { rewrite <- (Qmult_1_r (inject_Z N)) at 2. rewrite <- Hinv. ring. }
    lra.
Qed.

(** The percentage of [h] in [t] as the code computes it, and the
    two-decimal figure that [round] selects from it. *)
Lemma percentage_in_double (h t : nat) :
  (h <= t)%nat -> (0 < t)%nat ->
  let d := py_round (float_mul (true_div (Qnat h) (Qnat t)) 100) 2 in
  (0 <= d /\ d <= 100)
  /\ (d - ((1 # 200) + double_error) <= 100 * Qnat h / Qnat t
      /\ 100 * Qnat h / Qnat t <= d + ((1 # 200) + double_error))
  /\ (0 <= binary64 d /\ binary64 d <= 100)
  /\ (binary64 d - ((1 # 200) + double_error) <= 100 * Qnat h / Qnat t
      /\ 100 * Qnat h / Qnat t <= binary64 d + ((1 # 200) + double_error)).
Proof.
  intros Hle Hpos d.
  assert (Ht : 0 < Qnat t) by (unfold Qnat, Qlt; simpl; lia).
  assert (Hh : 0 <= Qnat h) by (unfold Qnat, Qle; simpl; lia).
  assert (Hht : Qnat h <= Qnat t) by (unfold Qnat, Qle; simpl; lia).
  set (q := Qnat h / Qnat t).
  assert (Hq0 : 0 <= q) by (apply Qle_shift_div_l; [assumption | lra]).
  assert (Hq1 : q <= 1) by (apply Qle_shift_div_r; [assumption | lra]).
  assert (Hexact : 100 * Qnat h / Qnat t == 100 * q)
    by (unfold q, Qdiv; ring).
  assert (P53 : 2 ^ (0 - 53) == 1 # 9007199254740992) by reflexivity.
  assert (P47 : 2 ^ (6 - 53) == 1 # 140737488355328) by reflexivity.
  assert (P1 : 2 ^ (0 + 1) == 2) by reflexivity.
  assert (P7 : 2 ^ (6 + 1) == 128) by reflexivity.
  (* the quotient *)
  unfold d, float_mul, true_div. fold q.
  set (x1 := binary64 q).
  pose proof (binary64_nonneg q Hq0) as Hx10. fold x1 in Hx10.
  pose proof (binary64_le_int q 1 Hq0 Hq1 ltac:(reflexivity)) as Hx11.
  fold x1 in Hx11. change (inject_Z 1) with 1 in Hx11.
  destruct (binary64_near q 0 Hq0 ltac:(rewrite P1; lra) ltac:(lia))
    as [Hx1a Hx1b]. fold x1 in Hx1a, Hx1b. rewrite P53 in Hx1a, Hx1b.
  (* its product with 100 *)
  assert (Hp0 : 0 <= x1 * 100) by lra.
  assert (Hp1 : x1 * 100 <= 100) by lra.
  set (x2 := binary64 (x1 * 100)).
  pose proof (binary64_nonneg _ Hp0) as Hx20. fold x2 in Hx20.
  pose proof (binary64_le_int (x1 * 100) 100 Hp0 Hp1 ltac:(reflexivity))
    as Hx21.
  fold x2 in Hx21. change (inject_Z 100) with 100 in Hx21.
  destruct (binary64_near (x1 * 100) 6 Hp0 ltac:(rewrite P7; lra) ltac:(lia))
    as [Hx2a Hx2b]. fold x2 in Hx2a, Hx2b. rewrite P47 in Hx2a, Hx2b.
  (* the decimal *)
  destruct (py_round_2_between x2 Hx20 Hx21) as [Hd0 Hd1].
  destruct (py_round_2_near x2) as [Hda Hdb].
  set (dd := py_round x2 2) in *.
  (* the double nearest to the decimal *)
  pose proof (binary64_nonneg dd Hd0) as Hr0.
  pose proof (binary64_le_int dd 100 Hd0 Hd1 ltac:(reflexivity)) as Hr1.
  change (inject_Z 100) with 100 in Hr1.
  destruct (binary64_near dd 6 Hd0 ltac:(rewrite P7; lra) ltac:(lia))
    as [Hra Hrb]. rewrite P47 in Hra, Hrb.
  rewrite Hexact. unfold double_error.
  repeat split; lra.
Qed.

(** ** Aggregation: per-gender statistics *)

Lemma sql_eq_text_holds (g : string) (r : Prediction.row) :
  holds (sql_eq_text (Prediction.gender r) g) = has_gender g r.
Proof.
  unfold has_gender, sql_eq_text.
  destruct (Prediction.gender r) as [| q | s]; simpl; try reflexivity.
  destruct (String.eqb s g); reflexivity.
Qed.

Lemma filter_filter {A : Type} (p q : A -> bool) (l : list A) :
  List.filter p (List.filter q l) = List.filter (fun x => q x && p x) l.
Proof.
  induction l as [| x l IH]; simpl; [reflexivity |].
  destruct (q x); simpl; [destruct (p x) |]; rewrite ?IH; reflexivity.
Qed.

Lemma gender_high_le_total (g : string) (rows : list Prediction.row) :
  (gender_high g rows <= gender_total g rows)%nat.
Proof.
  apply filter_length_le. intros x Hx. apply andb_true_iff in Hx. tauto.
Qed.

Lemma truthy_nat_keep (n : nat) : (if truthy_nat n then n else 0%nat) = n.
Proof. destruct n; reflexivity. Qed.

Lemma gender_risk_stat_counts (rows : list Prediction.row) (g : string) :
  GenderStat.total (gender_risk_stat rows g) = gender_total g rows
  /\ GenderStat.high_risk (gender_risk_stat rows g) = gender_high g rows.
Proof.
  unfold gender_risk_stat, gender_total, gender_high, select_where. simpl.
  rewrite (filter_ext_length _ (has_gender g) rows (sql_eq_text_holds g)).
  rewrite truthy_nat_keep. split; [reflexivity |].
  unfold sum_case.
  rewrite <- filter_filter.
  rewrite (filter_ext_length _ labelled_high _ is_high_label_holds).
  destruct (List.filter (has_gender g) rows); [reflexivity |].
  apply truthy_nat_keep.
Qed.

Lemma Qnat_nonneg (n : nat) : 0 <= Qnat n.
Proof. unfold Qnat, Qle. simpl. lia. Qed.

Lemma Qnat_pos (n : nat) : (0 < n)%nat -> 0 < Qnat n.
Proof. unfold Qnat, Qlt. simpl. lia. Qed.

Lemma Qnat_le (m n : nat) : (m <= n)%nat -> Qnat m <= Qnat n.
Proof. unfold Qnat, Qle. simpl. lia. Qed.

Lemma ratio_percent_bounds (h t : nat) :
  (h <= t)%nat -> (0 < t)%nat ->
  0 <= Qnat h / Qnat t * 100 /\ Qnat h / Qnat t * 100 <= 100.
Proof.
  intros Hle Hpos.
  pose proof (Qnat_pos t Hpos) as Ht.
  pose proof (Qnat_nonneg h) as Hh.
  pose proof (Qnat_le h t Hle) as Hht.
  assert (H0 : 0 <= Qnat h / Qnat t).
  { apply Qle_shift_div_l; [assumption | lra]. }
  assert (H1 : Qnat h / Qnat t <= 1).
  { apply Qle_shift_div_r; [assumption | lra]. }
  split; lra.
Qed.

Lemma gender_risk_stat_percentage (rows : list Prediction.row) (g : string) :
  let t := gender_total g rows in
  let h := gender_high g rows in
  let pct := GenderStat.risk_percentage (gender_risk_stat rows g) in
  (t = 0%nat -> pct = 0)
  /\ ((0 < t)%nat ->
      pct = float_round (float_mul (true_div (Qnat h) (Qnat t)) 100) 2).
Proof.
  intros t h pct.
  destruct (gender_risk_stat_counts rows g) as [Ht Hh].
  fold t in Ht. fold h in Hh.
  unfold pct. unfold gender_risk_stat in *. simpl in *.
  rewrite Ht, Hh.
  destruct t as [| t'].
  - split; [intros _; reflexivity | lia].
  - split; [discriminate |]. intros _. simpl truthy_nat. simpl andb.
    destruct h as [| h'].
    + simpl truthy_nat. cbv iota.
      assert (E1 : true_div (Qnat 0) (Qnat (S t')) = 0).
      { unfold true_div. apply binary64_zero. unfold Qdiv.
        change (Qnat 0) with 0. ring. }
      assert (E2 : float_mul 0 100 = 0) by reflexivity.
      rewrite E1, E2. reflexivity.
    + reflexivity.
Qed.

Lemma gender_risk_stats_lookup (rows : list Prediction.row) (g : string) :
  g = "Male" \/ g = "Female" ->
  gender_risk_stats rows !! g = Some (gender_risk_stat rows g).
Proof.
  unfold gender_risk_stats. simpl. intros [-> | ->].
  - rewrite lookup_insert_ne by discriminate. apply lookup_insert_eq.
  - apply lookup_insert_eq.
Qed.

Lemma sum_case_ignores_probability (p : sqlval) (l : list Prediction.row) :
  sum_case is_high_label (List.map (with_probability p) l)
  = sum_case is_high_label l.
Proof.
  assert (H : forall l,
            length (List.filter (fun r => holds (is_high_label r))
                      (List.map (with_probability p) l))
            = length (List.filter (fun r => holds (is_high_label r)) l)).
  { clear l. induction l as [| x l IH]; [reflexivity |].
    cbn [List.map List.filter].
    change (is_high_label (with_probability p x)) with (is_high_label x).
    destruct (holds (is_high_label x)); cbn [length]; rewrite IH;
      reflexivity. }
  destruct l as [| r l]; [reflexivity |].
  unfold sum_case. cbn [List.map].
  change (with_probability p r :: List.map (with_probability p) l)
    with (List.map (with_probability p) (r :: l)).
  rewrite H. reflexivity.
Qed.

Lemma select_gender_ignores_probability (p : sqlval) (g : string)
    (rows : list Prediction.row) :
  select_where (fun r => sql_eq_text (Prediction.gender r) g)
    (List.map (with_probability p) rows)
  = List.map (with_probability p)
      (select_where (fun r => sql_eq_text (Prediction.gender r) g) rows).
Proof.
  unfold select_where. induction rows as [| r rows IH]; [reflexivity |].
  cbn [List.map List.filter].
  change (Prediction.gender (with_probability p r))
    with (Prediction.gender r).
  destruct (holds (sql_eq_text (Prediction.gender r) g));
    cbn [List.map]; rewrite IH; reflexivity.
Qed.

Lemma gender_risk_stat_ignores_probability (p : sqlval)
    (rows : list Prediction.row) (g : string) :
  gender_risk_stat (List.map (with_probability p) rows) g
  = gender_risk_stat rows g.
Proof.
  unfold gender_risk_stat.
  rewrite select_gender_ignores_probability.
  rewrite length_map, sum_case_ignores_probability. reflexivity.
Qed.

(** C7 (amended): for every store state and each of the two genders,
    the per-gender entry counts as high-risk the rows of that gender
    whose risk_level is High or Very High, whatever their probability;
    risk_percentage is (high_risk / total) * 100 computed in double
    precision and rounded to two decimals: the double nearest to a
    figure n/100 that lies within 0.005 (and a rounding error below
    1e-13) of 100 * high_risk / total; it is 0 when the total is 0, and
    always within [0,100]. *)
Theorem gender_risk_stats_spec (disk : db) (g : string) :
  g = "Male" \/ g = "Female" ->
  let rows := predictions disk in
  let t := gender_total g rows in
  let h := gender_high g rows in
  exists st,
    gender_risk_stats_ (get_dashboard_data disk) !! g = Some st
    /\ GenderStat.total st = t
    /\ GenderStat.high_risk st = h
    /\ (forall p, gender_risk_stats (List.map (with_probability p) rows) !! g
                  = Some st)
    /\ (t = 0%nat -> GenderStat.risk_percentage st == 0)
    /\ ((0 < t)%nat ->
        exists n : Z,
          (0 <= n <= 10000)%Z
          /\ n # 100
             = py_round (float_mul (true_div (Qnat h) (Qnat t)) 100) 2
          /\ GenderStat.risk_percentage st = binary64 (n # 100)
          /\ (n # 100) - ((1 # 200) + double_error)
             <= 100 * Qnat h / Qnat t
          /\ 100 * Qnat h / Qnat t
             <= (n # 100) + ((1 # 200) + double_error)
          /\ GenderStat.risk_percentage st - ((1 # 200) + double_error)
             <= 100 * Qnat h / Qnat t
          /\ 100 * Qnat h / Qnat t
             <= GenderStat.risk_percentage st + ((1 # 200) + double_error))
    /\ 0 <= GenderStat.risk_percentage st
    /\ GenderStat.risk_percentage st <= 100.
Proof.
  intros Hg rows t h.
  exists (gender_risk_stat rows g).
  destruct (gender_risk_stat_counts rows g) as [Ht Hh].
  destruct (gender_risk_stat_percentage rows g) as [Hzero Hpos].
  fold t in Ht, Hzero, Hpos. fold h in Hh, Hpos. cbv zeta in Hzero, Hpos.
  pose proof (gender_high_le_total g rows) as Hle. fold t h in Hle.
  split; [apply gender_risk_stats_lookup; assumption |].
  split; [assumption |]. split; [assumption |].
  split.
  { intros p. rewrite gender_risk_stats_lookup by assumption.
    rewrite gender_risk_stat_ignores_probability. reflexivity. }
  split; [intros Hz; rewrite (Hzero Hz); reflexivity |].
  split.
  - intros Htpos. specialize (Hpos Htpos).
    destruct (percentage_in_double h t Hle Htpos)
      as ((Hd0 & Hd1) & (Hda & Hdb) & _ & (Hra & Hrb)).
    unfold float_round in Hpos. rewrite Hpos.
    set (x := float_mul (true_div (Qnat h) (Qnat t)) 100) in *.
    exists (round_half_even (x * inject_Z 100)).
    assert (Hfig : round_half_even (x * inject_Z 100) # 100 = py_round x 2)
      by reflexivity.
    rewrite Hfig.
    split.
    { unfold py_round in Hd0, Hd1.
      change (10 ^ Z.of_nat 2)%Z with 100%Z in Hd0, Hd1.
      simpl Z.to_pos in Hd0, Hd1.
      unfold Qle in Hd0, Hd1. simpl in Hd0, Hd1. lia. }
    repeat split; assumption.
  - destruct t as [| t'].
    + rewrite (Hzero eq_refl). split; lra.
    + rewrite (Hpos ltac:(lia)).
      destruct (percentage_in_double h (S t') Hle ltac:(lia))
        as (_ & _ & (Hr0 & Hr1) & _).
      split; assumption.
Qed.

(** On [labelled_store] the entry for Male covers two rows, one of them
    labelled High (with probability 0.45, below the global filter). *)
Lemma gender_risk_stats_spec_male :
  ("Male" = "Male" \/ "Male" = "Female")
  /\ exists st,
       gender_risk_stats_ (get_dashboard_data labelled_store) !! "Male"
       = Some st
       /\ GenderStat.total st = 2%nat
       /\ GenderStat.high_risk st = 1%nat
       /\ 0 <= GenderStat.risk_percentage st
       /\ GenderStat.risk_percentage st <= 100.
Proof.
  assert (Hg : "Male" = "Male" \/ "Male" = "Female") by (left; reflexivity).
  split; [exact Hg |].
  destruct (gender_risk_stats_spec labelled_store "Male" Hg)
    as (st & Hl & Ht & Hh & _ & _ & _ & H0 & H100).
  exists st. split; [exact Hl |].
  split; [rewrite Ht; reflexivity |].
  split; [rewrite Hh; reflexivity |].
  split; assumption.
Defined.

(** C7, as stated, fails: with one high-risk row out of three the entry
    reports 33.33 (the double nearest to it), which is not 100 * 1 / 3. *)
Lemma gender_risk_percentage_rounded :
  exists st,
    gender_risk_stats_ (get_dashboard_data thirds_store) !! "Male" = Some st
    /\ GenderStat.total st = 3%nat
    /\ GenderStat.high_risk st = 1%nat
    /\ GenderStat.risk_percentage st = binary64 33.33
    /\ ~ GenderStat.risk_percentage st
         == 100 * Qnat (GenderStat.high_risk st) / Qnat (GenderStat.total st).
Proof.
  eexists. split; [vm_compute; reflexivity |].
  repeat split. vm_compute. discriminate.
Qed.

(** The figure follows the double product, not the exact one: with 23
    high-risk rows out of 160 the exact percentage is 14.375, the
    product in double precision lies just below it, and the entry
    reports 14.37 where rounding the exact value would give 14.38. *)
Lemma gender_risk_percentage_in_double :
  exists st,
    gender_risk_stats_ (get_dashboard_data ward_store) !! "Male" = Some st
    /\ GenderStat.total st = 160%nat
    /\ GenderStat.high_risk st = 23%nat
    /\ GenderStat.risk_percentage st = binary64 14.37
    /\ py_round (100 * Qnat 23 / Qnat 160) 2 == 14.38.
Proof.
  eexists. split; [vm_compute; reflexivity |].
  repeat split.
Qed.

(** ** GROUP BY *)

Section GroupByCounts.

Context {K : Type} (eqb : K -> K -> bool).
Hypothesis eqb_sym : forall a b, eqb a b = true -> eqb b a = true.
Hypothesis eqb_trans :
  forall a b c, eqb a b = true -> eqb b c = true -> eqb a c = true.

Lemma count_of_bump (k k' : K) (acc : list (K * nat)) :
  count_of eqb k (bump eqb k' acc)
  = if eqb k k' then S (count_of eqb k acc) else count_of eqb k acc.
Proof.
  induction acc as [| [k1 n] rest IH]; simpl.
  - destruct (eqb k k'); reflexivity.
  - destruct (eqb k' k1) eqn:E1; simpl.
    + destruct (eqb k k') eqn:E; destruct (eqb k k1) eqn:E2;
        try reflexivity.
      * rewrite (eqb_trans _ _ _ E E1) in E2. discriminate.
      * rewrite (eqb_trans _ _ _ E2 (eqb_sym _ _ E1)) in E. discriminate.
    + rewrite IH. destruct (eqb k k1) eqn:E2; [| reflexivity].
      destruct (eqb k k') eqn:E; [| reflexivity].
      rewrite (eqb_trans _ _ _ (eqb_sym _ _ E) E2) in E1. discriminate.
Qed.

Lemma count_of_fold_bump (k : K) (keys : list K) :
  forall acc,
    count_of eqb k (fold_left (fun acc k' => bump eqb k' acc) keys acc)
    = (count_of eqb k acc + length (List.filter (eqb k) keys))%nat.
Proof.
  induction keys as [| k' keys IH]; intros acc; simpl; [lia |].
  rewrite IH, count_of_bump. destruct (eqb k k'); simpl; lia.
Qed.

(** Each key is reported with the number of rows that carry it. *)
Lemma count_of_group_count (k : K) (keys : list K) :
  count_of eqb k (group_count eqb keys)
  = length (List.filter (eqb k) keys).
Proof. unfold group_count. rewrite count_of_fold_bump. reflexivity. Qed.

End GroupByCounts.

Lemma sqlval_eqb_refl (a : sqlval) : sqlval_eqb a a = true.
Proof.
  destruct a; simpl; [reflexivity | apply Qeq_bool_refl | apply String.eqb_refl].
Qed.

Lemma sqlval_eqb_sym (a b : sqlval) :
  sqlval_eqb a b = true -> sqlval_eqb b a = true.
Proof.
  destruct a, b; simpl; try discriminate; try reflexivity.
  - apply Qeq_bool_sym.
  - rewrite String.eqb_sym. trivial.
Qed.

Lemma sqlval_eqb_trans (a b c : sqlval) :
  sqlval_eqb a b = true -> sqlval_eqb b c = true -> sqlval_eqb a c = true.
Proof.
  destruct a, b, c; simpl; try discriminate; try reflexivity.
  - apply Qeq_bool_trans.
  - rewrite !String.eqb_eq. congruence.
Qed.

(** ** Aggregation: genders outside Male and Female *)

Lemma has_gender_other (g : string) (r : Prediction.row) :
  Prediction.gender r <> SText g ->
  holds (sql_eq_text (Prediction.gender r) g) = false.
Proof.
  intros Hne. rewrite sql_eq_text_holds. unfold has_gender.
  destruct (Prediction.gender r) as [| q | s]; try reflexivity.
  destruct (String.eqb_spec s g) as [-> | _]; [| reflexivity].
  contradiction Hne. reflexivity.
Qed.

Lemma gender_risk_stat_skip (g : string) (r : Prediction.row)
    (rows1 rows2 : list Prediction.row) :
  Prediction.gender r <> SText g ->
  gender_risk_stat (rows1 ++ r :: rows2) g
  = gender_risk_stat (rows1 ++ rows2) g.
Proof.
  intros Hne. unfold gender_risk_stat, select_where.
  rewrite !List.filter_app. cbn [List.filter].
  rewrite (has_gender_other g r Hne). reflexivity.
Qed.

(** *** What the endpoint answers *)

Lemma dashboard_data_response_statistics (disk : db) (d : dashboard) :
  dashboard_data_response disk = Statistics d -> d = get_dashboard_data disk.
Proof.
  unfold dashboard_data_response, jsonify_dashboard.
  destruct (_ && _); [| discriminate]. intros [= <-]. reflexivity.
Qed.

Lemma group_count_keys {K : Type} (eqb : K -> K -> bool) (keys : list K)
    (x : K) :
  In x (List.map fst (group_count eqb keys)) -> In x keys.
Proof.
  unfold group_count.
  assert (Hbump : forall k acc,
            In x (List.map fst (bump eqb k acc)) ->
            x = k \/ In x (List.map fst acc)).
  { intros k acc. induction acc as [| [k1 n] rest IH]; simpl.
    - intros [H | []]. left. symmetry. exact H.
    - destruct (eqb k k1); simpl; [tauto |].
      intros [H | H]; [tauto |]. destruct (IH H); tauto. }
  assert (Hfold : forall acc,
            In x (List.map fst (fold_left (fun acc k => bump eqb k acc)
                                  keys acc)) ->
            In x keys \/ In x (List.map fst acc)).
  { induction keys as [| k keys IH]; intros acc H; simpl in H.
    - right. exact H.
    - destruct (IH _ H) as [Hin | Hin]; [left; right; exact Hin |].
      destruct (Hbump _ _ Hin) as [-> | Hacc];
        [left; left; reflexivity | right; exact Hacc]. }
  intros H. destruct (Hfold [] H) as [Hin | []]. exact Hin.
Qed.

Lemma count_of_entry {K : Type} (eqb : K -> K -> bool) (k : K)
    (d : list (K * nat)) :
  count_of eqb k d <> 0%nat ->
  exists k', In k' (List.map fst d) /\ eqb k k' = true.
Proof.
  induction d as [| [k1 n] rest IH]; simpl; [contradiction |].
  destruct (eqb k k1) eqn:E.
  - intros _. exists k1. split; [left; reflexivity | exact E].
  - intros H. destruct (IH H) as (k' & Hin & Hk).
    exists k'. split; [right; exact Hin | exact Hk].
Qed.

(** Every stored key has its group. *)
Lemma group_count_covers (k : sqlval) (keys : list sqlval) :
  In k keys ->
  exists k', In k' (List.map fst (group_count sqlval_eqb keys))
             /\ sqlval_eqb k k' = true.
Proof.
  intros Hin. apply count_of_entry.
  rewrite (count_of_group_count sqlval_eqb sqlval_eqb_sym sqlval_eqb_trans).
  induction keys as [| k0 keys IH]; [contradiction |].
  simpl. destruct Hin as [-> | Hin].
  - rewrite sqlval_eqb_refl. discriminate.
  - destruct (sqlval_eqb k k0); [discriminate | exact (IH Hin)].
Qed.

Lemma sortable_keys_text (keys : list sqlval) :
  (forall k, In k keys -> is_text k = true) -> sortable_keys keys = true.
Proof.
  intros H. destruct keys as [| a [| b l]]; try reflexivity.
  unfold sortable_keys. apply orb_true_iff. left.
  apply forallb_forall. exact H.
Qed.

Lemma sortable_keys_mixed (keys : list sqlval) (s : string) :
  In SNull keys -> In (SText s) keys -> sortable_keys keys = false.
Proof.
  intros Hnull Htext.
  assert (Ht : forallb is_text keys = false).
  { destruct (forallb is_text keys) eqn:E; [| reflexivity].
    rewrite forallb_forall in E. specialize (E _ Hnull). discriminate. }
  assert (Hn : forallb is_numeric keys = false).
  { destruct (forallb is_numeric keys) eqn:E; [| reflexivity].
    rewrite forallb_forall in E. specialize (E _ Htext). discriminate. }
  destruct keys as [| a [| b l]].
  - contradiction.
  - destruct Hnull as [-> | []]. destruct Htext as [H | []]. discriminate.
  - unfold sortable_keys. rewrite Ht, Hn. reflexivity.
Qed.

(** On a table whose genders and risk levels are all text the endpoint
    answers with the statistics. *)
Lemma dashboard_answers_text (disk : db) :
  List.Forall text_keys (predictions disk) ->
  dashboard_data_response disk = Statistics (get_dashboard_data disk).
Proof.
  intros Hall. rewrite List.Forall_forall in Hall.
  unfold dashboard_data_response, jsonify_dashboard.
  assert (Hg : sortable_keys
                 (List.map fst (gender_distribution (get_dashboard_data disk)))
               = true).
  { apply sortable_keys_text. intros k Hk. simpl in Hk.
    apply group_count_keys, List.in_map_iff in Hk.
    destruct Hk as (r & <- & Hr). apply (Hall r Hr). }
  assert (Hr : sortable_keys
                 (List.map fst (risk_distribution (get_dashboard_data disk)))
               = true).
  { apply sortable_keys_text. intros k Hk. simpl in Hk.
    apply group_count_keys, List.in_map_iff in Hk.
    destruct Hk as (r & <- & Hr). apply (Hall r Hr). }
  rewrite Hg, Hr. reflexivity.
Qed.

(** A prediction stored without gender next to one with a gender: the
    keys of [gender_distribution] do not sort. *)
Lemma dashboard_error_null_gender (disk : db) (r1 r2 : Prediction.row)
    (s : string) :
  In r1 (predictions disk) -> Prediction.gender r1 = SNull ->
  In r2 (predictions disk) -> Prediction.gender r2 = SText s ->
  dashboard_data_response disk = DashboardError.
Proof.
  intros H1 G1 H2 G2.
  unfold dashboard_data_response, jsonify_dashboard.
  assert (Hkeys : sortable_keys
                    (List.map fst
                       (gender_distribution (get_dashboard_data disk)))
                  = false).
  { simpl.
    destruct (group_count_covers SNull
                (List.map Prediction.gender (predictions disk)))
      as (k1 & Hk1 & E1).
    { rewrite <- G1. apply List.in_map. exact H1. }
    destruct (group_count_covers (SText s)
                (List.map Prediction.gender (predictions disk)))
      as (k2 & Hk2 & E2).
    { rewrite <- G2. apply List.in_map. exact H2. }
    destruct k1; try discriminate E1.
    destruct k2 as [| q | s2]; try discriminate E2.
    apply (sortable_keys_mixed _ s2); assumption. }
  rewrite Hkeys. reflexivity.
Qed.

(** C10 (amended): whenever the endpoint answers with statistics,
    [gender_risk_stats] has entries for exactly Male and Female, and a
    prediction whose gender is anything else adds one to
    total_predictions and to its own entry of gender_distribution and
    leaves gender_risk_stats as it was.  On a table whose genders and
    risk levels are all text (Other and any other text included) the
    endpoint does answer.  A prediction stored without gender next to
    one with a gender makes it answer with the error body instead. *)
Theorem gender_risk_stats_two_genders (disk disk' : db)
    (rows1 rows2 : list Prediction.row) (r : Prediction.row) :
  predictions disk = (rows1 ++ rows2)%list ->
  predictions disk' = (rows1 ++ r :: rows2)%list ->
  Prediction.gender r <> SText "Male" ->
  Prediction.gender r <> SText "Female" ->
  (forall d, dashboard_data_response disk = Statistics d ->
     dom (gender_risk_stats_ d) = ({["Male"; "Female"]} : gset string))
  /\ (forall d d',
        dashboard_data_response disk = Statistics d ->
        dashboard_data_response disk' = Statistics d' ->
        dom (gender_risk_stats_ d') = ({["Male"; "Female"]} : gset string)
        /\ total_predictions d' = S (total_predictions d)
        /\ count_of sqlval_eqb (Prediction.gender r) (gender_distribution d')
           = S (count_of sqlval_eqb (Prediction.gender r)
                  (gender_distribution d))
        /\ gender_risk_stats_ d' = gender_risk_stats_ d)
  /\ (List.Forall text_keys (predictions disk') ->
      exists d d',
        dashboard_data_response disk = Statistics d
        /\ dashboard_data_response disk' = Statistics d')
  /\ (Prediction.gender r = SNull ->
      (exists r0 s, In r0 (rows1 ++ rows2)%list
                    /\ Prediction.gender r0 = SText s) ->
      dashboard_data_response disk' = DashboardError).
Proof.
  intros Hrows Hrows' Hmale Hfemale.
  assert (Hdom : forall rows,
            dom (gender_risk_stats rows) = ({["Male"; "Female"]} : gset string)).
  { intros rows. unfold gender_risk_stats. simpl.
    rewrite !dom_insert_L, dom_empty_L. set_solver. }
  split; [| split; [| split]].
  - intros d Hd. apply dashboard_data_response_statistics in Hd. subst d.
    apply Hdom.
  - intros d d' Hd Hd'.
    apply dashboard_data_response_statistics in Hd, Hd'. subst d d'.
    split; [apply Hdom |].
    simpl. rewrite Hrows, Hrows'.
    split; [rewrite !List.length_app; simpl; lia |].
    split.
    + rewrite !(count_of_group_count sqlval_eqb sqlval_eqb_sym sqlval_eqb_trans).
      rewrite !List.map_app, !List.filter_app, !List.length_app.
      cbn [List.map List.filter].
      rewrite sqlval_eqb_refl. simpl. lia.
    + unfold gender_risk_stats. simpl.
      rewrite !gender_risk_stat_skip by assumption. reflexivity.
  - intros Hall. exists (get_dashboard_data disk), (get_dashboard_data disk').
    split; apply dashboard_answers_text; [| exact Hall].
    rewrite Hrows' in Hall. rewrite Hrows.
    rewrite List.Forall_forall in Hall |- *. intros x Hx. apply Hall.
    apply List.in_app_iff in Hx. apply List.in_app_iff.
    destruct Hx as [Hx | Hx]; [left | right; right]; exact Hx.
  - intros Hnull (r0 & s & Hr0 & Hs).
    apply (dashboard_error_null_gender disk' r r0 s).
    + rewrite Hrows'. apply List.in_app_iff. right. left. reflexivity.
    + exact Hnull.
    + rewrite Hrows'. apply List.in_app_iff.
      apply List.in_app_iff in Hr0.
      destruct Hr0 as [H | H]; [left | right; right]; exact H.
    + exact Hs.
Qed.

(** Appending [other_row] to [labelled_store]: the endpoint answers
    before and after, with one more prediction, one more Other and the
    same per-gender statistics. *)
Lemma gender_risk_stats_two_genders_other :
  predictions labelled_store = (predictions labelled_store ++ [])%list
  /\ predictions store_with_other
     = (predictions labelled_store ++ other_row :: [])%list
  /\ Prediction.gender other_row <> SText "Male"
  /\ Prediction.gender other_row <> SText "Female"
  /\ exists d d',
       dashboard_data_response labelled_store = Statistics d
       /\ dashboard_data_response store_with_other = Statistics d'
       /\ dom (gender_risk_stats_ d') = ({["Male"; "Female"]} : gset string)
       /\ total_predictions d' = S (total_predictions d)
       /\ count_of sqlval_eqb (Prediction.gender other_row)
            (gender_distribution d')
          = S (count_of sqlval_eqb (Prediction.gender other_row)
                 (gender_distribution d))
       /\ gender_risk_stats_ d' = gender_risk_stats_ d.
Proof.
  assert (H1 : predictions labelled_store
               = (predictions labelled_store ++ [])%list) by reflexivity.
  assert (H2 : predictions store_with_other
               = (predictions labelled_store ++ other_row :: [])%list)
    by reflexivity.
  assert (H3 : Prediction.gender other_row <> SText "Male")
    by (simpl; discriminate).
  assert (H4 : Prediction.gender other_row <> SText "Female")
    by (simpl; discriminate).
  split; [exact H1 |]. split; [exact H2 |].
  split; [exact H3 |]. split; [exact H4 |].
  destruct (gender_risk_stats_two_genders labelled_store store_with_other
              (predictions labelled_store) [] other_row H1 H2 H3 H4)
    as (_ & Hboth & Hanswers & _).
  destruct Hanswers as (d & d' & Hd & Hd').
  { repeat constructor. }
  exists d, d'. split; [exact Hd |]. split; [exact Hd' |].
  exact (Hboth d d' Hd Hd').
Defined.

(** C10, as stated, fails: after a prediction without gender is
    appended to [labelled_store], the endpoint answers with the error
    body, so the response holds no gender_risk_stats at all. *)
Lemma dashboard_error_on_null_gender :
  predictions store_with_null_gender
  = (predictions labelled_store ++ [without_gender other_row])%list
  /\ Prediction.gender (without_gender other_row) = SNull
  /\ dashboard_data_response store_with_null_gender = DashboardError
  /\ dashboard_data_response labelled_store
     = Statistics (get_dashboard_data labelled_store).
Proof.
  split; [reflexivity |]. split; [reflexivity |].
  split; [vm_compute; reflexivity |].
  apply dashboard_answers_text. repeat constructor.
Qed.

(** ** ORDER BY *)

Section OrderByFacts.

Context {A : Type} (key : A -> nat).

Lemma insert_by_In (x y : A) (l : list A) :
  In y (insert_by key x l) <-> y = x \/ In y l.
Proof.
  induction l as [| z l IH]; simpl.
  - intuition.
  - destruct (key x <? key z)%nat; simpl; rewrite ?IH; intuition.
Qed.

Lemma order_by_In (y : A) (l : list A) :
  In y (order_by key l) <-> In y l.
Proof.
  induction l as [| x l IH]; simpl; [tauto |].
  rewrite insert_by_In, IH. intuition.
Qed.

Lemma insert_by_sorted (x : A) (l : list A) :
  StronglySorted (before key) l ->
  (forall y, In y l -> key y <> key x) ->
  StronglySorted (before key) (insert_by key x l).
Proof.
  induction 1 as [| z l Hl IH Hz]; intros Hfresh; simpl.
  - constructor; constructor.
  - destruct (Nat.ltb_spec (key x) (key z)) as [Hlt | Hge].
    + constructor; [constructor; assumption |].
      constructor; [exact Hlt |].
      rewrite List.Forall_forall in Hz |- *. intros y Hy.
      specialize (Hz y Hy). unfold before in *. lia.
    + constructor.
      * apply IH. intros y Hy. apply Hfresh. right. assumption.
      * rewrite List.Forall_forall in Hz |- *. intros y Hy.
        apply insert_by_In in Hy. destruct Hy as [-> | Hy].
        -- assert (key z <> key x) by (apply Hfresh; left; reflexivity).
           unfold before. lia.
        -- apply Hz. assumption.
Qed.

(** Rows with pairwise different sort keys come out in strictly
    increasing key order. *)
Lemma order_by_sorted (l : list A) :
  List.NoDup (List.map key l) ->
  StronglySorted (before key) (order_by key l).
Proof.
  induction l as [| x l IH]; simpl; intros Hnd.
  - constructor.
  - inversion Hnd as [| k ks Hnotin Hnd' ]; subst.
    apply insert_by_sorted; [apply IH; assumption |].
    intros y Hy Heq. apply Hnotin. rewrite <- Heq.
    apply in_map. apply order_by_In. assumption.
Qed.

Lemma sorted_filter (p : A -> bool) (l : list A) :
  StronglySorted (before key) l -> StronglySorted (before key) (List.filter p l).
Proof.
  induction 1 as [| x l Hl IH Hx]; simpl; [constructor |].
  destruct (p x); [| assumption].
  constructor; [assumption |].
  rewrite List.Forall_forall in Hx |- *. intros y Hy.
  apply List.filter_In in Hy. apply Hx. tauto.
Qed.

(** A strictly ordered list is determined by its elements. *)
Lemma sorted_unique (l1 l2 : list A) :
  StronglySorted (before key) l1 -> StronglySorted (before key) l2 ->
  (forall x, In x l1 <-> In x l2) ->
  l1 = l2.
Proof.
  intros H1. revert l2.
  induction H1 as [| x l1 Hl1 IH Hx]; intros l2 H2 Hsame.
  - destruct l2 as [| y l2]; [reflexivity |].
    exfalso. apply (Hsame y). left. reflexivity.
  - destruct H2 as [| y l2 Hl2 Hy].
    + exfalso. apply (Hsame x). left. reflexivity.
    + rewrite List.Forall_forall in Hx, Hy.
      assert (Hxy : x = y).
      { assert (Hx2 : In x (y :: l2)) by (apply Hsame; left; reflexivity).
        assert (Hy1 : In y (x :: l1)) by (apply Hsame; left; reflexivity).
        destruct Hx2 as [<- | Hx2]; [reflexivity |].
        destruct Hy1 as [-> | Hy1]; [reflexivity |].
        specialize (Hx y Hy1). specialize (Hy x Hx2).
        unfold before in *. lia. }
      subst y. f_equal. apply IH; [assumption |].
      intros z. split; intros Hz.
      * assert (Hz2 : In z (x :: l2)) by (apply Hsame; right; assumption).
        destruct Hz2 as [<- | Hz2]; [| assumption].
        specialize (Hx x Hz). unfold before in Hx. lia.
      * assert (Hz1 : In z (x :: l1)) by (apply Hsame; right; assumption).
        destruct Hz1 as [<- | Hz1]; [| assumption].
        specialize (Hy x Hz). unfold before in Hy. lia.
Qed.

End OrderByFacts.

Section GroupByKeys.

Context {K : Type} (eqb : K -> K -> bool).
Hypothesis eqb_eq : forall a b, eqb a b = true <-> a = b.

Lemma eqb_eq_sym (a b : K) : eqb a b = true -> eqb b a = true.
Proof. rewrite !eqb_eq. congruence. Qed.

Lemma eqb_eq_trans (a b c : K) :
  eqb a b = true -> eqb b c = true -> eqb a c = true.
Proof. rewrite !eqb_eq. congruence. Qed.

Lemma bump_keys_In (k x : K) (acc : list (K * nat)) :
  In x (List.map fst (bump eqb k acc))
  <-> x = k \/ In x (List.map fst acc).
Proof.
  induction acc as [| [k1 n] rest IH]; simpl.
  - intuition.
  - destruct (eqb k k1) eqn:E; simpl.
    + apply eqb_eq in E. subst k1. intuition.
    + rewrite IH. intuition.
Qed.

Lemma bump_NoDup (k : K) (acc : list (K * nat)) :
  List.NoDup (List.map fst acc) ->
  List.NoDup (List.map fst (bump eqb k acc)).
Proof.
  induction acc as [| [k1 n] rest IH]; simpl; intros Hnd.
  - constructor; [intros [] | constructor].
  - inversion Hnd as [| ? ? Hnotin Hnd']; subst.
    destruct (eqb k k1) eqn:E; simpl.
    + constructor; assumption.
    + constructor; [| apply IH; assumption].
      rewrite bump_keys_In. intros [-> | Hin]; [| contradiction].
      assert (eqb k k = true) by (apply eqb_eq; reflexivity). congruence.
Qed.

Lemma bump_positive (k : K) (acc : list (K * nat)) :
  List.Forall (fun kn => (0 < snd kn)%nat) acc ->
  List.Forall (fun kn => (0 < snd kn)%nat) (bump eqb k acc).
Proof.
  induction 1 as [| [k1 n] rest Hn Hrest IH]; simpl.
  - constructor; [simpl; lia | constructor].
  - destruct (eqb k k1); constructor; simpl in *;
      try lia; assumption.
Qed.

Lemma group_count_invariant (keys : list K) :
  forall acc,
    List.NoDup (List.map fst acc) ->
    List.Forall (fun kn => (0 < snd kn)%nat) acc ->
    let out := fold_left (fun acc k => bump eqb k acc) keys acc in
    List.NoDup (List.map fst out)
    /\ List.Forall (fun kn => (0 < snd kn)%nat) out.
Proof.
  induction keys as [| k keys IH]; intros acc Hnd Hpos; simpl.
  - split; assumption.
  - apply IH; [apply bump_NoDup | apply bump_positive]; assumption.
Qed.

Lemma count_of_In (k : K) (n : nat) (l : list (K * nat)) :
  List.NoDup (List.map fst l) -> In (k, n) l -> count_of eqb k l = n.
Proof.
  induction l as [| [k1 m] rest IH]; simpl; intros Hnd Hin; [contradiction |].
  inversion Hnd as [| ? ? Hnotin Hnd']; subst.
  destruct Hin as [[= -> ->] | Hin].
  - assert (E : eqb k k = true) by (apply eqb_eq; reflexivity).
    rewrite E. reflexivity.
  - destruct (eqb k k1) eqn:E; [| apply IH; assumption].
    apply eqb_eq in E. subst k1. exfalso. apply Hnotin.
    change k with (fst (k, n)). apply in_map. assumption.
Qed.

Lemma In_count_of (k : K) (l : list (K * nat)) :
  (0 < count_of eqb k l)%nat -> In (k, count_of eqb k l) l.
Proof.
  induction l as [| [k1 m] rest IH]; simpl; intros Hpos; [lia |].
  destruct (eqb k k1) eqn:E.
  - apply eqb_eq in E. subst k1. left. reflexivity.
  - right. apply IH. assumption.
Qed.

(** The rows of a GROUP BY: a key appears once, with its positive count. *)
Lemma group_count_In (k : K) (n : nat) (keys : list K) :
  In (k, n) (group_count eqb keys)
  <-> n = length (List.filter (eqb k) keys) /\ (0 < n)%nat.
Proof.
  destruct (group_count_invariant keys [])
    as [Hnd Hpos]; [constructor | constructor |].
  fold (group_count eqb keys) in Hnd, Hpos.
  pose proof (count_of_group_count eqb eqb_eq_sym eqb_eq_trans k keys) as Hc.
  split.
  - intros Hin. split.
    + rewrite <- Hc. symmetry. apply count_of_In; assumption.
    + rewrite List.Forall_forall in Hpos. apply (Hpos (k, n) Hin).
  - intros [-> Hn]. rewrite <- Hc in *. apply In_count_of. assumption.
Qed.

Lemma group_count_NoDup (keys : list K) :
  List.NoDup (List.map fst (group_count eqb keys)).
Proof.
  destruct (group_count_invariant keys []) as [Hnd _];
    [constructor | constructor | exact Hnd].
Qed.

End GroupByKeys.

Lemma NoDup_map_on {A B : Type} (f : A -> B) (l : list A) :
  (forall x y, In x l -> In y l -> f x = f y -> x = y) ->
  List.NoDup l -> List.NoDup (List.map f l).
Proof.
  intros Hinj Hnd. induction Hnd as [| x l Hnotin Hnd IH]; simpl.
  - constructor.
  - constructor.
    + intros Hin. apply List.in_map_iff in Hin.
      destruct Hin as (y & Hy & Hyin).
      assert (y = x) by (apply Hinj; [right | left |]; auto).
      subst y. contradiction.
    + apply IH. intros a b Ha Hb. apply Hinj; right; assumption.
Qed.

Lemma filter_map_length {A B : Type} (p : B -> bool) (f : A -> B)
    (l : list A) :
  length (List.filter p (List.map f l))
  = length (List.filter (fun x => p (f x)) l).
Proof.
  induction l as [| x l IH]; simpl; [reflexivity |].
  destruct (p (f x)); simpl; rewrite IH; reflexivity.
Qed.

(** ** Aggregation: age buckets *)

Lemma age_group_In (age : sqlval) : In (age_group age) age_groups.
Proof.
  unfold age_group, age_groups.
  destruct (holds (sql_lt_num age 30)); [simpl; auto |].
  destruct (holds (sql_lt_num age 50)); [simpl; auto |].
  destruct (holds (sql_lt_num age 65)); simpl; auto.
Qed.

Lemma age_group_rank_injective (g1 g2 : string) :
  In g1 age_groups -> In g2 age_groups ->
  age_group_rank g1 = age_group_rank g2 -> g1 = g2.
Proof.
  unfold age_groups. simpl.
  intros [<- | [<- | [<- | [<- | []]]]] [<- | [<- | [<- | [<- | []]]]];
    vm_compute; intros; congruence.
Qed.

Lemma age_group_numeric (a : Q) :
  (age_group (SNum a) = "Under 30" <-> a < 30)
  /\ (age_group (SNum a) = "30-49" <-> 30 <= a /\ a < 50)
  /\ (age_group (SNum a) = "50-64" <-> 50 <= a /\ a < 65)
  /\ (age_group (SNum a) = "65+" <-> 65 <= a).
Proof.
  unfold age_group, sql_lt_num, holds.
  split_comparisons; repeat split; intros; try discriminate;
    try reflexivity;
    repeat match goal with H : _ /\ _ |- _ => destruct H end; lra.
Qed.

Lemma age_distribution_in_sequence (rows : list Prediction.row) :
  age_distribution rows = buckets_in_sequence rows.
Proof.
  unfold age_distribution, buckets_in_sequence.
  set (keys := List.map (fun r => age_group (Prediction.age r)) rows).
  assert (Hkeys : forall g, In g keys -> In g age_groups).
  { intros g Hg. apply List.in_map_iff in Hg.
    destruct Hg as (r & <- & _). apply age_group_In. }
  assert (Hcount : forall g,
            length (List.filter (String.eqb g) keys) = rows_in_group g rows).
  { intros g. unfold keys, rows_in_group. apply filter_map_length. }
  assert (Hgroup : forall g n,
            In (g, n) (group_count String.eqb keys) -> In g age_groups).
  { intros g n Hin.
    apply (group_count_In String.eqb String.eqb_eq) in Hin.
    destruct Hin as [-> Hpos]. apply Hkeys.
    destruct (List.filter (String.eqb g) keys) as [| k ks] eqn:E;
      [simpl in Hpos; lia |].
    assert (Hk : In k (List.filter (String.eqb g) keys))
      by (rewrite E; left; reflexivity).
    apply List.filter_In in Hk. destruct Hk as [Hk Hgk].
    apply String.eqb_eq in Hgk. subst k. assumption. }
  apply (sorted_unique group_rank).
  - apply order_by_sorted. unfold group_rank.
    rewrite <- (List.map_map fst age_group_rank).
    apply NoDup_map_on; [| apply (group_count_NoDup String.eqb String.eqb_eq)].
    intros g1 g2 H1 H2. apply List.in_map_iff in H1, H2.
    destruct H1 as ([g1' n1] & <- & H1). destruct H2 as ([g2' n2] & <- & H2).
    apply age_group_rank_injective; simpl; eapply Hgroup; eassumption.
  - apply sorted_filter. unfold age_groups, before, group_rank. simpl.
    repeat (constructor; [| repeat constructor; simpl; lia]). constructor.
  - intros [g n]. rewrite order_by_In.
    rewrite (group_count_In String.eqb String.eqb_eq).
    rewrite List.filter_In, List.in_map_iff. simpl.
    rewrite Nat.ltb_lt, Hcount. split.
    + intros [-> Hpos]. split; [| assumption].
      exists g. split; [reflexivity |].
      apply (Hgroup g (rows_in_group g rows)).
      apply (group_count_In String.eqb String.eqb_eq).
      rewrite Hcount. split; [reflexivity | assumption].
    + intros [(g' & [= <- <-] & _) Hpos]. split; [reflexivity | assumption].
Qed.

(** An age that is NULL, or text that is no number, passes no WHEN
    test and lands in the ELSE bucket. *)
Example age_group_not_numeric :
  age_group SNull = "65+" /\ age_group (SText "unknown") = "65+".
Proof. split; reflexivity. Qed.

(** C9: a numeric age falls in Under 30 iff age < 30, in 30-49 iff
    30 <= age < 50, in 50-64 iff 50 <= age < 65, in 65+ iff age >= 65,
    so the boundary ages 30, 50 and 65 go to the higher bucket; and
    [age_distribution] lists the non-empty buckets, each with its number
    of rows, in the bucket sequence Under 30, 30-49, 50-64, 65+, which
    is not the lexical order of the labels. *)
Theorem age_distribution_buckets :
  (forall a : Q,
     (age_group (SNum a) = "Under 30" <-> a < 30)
     /\ (age_group (SNum a) = "30-49" <-> 30 <= a /\ a < 50)
     /\ (age_group (SNum a) = "50-64" <-> 50 <= a /\ a < 65)
     /\ (age_group (SNum a) = "65+" <-> 65 <= a))
  /\ age_group (SNum 30) = "30-49"
  /\ age_group (SNum 50) = "50-64"
  /\ age_group (SNum 65) = "65+"
  /\ (forall disk,
        age_distribution_ (get_dashboard_data disk)
        = buckets_in_sequence (predictions disk))
  /\ (forall disk,
        StronglySorted (before group_rank)
          (age_distribution_ (get_dashboard_data disk)))
  /\ List.map age_group_rank age_groups = [1; 2; 3; 4]%nat
  /\ List.map fst (age_distribution_ (get_dashboard_data labelled_store))
     = ["Under 30"; "30-49"; "65+"]
  /\ String.compare "30-49" "Under 30" = Lt
  /\ String.compare "65+" "Under 30" = Lt.
Proof.
  split; [apply age_group_numeric |].
  split; [reflexivity |]. split; [reflexivity |]. split; [reflexivity |].
  split; [intros disk; apply age_distribution_in_sequence |].
  split.
  { intros disk. simpl. rewrite age_distribution_in_sequence.
    apply sorted_filter. unfold age_groups, before, group_rank. simpl.
    repeat (constructor; [| repeat constructor; simpl; lia]). constructor. }
  repeat split; reflexivity.
Qed.

(** * Further properties *)

(** ** The analyzer on absent and ill-typed fields *)

Lemma get_absent (data : gmap string pyval) (k : string) (d : pyval) :
  data !! k = None -> get data k d = d.
Proof. unfold get. intros ->. reflexivity. Qed.

(** X1: a record that has none of the six fields the analyzer reads (the
    empty record among them) is scored as a patient without risk: six
    factors in the usual order, values 0, 0, 0, 0, 0 and "never smoked",
    every contribution 0, categories Low, Normal, Normal, Low, Low,
    Low.  Nothing is rejected. *)
Theorem calculate_risk_factors_defaults
    (str_to_float : string -> option Q) (str_to_int : string -> option Z)
    (data : gmap string pyval) :
  data !! "age" = None ->
  data !! "bmi" = None ->
  data !! "avg_glucose_level" = None ->
  data !! "hypertension" = None ->
  data !! "heart_disease" = None ->
  data !! "smoking_status" = None ->
  exists fs,
    calculate_risk_factors str_to_float str_to_int data = Some fs
    /\ List.map value fs
       = [VNum 0; VNum 0; VNum 0; VNum 0; VNum 0; VStr "never smoked"]
    /\ List.map risk_category fs
       = ["Low"; "Normal"; "Normal"; "Low"; "Low"; "Low"]
    /\ List.Forall (fun f => contribution f == 0) fs.
Proof.
  intros Ha Hb Hg Hh Hd Hs. unfold calculate_risk_factors.
  rewrite !get_absent by assumption. simpl.
  eexists. split; [reflexivity |].
  split; [reflexivity |]. split; [reflexivity |].
  repeat constructor.
Qed.

Lemma calculate_risk_factors_defaults_empty :
  (∅ : gmap string pyval) !! "age" = None
  /\ exists fs,
       calculate_risk_factors no_float_text no_int_text ∅ = Some fs
       /\ List.map value fs
          = [VNum 0; VNum 0; VNum 0; VNum 0; VNum 0; VStr "never smoked"]
       /\ List.map risk_category fs
          = ["Low"; "Normal"; "Normal"; "Low"; "Low"; "Low"]
       /\ List.Forall (fun f => contribution f == 0) fs.
Proof.
  split; [reflexivity |].
  apply (calculate_risk_factors_defaults no_float_text no_int_text ∅);
    reflexivity.
Defined.

Lemma py_float_number (str_to_float : string -> option Q) (v : pyval) :
  is_number v -> in_double_range v ->
  exists q, py_float str_to_float v = Some q.
Proof.
  destruct v; simpl; try contradiction; intros _ Hr; [eauto |].
  apply Qltb_lt in Hr. rewrite Hr. eauto.
Qed.

Lemma py_float_overflow (str_to_float : string -> option Q) (q : Q) :
  float_overflow <= Qabs q -> py_float str_to_float (VNum q) = None.
Proof. intros H. simpl. apply Qltb_ge in H. rewrite H. reflexivity. Qed.

Lemma py_int_number (str_to_int : string -> option Z) (v : pyval) :
  is_number v -> exists z, py_int str_to_int v = Some z.
Proof. destruct v; simpl; try contradiction; eauto. Qed.

Lemma get_absent_or_number (data : gmap string pyval) (k : string) (q : Q) :
  absent_or_number data k -> is_number (get data k (VNum q)).
Proof.
  unfold absent_or_number, get. destruct (data !! k); simpl; auto.
Qed.

Lemma get_present (data : gmap string pyval) (k : string) (v d : pyval) :
  data !! k = Some v -> get data k d = v.
Proof. unfold get. intros ->. reflexivity. Qed.

Lemma calculate_risk_factors_none
    (str_to_float : string -> option Q) (str_to_int : string -> option Z)
    (data : gmap string pyval) :
  calculate_risk_factors str_to_float str_to_int data = None
  <-> py_float str_to_float (get data "age" (VNum 0)) = None
      \/ py_float str_to_float (get data "bmi" (VNum 0)) = None
      \/ py_float str_to_float (get data "avg_glucose_level" (VNum 0)) = None
      \/ py_int str_to_int (get data "hypertension" (VNum 0)) = None
      \/ py_int str_to_int (get data "heart_disease" (VNum 0)) = None.
Proof.
  unfold calculate_risk_factors.
  destruct (py_float str_to_float (get data "age" (VNum 0))); simpl;
    [| tauto].
  destruct (py_float str_to_float (get data "bmi" (VNum 0))); simpl;
    [| tauto].
  destruct (py_float str_to_float (get data "avg_glucose_level" (VNum 0)));
    simpl; [| tauto].
  destruct (py_int str_to_int (get data "hypertension" (VNum 0))); simpl;
    [| tauto].
  destruct (py_int str_to_int (get data "heart_disease" (VNum 0))); simpl;
    [| tauto].
  split; [discriminate |].
  intros [H | [H | [H | [H | H]]]]; discriminate.
Qed.

(** X2: which requests the analyzer rejects.  It raises when any of
    age, bmi, avg_glucose_level, hypertension, heart_disease is null or
    a JSON array or object, whatever the text parsers do, and when age,
    bmi or avg_glucose_level is an integer too large for a double.
    When each of the five fields is absent, a boolean or a finite
    number (within the range of a double for the three that [float]
    converts), six factors come back whatever smoking_status and the
    other fields hold. *)
Theorem calculate_risk_factors_conversions
    (str_to_float : string -> option Q) (str_to_int : string -> option Z)
    (data : gmap string pyval) :
  (forall k, In k numeric_fields ->
     data !! k = Some VNone \/ data !! k = Some VOther ->
     calculate_risk_factors str_to_float str_to_int data = None)
  /\ (forall k q, In k float_fields ->
        data !! k = Some (VNum q) -> float_overflow <= Qabs q ->
        calculate_risk_factors str_to_float str_to_int data = None)
  /\ ((forall k, In k float_fields -> absent_or_float data k) ->
      (forall k, In k int_fields -> absent_or_number data k) ->
      exists fs,
        calculate_risk_factors str_to_float str_to_int data = Some fs
        /\ length fs = 6%nat).
Proof.
  split; [| split].
  - intros k Hk Hv. apply calculate_risk_factors_none.
    assert (Hget : get data k (VNum 0) = VNone \/ get data k (VNum 0) = VOther).
    { destruct Hv as [Hv | Hv]; [left | right];
        apply get_present; assumption. }
    unfold numeric_fields in Hk. simpl in Hk.
    destruct Hk as [<- | [<- | [<- | [<- | [<- | []]]]]];
      destruct Hget as [-> | ->]; simpl; tauto.
  - intros k q Hk Hv Hbig. apply calculate_risk_factors_none.
    pose proof (get_present data k (VNum q) (VNum 0) Hv) as Hget.
    pose proof (py_float_overflow str_to_float q Hbig) as Hnone.
    unfold float_fields in Hk. simpl in Hk.
    destruct Hk as [<- | [<- | [<- | []]]]; rewrite Hget; tauto.
  - intros Hfloat Hint.
    destruct (calculate_risk_factors str_to_float str_to_int data)
      as [fs |] eqn:E.
    + exists fs. split; [reflexivity |].
      unfold calculate_risk_factors in E.
      repeat match type of E with
      | and_then ?m _ = Some _ => destruct m; simpl in E; [| discriminate]
      end.
      injection E as <-. reflexivity.
    + exfalso. apply calculate_risk_factors_none in E.
      assert (Hf : forall k, In k float_fields ->
                exists q, py_float str_to_float (get data k (VNum 0)) = Some q).
      { intros k Hk. destruct (Hfloat k Hk) as [Hn Hr].
        apply py_float_number; [apply get_absent_or_number, Hn |].
        unfold get. destruct (data !! k) as [v |] eqn:Ev; simpl.
        - apply Hr. reflexivity.
        - reflexivity. }
      assert (Hi : forall k, In k int_fields ->
                exists z, py_int str_to_int (get data k (VNum 0)) = Some z).
      { intros k Hk. apply py_int_number, get_absent_or_number, Hint, Hk. }
      unfold float_fields in Hf. unfold int_fields in Hi.
      destruct E as [E | [E | [E | [E | E]]]].
      * destruct (Hf "age") as [q Hq]; [simpl; auto | congruence].
      * destruct (Hf "bmi") as [q Hq]; [simpl; auto | congruence].
      * destruct (Hf "avg_glucose_level") as [q Hq]; [simpl; auto | congruence].
      * destruct (Hi "hypertension") as [q Hq]; [simpl; auto | congruence].
      * destruct (Hi "heart_disease") as [q Hq]; [simpl; auto | congruence].
Qed.

(** ** Step contributions *)

(** X3: like the age contribution, the BMI and glucose contributions
    never decrease when the value grows; they stay within [0, 0.15] and
    [0, 0.20]; and no factor the analyzer returns has a negative
    contribution. *)
Theorem step_contributions_monotone :
  (forall b1 b2, b1 <= b2 ->
     contribution (bmi_factor b1) <= contribution (bmi_factor b2))
  /\ (forall g1 g2, g1 <= g2 ->
        contribution (glucose_factor g1) <= contribution (glucose_factor g2))
  /\ (forall b, 0 <= contribution (bmi_factor b)
                /\ contribution (bmi_factor b) <= 0.15)
  /\ (forall g, 0 <= contribution (glucose_factor g)
                /\ contribution (glucose_factor g) <= 0.20)
  /\ (forall str_to_float str_to_int data fs,
        calculate_risk_factors str_to_float str_to_int data = Some fs ->
        List.Forall (fun f => 0 <= contribution f) fs).
Proof.
  repeat match goal with |- _ /\ _ => split end.
  - intros b1 b2 H. simpl. split_comparisons; lra.
  - intros g1 g2 H. simpl. split_comparisons; lra.
  - intros b. simpl. split_comparisons; split; lra.
  - intros g. simpl. split_comparisons; split; lra.
  - intros stf sti data fs E. unfold calculate_risk_factors in E.
    repeat match type of E with
    | and_then ?m _ = Some _ => destruct m; simpl in E; [| discriminate]
    end.
    injection E as <-.
    repeat constructor; simpl; unfold py_max;
      repeat match goal with
      | |- context [if ?b then _ else _] => destruct b eqn:?
      end;
      try match goal with H : Qltb _ _ = true |- _ => apply Qltb_lt in H end;
      lra.
Qed.

(** ** Interpretation *)

(** X4: the interpretation text is a function of the risk tier alone:
    it ignores the risk factors and changes at the same four cut points
    as the tier, so a response never pairs a tier with the text of
    another (Very Low reads "Low stroke risk", Low reads "Moderate
    risk", Medium reads "Elevated risk"). *)
Theorem interpretation_follows_tier (stroke_prob : Q)
    (risk_factors : list factor) :
  get_interpretation stroke_prob risk_factors
  = interpretation_of_tier (risk_level_of stroke_prob).
Proof.
  unfold get_interpretation, risk_level_of.
  destruct (Qltb stroke_prob 0.2); [reflexivity |].
  destruct (Qltb stroke_prob 0.4); [reflexivity |].
  destruct (Qltb stroke_prob 0.6); [reflexivity |].
  destruct (Qltb stroke_prob 0.8); reflexivity.
Qed.

(** ** Recommendations on the analyzer's factors *)

Lemma factor_recommendation_age (age : Q) :
  factor_recommendation (age_factor age) = Some [].
Proof.
  unfold factor_recommendation.
  destruct (Qltb 0.1 (contribution (age_factor age))); reflexivity.
Qed.

Lemma factor_recommendation_bmi (bmi : Q) :
  factor_recommendation (bmi_factor bmi)
  = Some (if Qltb 30 bmi then ["Weight management program"] else []).
Proof.
  unfold factor_recommendation. simpl.
  destruct (Qltb 30 bmi) eqn:E30.
  - apply Qltb_lt in E30.
    assert (E25 : Qltb 25 bmi = true) by (apply Qltb_lt; lra).
    rewrite E25. reflexivity.
  - destruct (Qltb 25 bmi); reflexivity.
Qed.

Lemma factor_recommendation_glucose (glucose : Q) :
  factor_recommendation (glucose_factor glucose)
  = Some (if Qltb 140 glucose then ["Diabetes screening and management"]
          else []).
Proof.
  unfold factor_recommendation. simpl.
  destruct (Qltb 140 glucose) eqn:E140.
  - apply Qltb_lt in E140.
    assert (E100 : Qltb 100 glucose = true) by (apply Qltb_lt; lra).
    rewrite E100. reflexivity.
  - destruct (Qltb 100 glucose); reflexivity.
Qed.

Lemma factor_recommendation_hypertension (h : Z) :
  factor_recommendation (hypertension_factor h) = Some [].
Proof.
  unfold factor_recommendation. simpl. destruct (h =? 1)%Z; reflexivity.
Qed.

Lemma factor_recommendation_heart_disease (h : Z) :
  factor_recommendation (heart_disease_factor h) = Some [].
Proof.
  unfold factor_recommendation. simpl. destruct (h =? 1)%Z; reflexivity.
Qed.

Lemma factor_recommendation_smoking (smoking : pyval) :
  factor_recommendation (smoking_factor smoking)
  = Some (if py_eq_str smoking "smokes" then ["Smoking cessation support"]
          else []).
Proof.
  unfold factor_recommendation. simpl.
  destruct (py_eq_str smoking "smokes") eqn:E1; [reflexivity |].
  destruct (py_eq_str smoking "formerly smoked"); reflexivity.
Qed.

Lemma get_recommendations_analyzed (stroke_prob age bmi glucose : Q)
    (hypertension heart_disease : Z) (smoking : pyval) :
  get_recommendations stroke_prob
    [ age_factor age; bmi_factor bmi; glucose_factor glucose;
      hypertension_factor hypertension; heart_disease_factor heart_disease;
      smoking_factor smoking ]
  = Some (advice stroke_prob bmi glucose smoking).
Proof.
  unfold get_recommendations. cbn [factor_recommendations].
  rewrite factor_recommendation_age, factor_recommendation_bmi,
    factor_recommendation_glucose, factor_recommendation_hypertension,
    factor_recommendation_heart_disease, factor_recommendation_smoking.
  unfold advice. cbn [and_then].
  destruct (Qltb 0.4 stroke_prob), (Qltb 30 bmi), (Qltb 140 glucose),
    (py_eq_str smoking "smokes"); reflexivity.
Qed.

Lemma advice_shape (stroke_prob bmi glucose : Q) (smoking : pyval) :
  (1 <= length (advice stroke_prob bmi glucose smoking) <= 5)%nat
  /\ List.NoDup (advice stroke_prob bmi glucose smoking)
  /\ (In "Regular blood pressure monitoring"
        (advice stroke_prob bmi glucose smoking) <-> 0.4 < stroke_prob)
  /\ (In "Weight management program"
        (advice stroke_prob bmi glucose smoking) <-> 30 < bmi)
  /\ (In "Diabetes screening and management"
        (advice stroke_prob bmi glucose smoking) <-> 140 < glucose)
  /\ (In "Smoking cessation support"
        (advice stroke_prob bmi glucose smoking) <-> smoking = VStr "smokes").
Proof.
  unfold advice.
  destruct (Qltb 0.4 stroke_prob) eqn:Ep;
    [ apply Qltb_lt in Ep | apply Qltb_ge in Ep ];
    (destruct (Qltb 30 bmi) eqn:Eb;
     [ apply Qltb_lt in Eb | apply Qltb_ge in Eb ]);
    (destruct (Qltb 140 glucose) eqn:Eg;
     [ apply Qltb_lt in Eg | apply Qltb_ge in Eg ]);
    (destruct (py_eq_str smoking "smokes") eqn:Es;
     [ apply py_eq_str_true in Es | apply py_eq_str_false in Es ]);
    simpl;
    (split; [lia |]);
    (split;
     [ repeat (constructor; [simpl; intuition discriminate |]); constructor |]);
    repeat split; intros;
      repeat match goal with
      | H : _ \/ _ |- _ => destruct H
      | H : False |- _ => destruct H
      end;
      try discriminate; try assumption; try contradiction; try lra;
      auto 10.
Qed.

(** X5: on the factors the analyzer builds for a request, the
    recommendations are decided by the raw fields: blood-pressure
    monitoring and annual checkups iff the probability exceeds 0.4, weight
    management iff bmi > 30, diabetes screening iff glucose > 140, smoking
    cessation iff smoking_status is "smokes".  A bmi in (25, 30], a glucose
    in (100, 140] and a former smoker get no advice of their own: their
    contributions 0.08 and 0.10 are not above 0.1.  Age, hypertension and
    heart disease never add one; the list has between 1 and 5 distinct
    entries, so the cap cuts nothing. *)
Theorem recommendations_of_record
    (str_to_float : string -> option Q) (str_to_int : string -> option Z)
    (data : gmap string pyval) (stroke_prob : Q) (fs : list factor) :
  calculate_risk_factors str_to_float str_to_int data = Some fs ->
  exists age bmi glucose recs,
    py_float str_to_float (get data "age" (VNum 0)) = Some age
    /\ py_float str_to_float (get data "bmi" (VNum 0)) = Some bmi
    /\ py_float str_to_float (get data "avg_glucose_level" (VNum 0))
       = Some glucose
    /\ get_recommendations stroke_prob fs = Some recs
    /\ recs = advice stroke_prob bmi glucose
                (get data "smoking_status" (VStr "never smoked"))
    /\ (1 <= length recs <= 5)%nat
    /\ List.NoDup recs
    /\ (In "Regular blood pressure monitoring" recs <-> 0.4 < stroke_prob)
    /\ (In "Weight management program" recs <-> 30 < bmi)
    /\ (In "Diabetes screening and management" recs <-> 140 < glucose)
    /\ (In "Smoking cessation support" recs
        <-> get data "smoking_status" (VStr "never smoked") = VStr "smokes").
Proof.
  intros E. unfold calculate_risk_factors in E.
  destruct (py_float str_to_float (get data "age" (VNum 0))) as [age |];
    simpl in E; [| discriminate].
  destruct (py_float str_to_float (get data "bmi" (VNum 0))) as [bmi |];
    simpl in E; [| discriminate].
  destruct (py_float str_to_float (get data "avg_glucose_level" (VNum 0)))
    as [glucose |]; simpl in E; [| discriminate].
  destruct (py_int str_to_int (get data "hypertension" (VNum 0))) as [h |];
    simpl in E; [| discriminate].
  destruct (py_int str_to_int (get data "heart_disease" (VNum 0))) as [d |];
    simpl in E; [| discriminate].
  injection E as <-.
  exists age, bmi, glucose, (advice stroke_prob bmi glucose
                 (get data "smoking_status" (VStr "never smoked"))).
  split; [reflexivity |]. split; [reflexivity |]. split; [reflexivity |].
  split; [apply get_recommendations_analyzed |].
  split; [reflexivity |].
  apply advice_shape.
Qed.

(** A former smoker with bmi 28 and glucose 120 at probability 0.3 is
    given the fallback pair only. *)
Lemma recommendations_of_record_borderline :
  calculate_risk_factors no_float_text no_int_text borderline_record
  = Some borderline_factors
  /\ get_recommendations 0.3 borderline_factors
     = Some fallback_recommendations.
Proof.
  assert (H : calculate_risk_factors no_float_text no_int_text
                borderline_record = Some borderline_factors)
    by (vm_compute; reflexivity).
  split; [exact H |].
  destruct (recommendations_of_record no_float_text no_int_text
              borderline_record 0.3 borderline_factors H)
    as (age & bmi & glucose & recs & _ & Hb & Hg & Hr & Hrecs & _).
  rewrite Hr, Hrecs. vm_compute in Hb, Hg.
  injection Hb as <-. injection Hg as <-. reflexivity.
Defined.

(** ** The prediction endpoint: errors and the shape of a response *)

Lemma get_recommendations_total (stroke_prob : Q) (fs : list factor) :
  Forall comparable fs ->
  exists recs, get_recommendations stroke_prob fs = Some recs
               /\ (1 <= length recs <= 5)%nat.
Proof.
  intros Hfs.
  destruct (factor_recommendations_total fs Hfs) as (fired & Hfired & _).
  unfold get_recommendations. rewrite Hfired. cbn [and_then].
  eexists. split; [reflexivity |].
  destruct (Qltb 0.4 stroke_prob); simpl.
  - pose proof (firstn_le_length 3 fired). lia.
  - destruct fired as [| r fired]; simpl; [lia |].
    pose proof (firstn_le_length 4 fired). lia.
Qed.

Section PredictFurther.

Variable str_to_float : string -> option Q.
Variable str_to_int : string -> option Z.
Variable model : gmap string pyval -> option (Z * (Q * Q)).

Lemma prediction_result_none (data : gmap string pyval) :
  prediction_result str_to_float str_to_int model data = None
  <-> model data = None
      \/ calculate_risk_factors str_to_float str_to_int data = None.
Proof.
  unfold prediction_result.
  destruct (model data) as [[pred [p0 p1]] |]; simpl; [| tauto].
  destruct (calculate_risk_factors str_to_float str_to_int data)
    as [fs |] eqn:E; simpl; [| tauto].
  destruct (get_recommendations_total p1 fs) as (recs & -> & _).
  { eapply calculate_risk_factors_comparable. eassumption. }
  simpl. split; [discriminate | intros [H | H]; discriminate].
Qed.

Lemma prediction_result_some (data : gmap string pyval) (r : Result.t) :
  prediction_result str_to_float str_to_int model data = Some r ->
  exists pred p0 p1 fs recs,
    model data = Some (pred, (p0, p1))
    /\ calculate_risk_factors str_to_float str_to_int data = Some fs
    /\ get_recommendations p1 fs = Some recs
    /\ r = {| Result.prediction := pred;
              Result.probability_no_stroke := p0;
              Result.probability_stroke := p1;
              Result.risk_level := risk_level_of p1;
              Result.confidence := py_max p0 p1 * 100;
              Result.risk_factors := fs;
              Result.interpretation := get_interpretation p1 fs;
              Result.recommendations := recs;
              Result.prediction_id := None;
              Result.patient_id := None;
              Result.saved_to_database := None |}.
Proof.
  unfold prediction_result.
  destruct (model data) as [[pred [p0 p1]] |]; simpl; [| discriminate].
  destruct (calculate_risk_factors str_to_float str_to_int data)
    as [fs |]; simpl; [| discriminate].
  destruct (get_recommendations p1 fs) as [recs |] eqn:Er; simpl;
    [| discriminate].
  intros [= <-]. exists pred, p0, p1, fs, recs.
  split; [reflexivity |]. split; [reflexivity |].
  split; [exact Er | reflexivity].
Qed.

End PredictFurther.

(** X6: the endpoint answers with the error body (status 500) exactly
    when the pipeline raises or the analyzer cannot convert a field:
    the recommendation step never raises on the analyzer's factors, and
    no failure of the database turns into an error response.  An error
    response leaves the database file as it was. *)
Theorem predict_server_error_iff
    (str_to_float : string -> option Q) (str_to_int : string -> option Z)
    (model : gmap string pyval -> option (Z * (Q * Q)))
    (e : env) (data : gmap string pyval) (disk : db) :
  (fst (predict str_to_float str_to_int model e data disk) = ServerError
   <-> model data = None
       \/ calculate_risk_factors str_to_float str_to_int data = None)
  /\ (fst (predict str_to_float str_to_int model e data disk) = ServerError
      -> snd (predict str_to_float str_to_int model e data disk) = disk).
Proof.
  rewrite <- prediction_result_none. unfold predict.
  destruct (prediction_result str_to_float str_to_int model data)
    as [result |].
  - destruct (save_prediction_to_db e data result disk)
      as [[[id pid] |] disk'];
      [destruct (truthy_int id) |]; simpl;
      (split; [split; discriminate | discriminate]).
  - simpl. split; [tauto | reflexivity].
Qed.

(** X7: whatever the pipeline returns, a computed result is consistent
    with itself: its tier is the tier of its stroke probability and one
    of the five, it carries six risk factors and between 1 and 5
    recommendations, its confidence is 100 times the larger probability
    (at least 50 when the two probabilities add up to 1, at most 100
    when neither exceeds 1), and the three database keys are absent
    until the save. *)
Theorem prediction_result_consistent
    (str_to_float : string -> option Q) (str_to_int : string -> option Z)
    (model : gmap string pyval -> option (Z * (Q * Q)))
    (data : gmap string pyval) (r : Result.t) :
  prediction_result str_to_float str_to_int model data = Some r ->
  Result.risk_level r = risk_level_of (Result.probability_stroke r)
  /\ In (Result.risk_level r) risk_tiers
  /\ length (Result.risk_factors r) = 6%nat
  /\ (1 <= length (Result.recommendations r) <= 5)%nat
  /\ Result.confidence r
     == 100 * Qmax (Result.probability_no_stroke r)
                   (Result.probability_stroke r)
  /\ (Result.probability_no_stroke r + Result.probability_stroke r == 1 ->
      50 <= Result.confidence r)
  /\ (Result.probability_no_stroke r <= 1 ->
      Result.probability_stroke r <= 1 ->
      Result.confidence r <= 100)
  /\ Result.prediction_id r = None
  /\ Result.patient_id r = None
  /\ Result.saved_to_database r = None.
Proof.
  intros H.
  destruct (prediction_result_some _ _ _ data r H)
    as (pred & p0 & p1 & fs & recs & Hm & Hfs & Hrecs & ->).
  simpl.
  split; [reflexivity |].
  split.
  { unfold risk_level_of, risk_tiers.
    destruct (Qltb p1 0.2); [simpl; auto |].
    destruct (Qltb p1 0.4); [simpl; auto |].
    destruct (Qltb p1 0.6); [simpl; auto |].
    destruct (Qltb p1 0.8); simpl; auto 6. }
  split.
  { unfold calculate_risk_factors in Hfs.
    repeat match type of Hfs with
    | and_then ?m _ = Some _ => destruct m; simpl in Hfs; [| discriminate]
    end.
    injection Hfs as <-. reflexivity. }
  split.
  { destruct (get_recommendations_total p1 fs) as (recs' & Hr' & Hlen).
    - eapply calculate_risk_factors_comparable. eassumption.
    - rewrite Hrecs in Hr'. injection Hr' as <-. exact Hlen. }
  assert (Hmax : py_max p0 p1 == Qmax p0 p1) by apply py_max_spec.
  split; [rewrite Hmax; ring |].
  split.
  - intros Hsum. unfold py_max. split_comparisons; lra.
  - split; [| repeat split; reflexivity].
    intros H0 H1. unfold py_max. split_comparisons; lra.
Qed.

Lemma prediction_result_consistent_scenario :
  prediction_result no_float_text no_int_text demo_model scenario_record
  = Some scenario_result
  /\ Result.risk_level scenario_result
     = risk_level_of (Result.probability_stroke scenario_result)
  /\ length (Result.risk_factors scenario_result) = 6%nat
  /\ 50 <= Result.confidence scenario_result.
Proof.
  assert (H : prediction_result no_float_text no_int_text demo_model
                scenario_record = Some scenario_result)
    by (vm_compute; reflexivity).
  split; [exact H |].
  destruct (prediction_result_consistent no_float_text no_int_text
              demo_model scenario_record scenario_result H)
    as (H1 & _ & H3 & _ & _ & H6 & _).
  split; [exact H1 |]. split; [exact H3 |].
  apply H6. vm_compute. reflexivity.
Defined.

(** ** Record Store: the rows of a successful append *)




Lemma stored_prediction_columns (e : env) (data : gmap string pyval)
    (result : Result.t) (disk : db) (r : Prediction.row) :
  stored_prediction e data result disk = Some r ->
  Prediction.id r = (last_prediction_id disk + 1)%Z
  /\ Prediction.timestamp r = SText (isoformat_now e)
  /\ Prediction.prediction r = SNum (inject_Z (Result.prediction result))
  /\ Prediction.stroke_probability r
     = SNum (Result.probability_stroke result)
  /\ Prediction.no_stroke_probability r
     = SNum (Result.probability_no_stroke result)
  /\ Prediction.risk_level r = SText (Result.risk_level result)
  /\ Prediction.confidence r = SNum (Result.confidence result)
  /\ bind_param (get_or_none data "gender") = Some (Prediction.gender r)
  /\ bind_param (get_or_none data "age") = Some (Prediction.age r)
  /\ bind_param (get_or_none data "bmi") = Some (Prediction.bmi r)
  /\ bind_param (get_or_none data "Residence_type")
     = Some (Prediction.residence_type r).
Proof.
  unfold stored_prediction, prediction_params. cbn [bind_params].
  repeat match goal with
  | |- context [bind_param ?v] =>
      lazymatch v with
      | VNum _ => fail
      | VStr _ => fail
      | _ => destruct (bind_param v) eqn:?; cbn [and_then];
             [| discriminate]
      end
  end.
  cbn [bind_param and_then prediction_row].
  intros [= <-]. cbn. repeat split; reflexivity.
Qed.



Lemma stored_factors_rows (prediction_id : Z) (fs : list factor) :
  forall last rs,
    stored_factors prediction_id last fs = Some rs ->
    length rs = length fs
    /\ List.Forall
         (fun f => RiskFactor.prediction_id f = SNum (inject_Z prediction_id)
                   /\ (last < RiskFactor.id f <= last + Z.of_nat (length fs))%Z)
         rs
    /\ List.NoDup (List.map RiskFactor.id rs)
    /\ List.map RiskFactor.factor_name rs
       = List.map (fun f => SText (name f)) fs
    /\ List.map RiskFactor.contribution rs
       = List.map (fun f => SNum (contribution f)) fs.
Proof.
  induction fs as [| f fs IH]; intros last rs H; simpl in H.
  - injection H as <-. repeat split; constructor.
  - unfold factor_params in H. cbn [bind_params bind_param and_then] in H.
    destruct (bind_param (value f)) as [s |]; cbn [and_then] in H;
      [| discriminate].
    cbn [risk_factor_row and_then] in H.
    destruct (stored_factors prediction_id (last + 1) fs) as [rs' |] eqn:E;
      cbn [and_then] in H; [| discriminate].
    injection H as <-.
    destruct (IH _ _ E) as (Hlen & Hall & Hnd & Hnames & Hcontr).
    rewrite List.Forall_forall in Hall.
    split; [simpl; lia |]. split.
    { constructor.
      - simpl. split; [reflexivity | lia].
      - rewrite List.Forall_forall. intros x Hx.
        destruct (Hall x Hx) as [Hp Hid]. split; [exact Hp |].
        simpl length. lia. }
    split.
    { simpl. constructor; [| exact Hnd].
      intros Hin. apply List.in_map_iff in Hin.
      destruct Hin as (x & Hx & Hxin).
      destruct (Hall x Hxin) as [_ Hid]. lia. }
    split; simpl; [rewrite Hnames | rewrite Hcontr]; reflexivity.
Qed.






(** ** Record Store: invariants *)

Lemma after_append_integrity (disk : db) (r : Prediction.row)
    (rs : list RiskFactor.row) (n : nat) :
  store_integrity disk ->
  Prediction.id r = (last_prediction_id disk + 1)%Z ->
  List.Forall
    (fun f => RiskFactor.prediction_id f = SNum (inject_Z (Prediction.id r))
              /\ (last_risk_factor_id disk < RiskFactor.id f
                  <= last_risk_factor_id disk + Z.of_nat n)%Z) rs ->
  length rs = n ->
  List.NoDup (List.map RiskFactor.id rs) ->
  store_integrity (after_append disk r rs).
Proof.
  intros (Hnd & Hle & Hfnd & Hfle & Hfk) Hid Hall Hlen Hnew.
  rewrite List.Forall_forall in Hall.
  unfold store_integrity, after_append. simpl.
  split.
  { rewrite List.map_app. simpl.
    apply List.NoDup_app; [exact Hnd | repeat constructor; intros [] |].
    intros x Hx [Hx' | []]. subst x.
    apply List.in_map_iff in Hx. destruct Hx as (p & Hp & Hpin).
    specialize (Hle p Hpin). lia. }
  split.
  { intros p Hp. apply List.in_app_iff in Hp. destruct Hp as [Hp | [<- | []]].
    - specialize (Hle p Hp). lia.
    - lia. }
  split.
  { rewrite List.map_app.
    apply List.NoDup_app; [exact Hfnd | exact Hnew |].
    intros x Hx Hx'.
    apply List.in_map_iff in Hx. destruct Hx as (f & Hf & Hfin).
    apply List.in_map_iff in Hx'. destruct Hx' as (g & Hg & Hgin).
    specialize (Hfle f Hfin). destruct (Hall g Hgin) as [_ Hgid]. lia. }
  split.
  { intros f Hf. apply List.in_app_iff in Hf. destruct Hf as [Hf | Hf].
    - specialize (Hfle f Hf). lia.
    - destruct (Hall f Hf) as [_ Hfid]. lia. }
  intros f Hf. apply List.in_app_iff in Hf. destruct Hf as [Hf | Hf].
  - destruct (Hfk f Hf) as (p & Hp & Hpid). exists p.
    split; [apply List.in_app_iff; left; exact Hp | exact Hpid].
  - destruct (Hall f Hf) as [Hpid _]. exists r.
    split; [apply List.in_app_iff; right; left; reflexivity | exact Hpid].
Qed.

Lemma save_prediction_integrity (e : env) (data : gmap string pyval)
    (result : Result.t) (disk : db) :
  store_integrity disk ->
  store_integrity (snd (save_prediction_to_db e data result disk)).
Proof.
  intros Hint.
  destruct (save_prediction_outcomes e data result disk)
    as [-> | (r & rs & Hr & Hrs & Hlen & -> & _)]; [exact Hint |].
  destruct (stored_prediction_columns e data result disk r Hr) as (Hid & _).
  destruct (stored_factors_rows _ _ _ _ Hrs) as (_ & Hall & Hnd & _).
  apply (after_append_integrity disk r rs
           (length (Result.risk_factors result))); assumption.
Qed.

(** X9: an append keeps the store sound, whether it succeeds or fails
    and whichever call raises: prediction ids and factor ids stay unique
    and at most the last id handed out, and every factor row points to a
    stored prediction (no orphan), although SQLite does not enforce the
    declared foreign key.  The same holds for a whole request. *)
Theorem store_integrity_preserved
    (str_to_float : string -> option Q) (str_to_int : string -> option Z)
    (model : gmap string pyval -> option (Z * (Q * Q)))
    (e : env) (data : gmap string pyval) (result : Result.t) (disk : db) :
  store_integrity disk ->
  store_integrity (snd (save_prediction_to_db e data result disk))
  /\ store_integrity
       (snd (predict str_to_float str_to_int model e data disk)).
Proof.
  intros Hint. split; [apply save_prediction_integrity; exact Hint |].
  unfold predict.
  destruct (prediction_result str_to_float str_to_int model data)
    as [res |]; [| exact Hint].
  pose proof (save_prediction_integrity e data res disk Hint) as H.
  destruct (save_prediction_to_db e data res disk) as [[[id pid] |] disk'];
    [destruct (truthy_int id) |]; exact H.
Qed.

Lemma store_integrity_preserved_scenario :
  store_integrity empty_db
  /\ store_integrity
       (snd (save_prediction_to_db quiet scenario_record scenario_result
               empty_db))
  /\ store_integrity
       (snd (predict no_float_text no_int_text demo_model
               glucose_insert_fails scenario_record empty_db)).
Proof.
  assert (H : store_integrity empty_db).
  { unfold store_integrity, empty_db. simpl.
    repeat split; try constructor; intros ? []. }
  split; [exact H |].
  split.
  - exact (proj1 (store_integrity_preserved no_float_text no_int_text
                    demo_model quiet scenario_record scenario_result
                    empty_db H)).
  - exact (proj2 (store_integrity_preserved no_float_text no_int_text
                    demo_model glucose_insert_fails scenario_record
                    scenario_result empty_db H)).
Defined.

(** ** Stored labels and stored probabilities *)

Lemma coherent_above_half (r : Prediction.row) :
  coherent r -> labelled_high r = true -> probability_above_half r = true.
Proof.
  intros (p & Hp & Hl) Hhigh. unfold labelled_high in Hhigh.
  unfold probability_above_half. rewrite Hp. rewrite Hl in Hhigh.
  apply Qltb_lt. unfold risk_level_of in Hhigh.
  destruct (Qltb p 0.2); [discriminate |].
  destruct (Qltb p 0.4); [discriminate |].
  destruct (Qltb p 0.6) eqn:E; [discriminate |].
  apply Qltb_ge in E. lra.
Qed.

(** X10: every request keeps the stored labels true to the stored
    probabilities: if each prediction row holds the tier of its own
    stroke probability before the request, so does each row after it. *)
Theorem predict_keeps_rows_coherent
    (str_to_float : string -> option Q) (str_to_int : string -> option Z)
    (model : gmap string pyval -> option (Z * (Q * Q)))
    (e : env) (data : gmap string pyval) (disk : db) :
  List.Forall coherent (predictions disk) ->
  List.Forall coherent
    (predictions (snd (predict str_to_float str_to_int model e data disk))).
Proof.
  intros Hc. unfold predict.
  destruct (prediction_result str_to_float str_to_int model data)
    as [result |] eqn:Hres; [| exact Hc].
  assert (Hsaved : List.Forall coherent
            (predictions (snd (save_prediction_to_db e data result disk)))).
  { destruct (save_prediction_outcomes e data result disk)
      as [-> | (r & rs & Hr & _ & _ & -> & _)]; [exact Hc |].
    simpl. apply List.Forall_app. split; [exact Hc |].
    constructor; [| constructor].
    destruct (stored_prediction_columns e data result disk r Hr)
      as (_ & _ & _ & Hprob & _ & Hlevel & _).
    destruct (prediction_result_some _ _ _ data result Hres)
      as (pred & p0 & p1 & fs & recs & _ & _ & _ & ->).
    exists p1. split; [exact Hprob | exact Hlevel]. }
  destruct (save_prediction_to_db e data result disk)
    as [[[id pid] |] disk']; [destruct (truthy_int id) |]; exact Hsaved.
Qed.

Lemma predict_keeps_rows_coherent_scenario :
  List.Forall coherent (predictions empty_db)
  /\ List.Forall coherent
       (predictions
          (snd (predict no_float_text no_int_text demo_model quiet
                  scenario_record empty_db)))
  /\ length
       (predictions
          (snd (predict no_float_text no_int_text demo_model quiet
                  scenario_record empty_db))) = 1%nat.
Proof.
  assert (H : List.Forall coherent (predictions empty_db)) by constructor.
  split; [exact H |]. split.
  - exact (predict_keeps_rows_coherent no_float_text no_int_text demo_model
             quiet scenario_record empty_db H).
  - vm_compute. reflexivity.
Defined.

(** X11: on a store whose labels are true to the probabilities (as all
    rows written by the endpoint are), the probability filter of the
    global high-risk count removes nothing: high_risk_patients equals
    the number of rows labelled High or Very High, and for each of the
    two genders the per-gender high_risk counts rows that also pass the
    global filter. *)
Theorem coherent_store_high_risk (disk : db) :
  List.Forall coherent (predictions disk) ->
  high_risk_patients (get_dashboard_data disk)
  = count_where is_high_label (predictions disk)
  /\ forall g st,
       gender_risk_stats_ (get_dashboard_data disk) !! g = Some st ->
       GenderStat.high_risk st
       = length (List.filter
                   (fun r => has_gender g r && holds (high_risk_condition r))
                   (predictions disk)).
Proof.
  intros Hc. rewrite List.Forall_forall in Hc.
  assert (Hsame : forall r, In r (predictions disk) ->
            holds (high_risk_condition r) = labelled_high r).
  { intros r Hr. rewrite high_risk_condition_holds.
    destruct (labelled_high r) eqn:E; [| reflexivity].
    rewrite (coherent_above_half r (Hc r Hr) E). reflexivity. }
  assert (Hext : forall (p q : Prediction.row -> bool) l,
            (forall r, In r l -> p r = q r) ->
            List.filter p l = List.filter q l).
  { intros p q l. induction l as [| x l IH]; intros H; [reflexivity |].
    simpl. rewrite (H x (or_introl eq_refl)), IH; [reflexivity |].
    intros r Hr. apply H. right. exact Hr. }
  split.
  - simpl. unfold count_where, select_where. f_equal. apply Hext.
    intros r Hr. rewrite (Hsame r Hr). symmetry. apply is_high_label_holds.
  - intros g st Hst. simpl in Hst.
    assert (Hg : g = "Male" \/ g = "Female").
    { unfold gender_risk_stats in Hst. simpl in Hst.
      destruct (decide (g = "Female")) as [-> | Hnf]; [right; reflexivity |].
      rewrite lookup_insert_ne in Hst by congruence.
      destruct (decide (g = "Male")) as [-> | Hnm]; [left; reflexivity |].
      rewrite lookup_insert_ne in Hst by congruence.
      rewrite lookup_empty in Hst. discriminate. }
    rewrite (gender_risk_stats_lookup _ g Hg) in Hst. injection Hst as <-.
    destruct (gender_risk_stat_counts (predictions disk) g) as [_ ->].
    unfold gender_high. f_equal. apply Hext.
    intros r Hr. rewrite (Hsame r Hr). reflexivity.
Qed.

Lemma coherent_store_high_risk_thirds :
  List.Forall coherent (predictions thirds_store)
  /\ high_risk_patients (get_dashboard_data thirds_store)
     = count_where is_high_label (predictions thirds_store).
Proof.
  assert (H : List.Forall coherent (predictions thirds_store)).
  { repeat constructor; eexists; (split; [reflexivity |]);
      vm_compute; reflexivity. }
  split; [exact H |].
  exact (proj1 (coherent_store_high_risk thirds_store H)).
Defined.

(** ** What a response says about the store *)

(** X12: the flag of a response is a reliable report of the store.  If
    the response carries saved_to_database = true, the prediction is in
    the table under the id of the response and total_predictions has
    grown by one.  If the flag is absent, the file is as it was, except
    when [conn.close()] itself raised after the commit: only then is a
    stored prediction reported without the flag. *)
Theorem predict_flag_and_store
    (str_to_float : string -> option Q) (str_to_int : string -> option Z)
    (model : gmap string pyval -> option (Z * (Q * Q)))
    (e : env) (data : gmap string pyval) (disk disk' : db) (r : Result.t) :
  (0 <= last_prediction_id disk)%Z ->
  predict str_to_float str_to_int model e data disk = (Ok r, disk') ->
  (Result.saved_to_database r = Some true ->
   total_predictions (get_dashboard_data disk')
   = S (total_predictions (get_dashboard_data disk))
   /\ Result.prediction_id r = Some (last_prediction_id disk + 1)%Z
   /\ exists row, In row (predictions disk')
                  /\ Prediction.id row = (last_prediction_id disk + 1)%Z)
  /\ (Result.saved_to_database r = None ->
      disk' = disk
      \/ (raises e Close = true
          /\ total_predictions (get_dashboard_data disk')
             = S (total_predictions (get_dashboard_data disk)))).
Proof.
  intros Hlast Hp. unfold predict in Hp.
  destruct (prediction_result str_to_float str_to_int model data)
    as [result |] eqn:Hres; [| discriminate].
  destruct (prediction_result_unsaved _ _ _ data result Hres)
    as (_ & _ & Hflag).
  pose proof (save_prediction_outcomes e data result disk) as Hout.
  destruct (save_prediction_to_db e data result disk) as [saved d] eqn:Hsave.
  simpl in Hout.
  destruct Hout as [[= -> ->] | (row & rs & Hrow & _ & _ & -> & Hret)].
  - injection Hp as <- <-. split.
    + rewrite Hflag. discriminate.
    + intros _. left. reflexivity.
  - destruct (stored_prediction_columns e data result disk row Hrow)
      as (Hid & _).
    assert (Htotal : total_predictions
                       (get_dashboard_data (after_append disk row rs))
                     = S (total_predictions (get_dashboard_data disk))).
    { simpl. rewrite List.length_app. simpl. lia. }
    destruct Hret as [-> | [-> Hclose]].
    + assert (Htruthy : truthy_int (Prediction.id row) = true).
      { rewrite Hid. unfold truthy_int.
        destruct (Z.eqb_spec (last_prediction_id disk + 1) 0);
          [lia | reflexivity]. }
      rewrite Htruthy in Hp. injection Hp as <- <-. split.
      * intros _. split; [exact Htotal |].
        split; [simpl; rewrite Hid; reflexivity |].
        exists row. split; [| exact Hid].
        simpl. apply List.in_app_iff. right. left. reflexivity.
      * simpl. discriminate.
    + injection Hp as <- <-. split.
      * rewrite Hflag. discriminate.
      * intros _. right. split; [exact Hclose | exact Htotal].
Qed.

Lemma predict_flag_and_store_scenario :
  (0 <= last_prediction_id empty_db)%Z
  /\ total_predictions
       (get_dashboard_data
          (snd (predict no_float_text no_int_text demo_model quiet
                  scenario_record empty_db)))
     = 1%nat.
Proof.
  assert (H0 : (0 <= last_prediction_id empty_db)%Z) by (simpl; lia).
  split; [exact H0 |].
  destruct (predict no_float_text no_int_text demo_model quiet
              scenario_record empty_db) as [resp disk'] eqn:E.
  assert (Hr : exists r, resp = Ok r /\ Result.saved_to_database r = Some true).
  { vm_compute in E. injection E as <- _. eexists. split; reflexivity. }
  destruct Hr as (r & -> & Hflag).
  exact (proj1 (proj1 (predict_flag_and_store no_float_text no_int_text
                         demo_model quiet scenario_record empty_db disk' r
                         H0 E) Hflag)).
Defined.

(** ** Aggregation: sums and agreement between queries *)

Lemma sum_counts_bump {K : Type} (eqb : K -> K -> bool) (k : K)
    (acc : list (K * nat)) :
  sum_counts (bump eqb k acc) = S (sum_counts acc).
Proof.
  induction acc as [| [k1 n] rest IH]; simpl; [reflexivity |].
  destruct (eqb k k1); simpl; [lia | rewrite IH; lia].
Qed.

Lemma sum_counts_group_count {K : Type} (eqb : K -> K -> bool)
    (keys : list K) :
  sum_counts (group_count eqb keys) = length keys.
Proof.
  unfold group_count.
  assert (H : forall acc,
            sum_counts (fold_left (fun acc k => bump eqb k acc) keys acc)
            = (sum_counts acc + length keys)%nat).
  { induction keys as [| k keys IH]; intros acc; simpl; [lia |].
    rewrite IH, sum_counts_bump. lia. }
  rewrite H. reflexivity.
Qed.

Lemma sum_counts_order_by {K : Type} (key : K * nat -> nat)
    (l : list (K * nat)) :
  sum_counts (order_by key l) = sum_counts l.
Proof.
  assert (Hins : forall x l', sum_counts (insert_by key x l')
                              = (snd x + sum_counts l')%nat).
  { intros x l'. induction l' as [| y l' IH]; simpl; [reflexivity |].
    destruct (key x <? key y)%nat; simpl; [reflexivity | rewrite IH; lia]. }
  induction l as [| x l IH]; simpl; [reflexivity |].
  rewrite Hins, IH. reflexivity.
Qed.

(** X13: whenever the endpoint answers with statistics, its three
    distributions account for every prediction exactly once: the counts
    of gender_distribution, of risk_distribution and of
    age_distribution each add up to total_predictions. *)
Theorem distributions_sum_to_total (disk : db) (d : dashboard) :
  dashboard_data_response disk = Statistics d ->
  sum_counts (gender_distribution d) = total_predictions d
  /\ sum_counts (risk_distribution d) = total_predictions d
  /\ sum_counts (age_distribution_ d) = total_predictions d.
Proof.
  intros Hd. apply dashboard_data_response_statistics in Hd. subst d.
  simpl. unfold age_distribution.
  rewrite sum_counts_order_by, !sum_counts_group_count, !List.length_map.
  repeat split; reflexivity.
Qed.

(** On [labelled_store] each distribution adds up to the three stored
    predictions. *)
Lemma distributions_sum_to_total_labelled :
  dashboard_data_response labelled_store
  = Statistics (get_dashboard_data labelled_store)
  /\ sum_counts (gender_distribution (get_dashboard_data labelled_store))
     = 3%nat
  /\ sum_counts (risk_distribution (get_dashboard_data labelled_store))
     = 3%nat
  /\ sum_counts (age_distribution_ (get_dashboard_data labelled_store))
     = 3%nat.
Proof.
  assert (H : dashboard_data_response labelled_store
              = Statistics (get_dashboard_data labelled_store)).
  { apply dashboard_answers_text. repeat constructor. }
  split; [exact H |].
  exact (distributions_sum_to_total labelled_store
           (get_dashboard_data labelled_store) H).
Defined.

Lemma has_gender_eqb (g : string) (r : Prediction.row) :
  sqlval_eqb (SText g) (Prediction.gender r) = has_gender g r.
Proof.
  unfold has_gender. destruct (Prediction.gender r); simpl; try reflexivity.
  apply String.eqb_sym.
Qed.

Lemma filter_disjoint_length {A : Type} (p q : A -> bool) (l : list A) :
  (forall x, p x = true -> q x = false) ->
  (length (List.filter p l) + length (List.filter q l) <= length l)%nat.
Proof.
  intros H. induction l as [| x l IH]; simpl; [lia |].
  destruct (p x) eqn:Ep.
  - rewrite (H x Ep). simpl. lia.
  - destruct (q x); simpl; lia.
Qed.

(** X14: the per-gender entries agree with the rest of the dashboard in
    every store state: the total of Male (of Female) is the count that
    gender_distribution reports for that gender, its high_risk never
    exceeds its total, and the two totals together never exceed
    total_predictions. *)
Theorem gender_totals_agree (disk : db) :
  exists male female,
    gender_risk_stats_ (get_dashboard_data disk) !! "Male" = Some male
    /\ gender_risk_stats_ (get_dashboard_data disk) !! "Female" = Some female
    /\ GenderStat.total male
       = count_of sqlval_eqb (SText "Male")
           (gender_distribution (get_dashboard_data disk))
    /\ GenderStat.total female
       = count_of sqlval_eqb (SText "Female")
           (gender_distribution (get_dashboard_data disk))
    /\ (GenderStat.high_risk male <= GenderStat.total male)%nat
    /\ (GenderStat.high_risk female <= GenderStat.total female)%nat
    /\ (GenderStat.total male + GenderStat.total female
        <= total_predictions (get_dashboard_data disk))%nat.
Proof.
  set (rows := predictions disk).
  exists (gender_risk_stat rows "Male"), (gender_risk_stat rows "Female").
  destruct (gender_risk_stat_counts rows "Male") as [Hmt Hmh].
  destruct (gender_risk_stat_counts rows "Female") as [Hft Hfh].
  assert (Hdist : forall g,
            count_of sqlval_eqb (SText g)
              (gender_distribution (get_dashboard_data disk))
            = gender_total g rows).
  { intros g. simpl.
    rewrite (count_of_group_count sqlval_eqb sqlval_eqb_sym sqlval_eqb_trans).
    rewrite filter_map_length. unfold gender_total. f_equal.
    apply filter_ext_length. intros r. apply has_gender_eqb. }
  split; [apply gender_risk_stats_lookup; left; reflexivity |].
  split; [apply gender_risk_stats_lookup; right; reflexivity |].
  rewrite Hmt, Hft, Hmh, Hfh, !Hdist.
  split; [reflexivity |]. split; [reflexivity |].
  split; [apply gender_high_le_total |].
  split; [apply gender_high_le_total |].
  simpl. unfold gender_total. apply filter_disjoint_length.
  intros r. unfold has_gender.
  destruct (Prediction.gender r) as [| q | s]; try discriminate.
  rewrite !String.eqb_eq. intros ->. reflexivity.
Qed.

(** ** Aggregation: BMI and glucose classes *)

Lemma or_zero_sum_case (cond : Prediction.row -> option bool)
    (rows : list Prediction.row) :
  or_zero (sum_case cond rows)
  = length (List.filter (fun r => holds (cond r)) rows).
Proof. destruct rows; reflexivity. Qed.

Lemma filter_length_app {A : Type} (p : A -> bool) (l1 l2 : list A) :
  length (List.filter p (l1 ++ l2))
  = (length (List.filter p l1) + length (List.filter p l2))%nat.
Proof. rewrite List.filter_app, List.length_app. reflexivity. Qed.

(** The class sizes of the BMI query, as plain counts over the table. *)
Lemma bmi_stats_counts (rows : list Prediction.row) :
  let class (c : sqlval -> option bool) :=
    length (List.filter
              (fun r => holds (sql_is_not_null (Prediction.bmi r))
                        && holds (c (Prediction.bmi r))) rows) in
  BmiStats.underweight (bmi_stats rows)
  = class (fun v => sql_lt_num v 18.5)
  /\ BmiStats.normal (bmi_stats rows)
     = class (fun v => sql_and (sql_ge_num v 18.5) (sql_lt_num v 25))
  /\ BmiStats.overweight (bmi_stats rows)
     = class (fun v => sql_and (sql_ge_num v 25) (sql_lt_num v 30))
  /\ BmiStats.obese (bmi_stats rows) = class (fun v => sql_ge_num v 30).
Proof.
  intros class. unfold bmi_stats, class, select_where. simpl.
  rewrite !or_zero_sum_case, !filter_filter. repeat split; reflexivity.
Qed.

Lemma bmi_stats_app (rows1 rows2 : list Prediction.row) :
  BmiStats.underweight (bmi_stats (rows1 ++ rows2))
  = (BmiStats.underweight (bmi_stats rows1)
     + BmiStats.underweight (bmi_stats rows2))%nat
  /\ BmiStats.normal (bmi_stats (rows1 ++ rows2))
     = (BmiStats.normal (bmi_stats rows1)
        + BmiStats.normal (bmi_stats rows2))%nat
  /\ BmiStats.overweight (bmi_stats (rows1 ++ rows2))
     = (BmiStats.overweight (bmi_stats rows1)
        + BmiStats.overweight (bmi_stats rows2))%nat
  /\ BmiStats.obese (bmi_stats (rows1 ++ rows2))
     = (BmiStats.obese (bmi_stats rows1)
        + BmiStats.obese (bmi_stats rows2))%nat.
Proof.
  destruct (bmi_stats_counts (rows1 ++ rows2)) as (-> & -> & -> & ->).
  destruct (bmi_stats_counts rows1) as (-> & -> & -> & ->).
  destruct (bmi_stats_counts rows2) as (-> & -> & -> & ->).
  rewrite !filter_length_app. repeat split; reflexivity.
Qed.

Lemma bmi_stats_total (rows : list Prediction.row) :
  (BmiStats.underweight (bmi_stats rows) + BmiStats.normal (bmi_stats rows)
   + BmiStats.overweight (bmi_stats rows) + BmiStats.obese (bmi_stats rows))%nat
  = count_not_null Prediction.bmi rows.
Proof.
  destruct (bmi_stats_counts rows) as (-> & -> & -> & ->).
  unfold count_not_null.
  induction rows as [| r rows IH]; [reflexivity |].
  cbn [List.filter].
  destruct (Prediction.bmi r) as [| q | s].
  - simpl in *. lia.
  - simpl holds. simpl andb.
    destruct (Qltb q 18.5) eqn:E1;
      [apply Qltb_lt in E1 | apply Qltb_ge in E1];
      (destruct (Qltb q 25) eqn:E2;
       [apply Qltb_lt in E2 | apply Qltb_ge in E2]);
      (destruct (Qltb q 30) eqn:E3;
       [apply Qltb_lt in E3 | apply Qltb_ge in E3]);
      simpl in *; try lia; exfalso; lra.
  - simpl in *. lia.
Qed.

(** X15: the four BMI classes of the dashboard split the rows that have
    a BMI: their sizes add up to the number of rows whose bmi is not
    NULL, the statistics of two tables put together are the sums of
    their statistics, and one row with a numeric bmi b counts in exactly
    one class: underweight iff b < 18.5, normal iff 18.5 <= b < 25,
    overweight iff 25 <= b < 30, obese iff b >= 30.  A NULL bmi counts
    nowhere; a bmi stored as text counts as obese.  On an empty table
    all four are 0. *)
Theorem bmi_stats_partition (rows1 rows2 : list Prediction.row)
    (r : Prediction.row) :
  bmi_stats [] = BmiStats.mk 0 0 0 0
  /\ (BmiStats.underweight (bmi_stats rows1) + BmiStats.normal (bmi_stats rows1)
      + BmiStats.overweight (bmi_stats rows1)
      + BmiStats.obese (bmi_stats rows1))%nat
     = count_not_null Prediction.bmi rows1
  /\ (BmiStats.underweight (bmi_stats (rows1 ++ rows2))
      = (BmiStats.underweight (bmi_stats rows1)
         + BmiStats.underweight (bmi_stats rows2))%nat
      /\ BmiStats.normal (bmi_stats (rows1 ++ rows2))
         = (BmiStats.normal (bmi_stats rows1)
            + BmiStats.normal (bmi_stats rows2))%nat
      /\ BmiStats.overweight (bmi_stats (rows1 ++ rows2))
         = (BmiStats.overweight (bmi_stats rows1)
            + BmiStats.overweight (bmi_stats rows2))%nat
      /\ BmiStats.obese (bmi_stats (rows1 ++ rows2))
         = (BmiStats.obese (bmi_stats rows1)
            + BmiStats.obese (bmi_stats rows2))%nat)
  /\ match Prediction.bmi r with
     | SNull => bmi_stats [r] = BmiStats.mk 0 0 0 0
     | SText _ => bmi_stats [r] = BmiStats.mk 0 0 0 1
     | SNum b =>
         (b < 18.5 /\ bmi_stats [r] = BmiStats.mk 1 0 0 0)
         \/ (18.5 <= b /\ b < 25 /\ bmi_stats [r] = BmiStats.mk 0 1 0 0)
         \/ (25 <= b /\ b < 30 /\ bmi_stats [r] = BmiStats.mk 0 0 1 0)
         \/ (30 <= b /\ bmi_stats [r] = BmiStats.mk 0 0 0 1)
     end.
Proof.
  split; [reflexivity |].
  split; [apply bmi_stats_total |].
  split; [apply bmi_stats_app |].
  assert (Hone : bmi_stats [r]
            = let v := Prediction.bmi r in
              let bit (b : bool) := if b then 1%nat else 0%nat in
              BmiStats.mk
                (bit (holds (sql_is_not_null v) && holds (sql_lt_num v 18.5)))
                (bit (holds (sql_is_not_null v)
                      && holds (sql_and (sql_ge_num v 18.5) (sql_lt_num v 25))))
                (bit (holds (sql_is_not_null v)
                      && holds (sql_and (sql_ge_num v 25) (sql_lt_num v 30))))
                (bit (holds (sql_is_not_null v) && holds (sql_ge_num v 30)))).
  { unfold bmi_stats, select_where. cbn [List.filter].
    destruct (Prediction.bmi r) as [| q | s] eqn:E; cbn.
    - reflexivity.
    - rewrite E. cbn. destruct (Qltb q 18.5), (Qltb q 25), (Qltb q 30);
        reflexivity.
    - rewrite E. reflexivity. }
  rewrite Hone. cbv zeta.
  destruct (Prediction.bmi r) as [| q | s]; [reflexivity | | reflexivity].
  simpl holds. simpl andb.
  destruct (Qltb q 18.5) eqn:E1;
    [apply Qltb_lt in E1 | apply Qltb_ge in E1];
    (destruct (Qltb q 25) eqn:E2;
     [apply Qltb_lt in E2 | apply Qltb_ge in E2]);
    (destruct (Qltb q 30) eqn:E3;
     [apply Qltb_lt in E3 | apply Qltb_ge in E3]);
    simpl;
    first
      [ solve [left; split; [assumption | reflexivity]]
      | solve [right; left; repeat split; assumption]
      | solve [right; right; left; repeat split; assumption]
      | solve [right; right; right; split; [assumption | reflexivity]]
      | exfalso; lra ].
Qed.

Lemma glucose_stats_counts (rows : list Prediction.row) :
  let class (c : sqlval -> option bool) :=
    length (List.filter
              (fun r =>
                 holds (sql_is_not_null (Prediction.avg_glucose_level r))
                 && holds (c (Prediction.avg_glucose_level r))) rows) in
  GlucoseStats.normal (glucose_stats rows)
  = class (fun v => sql_lt_num v 100)
  /\ GlucoseStats.prediabetes (glucose_stats rows)
     = class (fun v => sql_and (sql_ge_num v 100) (sql_lt_num v 126))
  /\ GlucoseStats.diabetes (glucose_stats rows)
     = class (fun v => sql_ge_num v 126).
Proof.
  intros class. unfold glucose_stats, class, select_where. simpl.
  rewrite !or_zero_sum_case, !filter_filter. repeat split; reflexivity.
Qed.

Lemma glucose_stats_total (rows : list Prediction.row) :
  (GlucoseStats.normal (glucose_stats rows)
   + GlucoseStats.prediabetes (glucose_stats rows)
   + GlucoseStats.diabetes (glucose_stats rows))%nat
  = count_not_null Prediction.avg_glucose_level rows.
Proof.
  destruct (glucose_stats_counts rows) as (-> & -> & ->).
  unfold count_not_null.
  induction rows as [| r rows IH]; [reflexivity |].
  cbn [List.filter].
  destruct (Prediction.avg_glucose_level r) as [| q | s].
  - simpl in *. lia.
  - simpl holds. simpl andb.
    destruct (Qltb q 100) eqn:E1;
      [apply Qltb_lt in E1 | apply Qltb_ge in E1];
      (destruct (Qltb q 126) eqn:E2;
       [apply Qltb_lt in E2 | apply Qltb_ge in E2]);
      simpl in *; try lia; exfalso; lra.
  - simpl in *. lia.
Qed.

(** X16: the three glucose classes of the dashboard split the rows that
    have a glucose level: their sizes add up to the number of rows whose
    avg_glucose_level is not NULL, and one row with a numeric level g
    counts in exactly one class: normal iff g < 100, prediabetes iff
    100 <= g < 126, diabetes iff g >= 126 (NULL nowhere, text as
    diabetes).  On an empty table all three are 0. *)
Theorem glucose_stats_partition (rows : list Prediction.row)
    (r : Prediction.row) :
  glucose_stats [] = GlucoseStats.mk 0 0 0
  /\ (GlucoseStats.normal (glucose_stats rows)
      + GlucoseStats.prediabetes (glucose_stats rows)
      + GlucoseStats.diabetes (glucose_stats rows))%nat
     = count_not_null Prediction.avg_glucose_level rows
  /\ match Prediction.avg_glucose_level r with
     | SNull => glucose_stats [r] = GlucoseStats.mk 0 0 0
     | SText _ => glucose_stats [r] = GlucoseStats.mk 0 0 1
     | SNum g =>
         (g < 100 /\ glucose_stats [r] = GlucoseStats.mk 1 0 0)
         \/ (100 <= g /\ g < 126 /\ glucose_stats [r] = GlucoseStats.mk 0 1 0)
         \/ (126 <= g /\ glucose_stats [r] = GlucoseStats.mk 0 0 1)
     end.
Proof.
  split; [reflexivity |].
  split; [apply glucose_stats_total |].
  unfold glucose_stats, select_where. cbn [List.filter].
  destruct (Prediction.avg_glucose_level r) as [| q | s] eqn:E; cbn.
  - reflexivity.
  - rewrite E. cbn.
    destruct (Qltb q 100) eqn:E1;
      [apply Qltb_lt in E1 | apply Qltb_ge in E1];
      (destruct (Qltb q 126) eqn:E2;
       [apply Qltb_lt in E2 | apply Qltb_ge in E2]);
      cbn;
      first
        [ solve [left; split; [assumption | reflexivity]]
        | solve [right; left; repeat split; assumption]
        | solve [right; right; split; [assumption | reflexivity]]
        | exfalso; lra ].
  - rewrite E. reflexivity.
Qed.

(** ** The dashboard on an empty store *)

(** X17: on a store without predictions the dashboard is all zeros and
    empty lists and nothing divides by zero: total and high-risk count
    0, the three distributions empty, both gender entries 0, 0 and 0
    percent, all BMI and glucose classes 0. *)
Theorem dashboard_of_empty_store (disk : db) :
  predictions disk = [] ->
  total_predictions (get_dashboard_data disk) = 0%nat
  /\ high_risk_patients (get_dashboard_data disk) = 0%nat
  /\ gender_distribution (get_dashboard_data disk) = []
  /\ risk_distribution (get_dashboard_data disk) = []
  /\ age_distribution_ (get_dashboard_data disk) = []
  /\ (forall g, g = "Male" \/ g = "Female" ->
        exists st,
          gender_risk_stats_ (get_dashboard_data disk) !! g = Some st
          /\ GenderStat.total st = 0%nat
          /\ GenderStat.high_risk st = 0%nat
          /\ GenderStat.risk_percentage st == 0)
  /\ bmi_stats (predictions disk) = BmiStats.mk 0 0 0 0
  /\ glucose_stats (predictions disk) = GlucoseStats.mk 0 0 0.
Proof.
  intros Hempty. simpl. rewrite Hempty.
  repeat split; try reflexivity.
  intros g Hg. exists (gender_risk_stat [] g).
  split; [apply gender_risk_stats_lookup; exact Hg |].
  repeat split; reflexivity.
Qed.

Lemma dashboard_of_empty_store_fresh :
  predictions empty_db = []
  /\ total_predictions (get_dashboard_data empty_db) = 0%nat
  /\ age_distribution_ (get_dashboard_data empty_db) = []
  /\ bmi_stats (predictions empty_db) = BmiStats.mk 0 0 0 0.
Proof.
  assert (H : predictions empty_db = []) by reflexivity.
  split; [exact H |].
  destruct (dashboard_of_empty_store empty_db H)
    as (H1 & _ & _ & _ & H5 & _ & H7 & _).
  split; [exact H1 |]. split; [exact H5 | exact H7].
Defined.

(** ** Cut points of the analyzer and of the dashboard *)

(** X18: the analyzer and the dashboard cut the same scales one step
    apart at the boundary values.  A stored bmi counts as obese from 30
    on but the BMI factor is High only above 30, so the two disagree
    exactly at bmi = 30; likewise overweight starts at 25 while the
    factor leaves Normal only above 25.  For age, the bucket 65+ starts
    at 65 while the Age factor is High only above 65, and the bucket
    50-64 starts at 50 while the factor leaves Low only above 50. *)
Theorem boundary_values_differ (r : Prediction.row) (b a : Q) :
  Prediction.bmi r = SNum b ->
  (risk_category (bmi_factor b) = "High" ->
   BmiStats.obese (bmi_stats [r]) = 1%nat)
  /\ (BmiStats.obese (bmi_stats [r]) = 1%nat
      /\ risk_category (bmi_factor b) <> "High" <-> b == 30)
  /\ (BmiStats.overweight (bmi_stats [r]) = 1%nat
      /\ risk_category (bmi_factor b) = "Normal" <-> b == 25)
  /\ (age_group (SNum a) = "65+" /\ risk_category (age_factor a) <> "High"
      <-> a == 65)
  /\ (age_group (SNum a) = "50-64" /\ risk_category (age_factor a) = "Low"
      <-> a == 50).
Proof.
  intros Hb.
  assert (Hstats : BmiStats.obese (bmi_stats [r])
                   = (if Qltb b 30 then 0%nat else 1%nat)
                   /\ BmiStats.overweight (bmi_stats [r])
                      = (if Qltb b 25 then 0%nat
                         else if Qltb b 30 then 1%nat else 0%nat)).
  { unfold bmi_stats, select_where. cbn [List.filter]. rewrite Hb. cbn.
    rewrite Hb. cbn. destruct (Qltb b 25), (Qltb b 30); split; reflexivity. }
  destruct Hstats as [-> ->].
  unfold age_group, sql_lt_num, holds. simpl risk_category.
  repeat match goal with |- _ /\ _ => split end.
  - split_comparisons; intros; try reflexivity; try discriminate; lra.
  - split_comparisons; split; intros;
      repeat match goal with H : _ /\ _ |- _ => destruct H end;
      try discriminate; try lra; try (split; [reflexivity | discriminate]);
      try contradiction; try congruence.
  - split_comparisons; split; intros;
      repeat match goal with H : _ /\ _ |- _ => destruct H end;
      try discriminate; try lra; try (split; reflexivity).
  - split_comparisons; split; intros;
      repeat match goal with H : _ /\ _ |- _ => destruct H end;
      try discriminate; try lra; try (split; [reflexivity | discriminate]);
      try contradiction; try congruence.
  - split_comparisons; split; intros;
      repeat match goal with H : _ /\ _ |- _ => destruct H end;
      try discriminate; try lra; try (split; reflexivity).
Qed.

Lemma boundary_values_differ_thirty :
  Prediction.bmi (measured_row 30 100) = SNum 30
  /\ BmiStats.obese (bmi_stats [measured_row 30 100]) = 1%nat
  /\ risk_category (bmi_factor 30) <> "High"
  /\ age_group (SNum 65) = "65+"
  /\ risk_category (age_factor 65) <> "High".
Proof.
  assert (H : Prediction.bmi (measured_row 30 100) = SNum 30) by reflexivity.
  split; [exact H |].
  destruct (boundary_values_differ (measured_row 30 100) 30 65 H)
    as (_ & H2 & _ & H4 & _).
  destruct (proj2 H2 ltac:(reflexivity)) as [Ho Hc].
  destruct (proj2 H4 ltac:(reflexivity)) as [Hg Ha].
  repeat split; assumption.
Defined.

(** ** ORDER BY ... DESC LIMIT *)

Lemma string_compare_trans_ge (a b c : string) :
  String.compare a b <> Lt -> String.compare b c <> Lt ->
  String.compare a c <> Lt.
Proof.
  intros Hab Hbc Hac.
  apply OrderedTypeEx.String_as_OT.cmp_lt in Hac.
  destruct (String.compare b c) eqn:Ebc.
  - apply String.compare_eq_iff in Ebc. subst c.
    apply OrderedTypeEx.String_as_OT.cmp_lt in Hac. contradiction.
  - contradiction Hbc. reflexivity.
  - assert (Hcb : String.compare c b = Lt).
    { rewrite String.compare_antisym, Ebc. reflexivity. }
    apply OrderedTypeEx.String_as_OT.cmp_lt in Hcb.
    pose proof (OrderedTypeEx.String_as_OT.lt_trans _ _ _ Hac Hcb) as Hlt.
    apply OrderedTypeEx.String_as_OT.cmp_lt in Hlt. contradiction.
Qed.

Lemma sql_not_before_total (a b : sqlval) :
  sql_not_before a b = false -> sql_not_before b a = true.
Proof.
  unfold sql_not_before.
  destruct a as [| x | s], b as [| y | t]; simpl; try discriminate;
    try reflexivity.
  - rewrite <- (Qcompare_antisym x y). destruct (Qcompare x y); simpl;
      try discriminate; reflexivity.
  - rewrite (String.compare_antisym t s).
    destruct (String.compare s t); simpl; try discriminate; reflexivity.
Qed.

Lemma sql_not_before_trans (a b c : sqlval) :
  sql_not_before a b = true -> sql_not_before b c = true ->
  sql_not_before a c = true.
Proof.
  unfold sql_not_before.
  destruct a as [| x | s], b as [| y | t], c as [| z | u]; simpl;
    try discriminate; try reflexivity.
  - intros Hxy Hyz.
    destruct (Qcompare_spec x y) as [H1 | H1 | H1]; try discriminate;
      destruct (Qcompare_spec y z) as [H2 | H2 | H2]; try discriminate;
      destruct (Qcompare_spec x z) as [H3 | H3 | H3]; try reflexivity;
      exfalso; lra.
  - intros Hst Htu.
    assert (H : String.compare s u <> Lt).
    { apply (string_compare_trans_ge s t u).
      - destruct (String.compare s t); discriminate.
      - destruct (String.compare t u); discriminate. }
    destruct (String.compare s u); try reflexivity. contradiction H.
    reflexivity.
Qed.

Section OrderByDescFacts.

Context {A : Type} (key : A -> sqlval).

Lemma insert_desc_perm (x : A) (l : list A) :
  Permutation (insert_desc key x l) (x :: l).
Proof.
  induction l as [| y l IH]; simpl; [reflexivity |].
  destruct (sql_not_before (key x) (key y)); [reflexivity |].
  rewrite IH. apply perm_swap.
Qed.

Lemma order_by_desc_perm (l : list A) :
  Permutation (order_by_desc key l) l.
Proof.
  induction l as [| x l IH]; simpl; [reflexivity |].
  rewrite insert_desc_perm, IH. reflexivity.
Qed.

Lemma insert_desc_sorted (x : A) (l : list A) :
  StronglySorted (key_not_before key) l ->
  StronglySorted (key_not_before key) (insert_desc key x l).
Proof.
  induction 1 as [| y l Hl IH Hy]; simpl.
  - constructor; constructor.
  - destruct (sql_not_before (key x) (key y)) eqn:E.
    + constructor; [constructor; assumption |].
      constructor; [exact E |].
      rewrite List.Forall_forall in Hy |- *. intros z Hz.
      apply (sql_not_before_trans _ (key y)); [exact E | apply Hy; exact Hz].
    + constructor; [exact IH |].
      rewrite List.Forall_forall in Hy |- *. intros z Hz.
      apply (Permutation_in _ (insert_desc_perm x l)) in Hz.
      destruct Hz as [<- | Hz]; [| apply Hy; exact Hz].
      apply sql_not_before_total. exact E.
Qed.

Lemma order_by_desc_sorted (l : list A) :
  StronglySorted (key_not_before key) (order_by_desc key l).
Proof.
  induction l as [| x l IH]; simpl; [constructor |].
  apply insert_desc_sorted. exact IH.
Qed.

Lemma sorted_app_dominates (l1 l2 : list A) :
  StronglySorted (key_not_before key) (l1 ++ l2) ->
  forall x y, In x l1 -> In y l2 -> key_not_before key x y.
Proof.
  induction l1 as [| z l1 IH]; simpl; intros Hs x y Hx Hy; [contradiction |].
  inversion Hs as [| ? ? Hs' Hall]; subst.
  destruct Hx as [<- | Hx].
  - rewrite List.Forall_forall in Hall. apply Hall.
    apply List.in_app_iff. right. exact Hy.
  - apply IH; assumption.
Qed.

End OrderByDescFacts.

(** X19: recent_predictions holds the newest rows of the table: as many
    as there are, but at most 10; together with the rows left out they
    are exactly the rows of the table, ordered by timestamp from newest
    to oldest (NULL timestamps last), so no row that is left out is
    newer than a row that is shown; a table of at most 10 rows is shown
    in full. *)
Theorem recent_predictions_newest (rows : list Prediction.row) :
  length (recent_predictions rows) = Nat.min 10 (length rows)
  /\ Permutation (recent_predictions rows ++ older_predictions rows) rows
  /\ StronglySorted not_older
       (recent_predictions rows ++ older_predictions rows)
  /\ (forall x y, In x (recent_predictions rows) ->
                  In y (older_predictions rows) -> not_older x y)
  /\ ((length rows <= 10)%nat -> Permutation (recent_predictions rows) rows).
Proof.
  unfold recent_predictions, older_predictions.
  set (sorted := order_by_desc Prediction.timestamp rows).
  assert (Hperm : Permutation sorted rows) by apply order_by_desc_perm.
  assert (Hsorted : StronglySorted not_older sorted)
    by apply (order_by_desc_sorted Prediction.timestamp).
  assert (Hlen : length sorted = length rows)
    by (apply Permutation_length; exact Hperm).
  split; [rewrite List.length_firstn, Hlen; reflexivity |].
  split; [rewrite List.firstn_skipn; exact Hperm |].
  split; [rewrite List.firstn_skipn; exact Hsorted |].
  split.
  - apply (sorted_app_dominates Prediction.timestamp).
    rewrite List.firstn_skipn. exact Hsorted.
  - intros Hle. rewrite List.firstn_all2 by lia. exact Hperm.
Qed.

(** ** Prevalence figures *)

Lemma round_half_away_near (x : Q) :
  0 <= x ->
  inject_Z (round_half_away x) - (1 # 2) <= x
  /\ x <= inject_Z (round_half_away x) + (1 # 2).
Proof.
  intros Hx. unfold round_half_away.
  assert (E : Qltb x 0 = false) by (apply Qltb_ge; exact Hx).
  rewrite E.
  change (Qnum (x + (1 # 2)) / Z.pos (Qden (x + (1 # 2))))%Z
    with (Qround.Qfloor (x + (1 # 2))).
  pose proof (Qround.Qfloor_le (x + (1 # 2))) as H1.
  pose proof (Qround.Qlt_floor (x + (1 # 2))) as H2.
  rewrite inject_Z_plus in H2. change (inject_Z 1) with 1 in H2.
  split; lra.
Qed.

Lemma round_half_away_between (x : Q) (b : Z) :
  0 <= x -> x <= inject_Z b ->
  (0 <= round_half_away x <= b)%Z.
Proof.
  intros Hx Hb.
  destruct (round_half_away_near x Hx) as [H1 H2].
  set (R := round_half_away x) in *.
  assert (Hlo : inject_Z (-1) < inject_Z R).
  { change (inject_Z (-1)) with (-(1)). lra. }
  assert (Hhi : inject_Z R < inject_Z (b + 1)).
  { rewrite inject_Z_plus. change (inject_Z 1) with 1. lra. }
  rewrite <- Zlt_Qlt in Hlo, Hhi. lia.
Qed.

Lemma sql_round1_near (x : Q) :
  0 <= x ->
  sql_round1 x - (1 # 20) <= x /\ x <= sql_round1 x + (1 # 20).
Proof.
  intros Hx. unfold sql_round1.
  destruct (round_half_away_near (x * 10)) as [H1 H2]; [lra |].
  set (R := round_half_away (x * 10)) in *.
  assert (HR : R # 10 == inject_Z R * (1 # 10)).
  { unfold Qeq, Qmult, inject_Z. simpl. lia. }
  rewrite HR. split; lra.
Qed.

Lemma sql_round1_between (x : Q) :
  0 <= x -> x <= 100 -> 0 <= sql_round1 x /\ sql_round1 x <= 100.
Proof.
  intros H0 H100. unfold sql_round1.
  destruct (round_half_away_between (x * 10) 1000) as [Ha Hb].
  - lra.
  - change (inject_Z 1000) with 1000. lra.
  - unfold Qle. simpl. split; lia.
Qed.

Lemma prevalence_spec (cond : Prediction.row -> option bool)
    (p : Prediction.row -> bool) (rows : list Prediction.row) :
  (forall r, holds (cond r) = p r) ->
  prevalence cond [] = 0
  /\ 0 <= prevalence cond rows
  /\ prevalence cond rows <= 100
  /\ (rows <> [] ->
      prevalence cond rows - (1 # 20) <= share p rows
      /\ share p rows <= prevalence cond rows + (1 # 20)).
Proof.
  intros Hp. split; [reflexivity |].
  unfold prevalence, avg_case, share.
  destruct rows as [| r rows]; [repeat split; try lra; congruence |].
  rewrite (filter_ext_length _ p (r :: rows) Hp).
  set (h := length (List.filter p (r :: rows))).
  set (t := length (r :: rows)).
  assert (Hle : (h <= t)%nat) by apply List.filter_length_le.
  assert (Hpos : (0 < t)%nat) by (unfold t; simpl; lia).
  destruct (ratio_percent_bounds h t Hle Hpos) as [H0 H100].
  destruct (sql_round1_between _ H0 H100) as [Hr0 Hr100].
  destruct (sql_round1_near _ H0) as [Hn1 Hn2].
  assert (Hq : 100 * Qnat h / Qnat t == Qnat h / Qnat t * 100)
    by (unfold Qdiv; ring).
  split; [exact Hr0 |]. split; [exact Hr100 |].
  intros _. rewrite Hq. split; assumption.
Qed.

(** X20: the prevalence figures 'Smoking History' and 'Age > 65' are 0
    on an empty table, always lie in [0, 100], and on a non-empty table
    are within 0.05 of the share of rows that count: for smoking the
    rows stored as "smokes" or "formerly smoked"; for age the rows whose
    age is above 65, so a patient of exactly 65 is in the bucket 65+ but
    not in this figure. *)
Theorem prevalence_figures (rows : list Prediction.row) :
  smoking_pct [] = 0
  /\ elderly_pct [] = 0
  /\ (0 <= smoking_pct rows /\ smoking_pct rows <= 100)
  /\ (0 <= elderly_pct rows /\ elderly_pct rows <= 100)
  /\ (rows <> [] ->
      smoking_pct rows - (1 # 20) <= share ever_smoked rows
      /\ share ever_smoked rows <= smoking_pct rows + (1 # 20))
  /\ (rows <> [] ->
      elderly_pct rows - (1 # 20) <= share older_than_65 rows
      /\ share older_than_65 rows <= elderly_pct rows + (1 # 20))
  /\ (forall r a, Prediction.age r = SNum a ->
        (older_than_65 r = true <-> 65 < a))
  /\ (forall r, ever_smoked r = true
                <-> Prediction.smoking_status r = SText "smokes"
                    \/ Prediction.smoking_status r = SText "formerly smoked")
  /\ (forall r, Prediction.age r = SNum 65 ->
        age_group (Prediction.age r) = "65+" /\ elderly_pct [r] == 0).
Proof.
  assert (Hs : forall r,
            holds (sql_in_text (Prediction.smoking_status r)
                     ["smokes"; "formerly smoked"]) = ever_smoked r).
  { intros r. unfold ever_smoked, sql_in_text.
    destruct (Prediction.smoking_status r) as [| q | s]; simpl;
      try reflexivity.
    rewrite orb_false_r.
    destruct (String.eqb s "smokes" || String.eqb s "formerly smoked");
      reflexivity. }
  assert (He : forall r,
            holds (sql_gt_num (Prediction.age r) 65) = older_than_65 r).
  { intros r. unfold older_than_65, sql_gt_num.
    destruct (Prediction.age r) as [| q | s]; simpl; try reflexivity.
    destruct (Qltb 65 q); reflexivity. }
  destruct (prevalence_spec _ ever_smoked rows Hs) as (S0 & S1 & S2 & S3).
  destruct (prevalence_spec _ older_than_65 rows He) as (E0 & E1 & E2 & E3).
  split; [exact S0 |]. split; [exact E0 |].
  split; [split; assumption |]. split; [split; assumption |].
  split; [exact S3 |]. split; [exact E3 |].
  split.
  { intros r a Ha. unfold older_than_65. rewrite Ha. apply Qltb_lt. }
  split.
  { intros r. unfold ever_smoked.
    destruct (Prediction.smoking_status r) as [| q | s].
    - split; [discriminate | intros [H | H]; discriminate].
    - split; [discriminate | intros [H | H]; discriminate].
    - rewrite orb_true_iff, !String.eqb_eq.
      split; (intros [H | H]; [left | right]); congruence. }
  intros r Ha. rewrite Ha. split; [reflexivity |].
  unfold elderly_pct, prevalence, avg_case. cbn [List.filter].
  rewrite He. unfold older_than_65. rewrite Ha. reflexivity.
Qed.
